(** * The update-subscription engine of the notify plugin

    A shallow embedding of [src/src/notify.ts]: the configuration store,
    the version-state store, the enumeration of subscriptions, the change
    detector ([checkOnce], [checkOne], [sendUpdate]) and the [notify.add]
    and [notify.check] commands, followed by the properties the
    specification states about them.

    Conventions of the embedding.
    - A JavaScript string is a [string]: a sequence of code units below 256.
    - A JavaScript number is a [jsnum]: NaN, the two infinities, or a finite
      value, taken to be an integer (intervals and clock readings are
      millisecond counts).
    - The scalar read from a field typed [any] in the source is a [jsval];
      a field that is missing reads as [Undefined].
    - [async] functions run to completion one after another, so they are
      state transformers on [World]; the outside world (clock, network,
      renderer, chat delivery, disk) is an [Env] of oracles and everything
      the engine does to it is appended to the [trace]. *)

From stdpp Require Import base option list strings gmap pretty.
From Stdlib Require Import ZArith Lia.

Local Open Scope string_scope.
Local Open Scope list_scope.
Local Open Scope Z_scope.

(** ** The fragment of JavaScript the engine relies on *)

Module JS.

Inductive jsnum := NaN | PInf | NInf | Fin (z : Z).

Inductive jsval :=
| Undefined
| Null
| Bool (b : bool)
| Num (n : jsnum)
| Str (s : string).

#[global] Instance jsnum_eq_dec : EqDecision jsnum.
Proof. solve_decision. Defined.

#[global] Instance jsval_eq_dec : EqDecision jsval.
Proof. solve_decision. Defined.

(** [!!n] for a number: NaN and zero are falsy. *)
Definition num_truthy (n : jsnum) : bool :=
  match n with
  | NaN => false
  | Fin z => negb (z =? 0)
  | PInf | NInf => true
  end.

(** [a || b] on numbers. *)
Definition num_or (a b : jsnum) : jsnum := if num_truthy a then a else b.

(** [Number.isFinite]. *)
Definition isFinite (n : jsnum) : bool :=
  match n with Fin _ => true | _ => false end.

(** [a <= b]; every comparison with NaN is false. *)
Definition num_le (a b : jsnum) : bool :=
  match a, b with
  | NaN, _ | _, NaN => false
  | NInf, _ => true
  | _, PInf => true
  | PInf, _ => false
  | _, NInf => false
  | Fin x, Fin y => x <=? y
  end.

(** [a < b]. *)
Definition num_lt (a b : jsnum) : bool :=
  match a, b with
  | NaN, _ | _, NaN => false
  | PInf, _ => false
  | _, NInf => false
  | NInf, _ => true
  | _, PInf => true
  | Fin x, Fin y => x <? y
  end.

(** [Math.max(a, b)]: NaN as soon as one argument is NaN. *)
Definition num_max (a b : jsnum) : jsnum :=
  match a, b with
  | NaN, _ | _, NaN => NaN
  | PInf, _ | _, PInf => PInf
  | NInf, x | x, NInf => x
  | Fin x, Fin y => Fin (Z.max x y)
  end.

(** [a - b]. *)
Definition num_sub (a b : jsnum) : jsnum :=
  match a, b with
  | NaN, _ | _, NaN => NaN
  | PInf, PInf | NInf, NInf => NaN
  | PInf, _ | _, NInf => PInf
  | NInf, _ | _, PInf => NInf
  | Fin x, Fin y => Fin (x - y)
  end.

(** [l[n]] for an array [l]. *)
Definition js_index {A : Type} (l : list A) (n : jsnum) : option A :=
  match n with
  | Fin z => if 0 <=? z then l !! Z.to_nat z else None
  | _ => None
  end.

(** [!!v]. *)
Definition truthy (v : jsval) : bool :=
  match v with
  | Undefined | Null => false
  | Bool b => b
  | Num n => num_truthy n
  | Str s => negb (String.eqb s "")
  end.

(** [a || b]. *)
Definition js_or (a b : jsval) : jsval := if truthy a then a else b.

(** [a ?? b]. *)
Definition nullish (a b : jsval) : jsval :=
  match a with Undefined | Null => b | _ => a end.

(** [a === b] on scalars. *)
Definition strict_eq (a b : jsval) : bool :=
  match a, b with
  | Undefined, Undefined | Null, Null => true
  | Bool x, Bool y => eqb x y
  | Num NaN, Num _ | Num _, Num NaN => false
  | Num x, Num y => bool_decide (x = y)
  | Str x, Str y => String.eqb x y
  | _, _ => false
  end.

(** [typeof v === 'boolean']. *)
Definition is_boolean (v : jsval) : bool :=
  match v with Bool _ => true | _ => false end.

(** The two conversions between numbers and strings are ECMAScript
    built-ins; the engine is verified for whatever they compute. *)
Class EcmaConv := {
  NumberToString : jsnum -> string;
  StringToNumber : string -> jsnum
}.

(** [String(v)]. *)
Definition ToString `{EcmaConv} (v : jsval) : string :=
  match v with
  | Undefined => "undefined"
  | Null => "null"
  | Bool true => "true"
  | Bool false => "false"
  | Num n => NumberToString n
  | Str s => s
  end.

(** [Number(v)]. *)
Definition ToNumber `{EcmaConv} (v : jsval) : jsnum :=
  match v with
  | Undefined => NaN
  | Null => Fin 0
  | Bool true => Fin 1
  | Bool false => Fin 0
  | Num n => n
  | Str s => StringToNumber s
  end.

(** White space and line terminators among the code units below 256:
    TAB, LF, VT, FF, CR, SP and NBSP. *)
Definition is_ws (c : Ascii.ascii) : bool :=
  let n := Ascii.N_of_ascii c in
  ((9 <=? n) && (n <=? 13) || (n =? 32) || (n =? 160))%N.

Fixpoint trimStart (s : string) : string :=
  match s with
  | EmptyString => EmptyString
  | String c r => if is_ws c then trimStart r else s
  end.

Fixpoint trimEnd (s : string) : string :=
  match s with
  | EmptyString => EmptyString
  | String c r =>
      match trimEnd r with
      | EmptyString => if is_ws c then EmptyString else String c EmptyString
      | r' => String c r'
      end
  end.

(** [s.trim()]. *)
Definition trim (s : string) : string := trimEnd (trimStart s).

(** [s.toLowerCase()] on code units below 256: the letters A-Z, and the
    Latin-1 capitals 192-222 except the multiplication sign 215, move up by
    32. *)
Definition lower_char (c : Ascii.ascii) : Ascii.ascii :=
  let n := Ascii.N_of_ascii c in
  if ((65 <=? n) && (n <=? 90)
      || (192 <=? n) && (n <=? 222) && negb (n =? 215))%N
  then Ascii.ascii_of_N (n + 32) else c.

Fixpoint toLowerCase (s : string) : string :=
  match s with
  | EmptyString => EmptyString
  | String c r => String (lower_char c) (toLowerCase r)
  end.

(** What [JSON.parse (JSON.stringify v)] gives back for a scalar held in an
    object property: a number that is not finite is written as [null]; a
    property holding [undefined] is left out and reads as [undefined]. *)
Definition json_value (v : jsval) : jsval :=
  match v with
  | Num n => if isFinite n then v else Null
  | _ => v
  end.

(** A scalar a JSON document can hold (or an omitted property): any
    scalar but a number that is not finite. *)
Definition json_representable (v : jsval) : Prop :=
  match v with
  | Num n => isFinite n = true
  | _ => True
  end.

End JS.

Export JS.

(** ** Data model *)

(** The platform codes ['mr'] (Modrinth) and ['cf'] (CurseForge). *)
Inductive Platform := mr | cf.

#[global] Instance Platform_eq_dec : EqDecision Platform.
Proof. solve_decision. Defined.

Definition platform_code (p : Platform) : string :=
  match p with mr => "mr" | cf => "cf" end.

(** An entry of [group.subs] as it is stored: [{ platform, projectId,
    interval }], each field read as the source reads it ([s?.platform],
    [s?.projectId], [s?.interval]). *)
Record StoredSub := {
  sub_platform : jsval;
  sub_projectId : jsval;
  sub_interval : jsval
}.

(** An entry of [config.groups]: [{ channelId, enabled, subs }];
    [grp_subs] is [None] when [Array.isArray(group.subs)] fails. *)
Record Group := {
  grp_channelId : jsval;
  grp_enabled : jsval;
  grp_subs : option (list StoredSub)
}.

(** The plugin's [config] object, as far as the engine reads it;
    [cfg_groups] is [None] when [Array.isArray(config.groups)] fails. *)
Record Config := {
  cfg_enabled : jsval;
  cfg_groups : option (list Group);
  cfg_interval : jsval;
  cfg_adminAuthority : jsval
}.

(** A subscription as enumerated by [getConfigSubs]:
    [{ channelId: string; platform: 'mr' | 'cf'; projectId: string;
       interval: number }]. *)
Record Sub := {
  channelId : string;
  platform : Platform;
  projectId : string;
  interval : jsnum
}.

(** The record a version fetcher returns ([getLatestModrinth],
    [getLatestCurseForge]); [version] is the label that is compared. *)
Record Latest := {
  versionId : jsval;
  version : string;
  changelog : string;
  downloads : jsval;
  datePublished : jsval;
  loaders : list string;
  gameVersions : list string;
  fileName : string;
  fileSize : jsval
}.

(** Outcome of a version fetcher: it throws (transport error, HTTP status,
    timeout), returns [null] (no release listed) or returns a record. *)
Inductive FetchResult :=
| FetchThrows
| FetchNull
| FetchLatest (latest : Latest).

(** The project detail handed to the card renderer; the engine reads only
    its [source]. *)
Record Detail := { source : string }.

(** An image source as produced by [toImageSrc]. *)
Definition Image := string.

(** Outcome of [sendToChannel]: [true], [false] (no bot could take the
    message) or an exception of [bot.sendMessage]. *)
Inductive SendResult := Sent | NotSent | SendThrows.

(** The collaborators of the engine. [None] stands for a call that throws. *)
Record Env := {
  latestModrinth : string -> FetchResult;
  latestCurseForge : string -> FetchResult;
  latency : Z;
  fetchModrinthDetail : string -> option Detail;
  fetchCurseForgeDetail : string -> option Detail;
  drawProjectCardMRNotify : Detail -> Latest -> option (list Image);
  drawProjectCardCFNotify : Detail -> Latest -> option (list Image);
  deliver : string -> Image -> SendResult;
  diskWritable : bool
}.

Inductive File := ConfigFile | StateFile.

Inductive Warning :=
| ConfigWriteFailed
| StateWriteFailed
| SendFailed (p : Platform) (pid : string)
| CheckFailed (p : Platform) (pid : string)
| CannotDeliver (ch : string).

(** What the engine does to the outside world, in order. *)
Inductive Event :=
| EvFetchLatest (p : Platform) (pid : string)
| EvSendUpdate (ch : string) (p : Platform) (pid : string) (latest : Latest)
| EvDelivered (ch : string) (img : Image)
| EvWriteFile (f : File)
| EvWarn (w : Warning).

(** The value [JSON.parse] returns for a file, by shape: reading or parsing
    throws, the value fails [json && typeof json === 'object'], or it is an
    object. *)
Inductive FileContent (D : Type) :=
| Unreadable
| NotAnObject
| Document (d : D).

Arguments Unreadable {D}.
Arguments NotAnObject {D}.
Arguments Document {D} d.

(** The config document [{ enabled, groups }]; [doc_groups] is [None] when
    [Array.isArray(json.groups)] fails. *)
Record ConfigDoc := {
  doc_enabled : jsval;
  doc_groups : option (list Group)
}.

(** The state document: for each key of the object, [Some lastVersion] when
    the value passes [val && typeof val === 'object'] ([val.lastVersion],
    [Undefined] when missing), [None] otherwise. *)
Definition StateDoc := list (string * option jsval).

(** The closure state of [apply] together with the two files and the clock. *)
Record World := {
  config : Config;
  configLoaded : bool;
  stateCache : gmap string jsval;
  stateLoaded : bool;
  saving : bool;
  lastCheckMap : gmap string Z;
  configFile : FileContent ConfigDoc;
  stateFile : FileContent StateDoc;
  clock : Z;
  trace : list Event
}.

Definition set_config (c : Config) (w : World) : World :=
  {| config := c; configLoaded := configLoaded w; stateCache := stateCache w;
     stateLoaded := stateLoaded w; saving := saving w;
     lastCheckMap := lastCheckMap w; configFile := configFile w;
     stateFile := stateFile w; clock := clock w; trace := trace w |}.

Definition set_configLoaded (b : bool) (w : World) : World :=
  {| config := config w; configLoaded := b; stateCache := stateCache w;
     stateLoaded := stateLoaded w; saving := saving w;
     lastCheckMap := lastCheckMap w; configFile := configFile w;
     stateFile := stateFile w; clock := clock w; trace := trace w |}.

Definition set_stateCache (m : gmap string jsval) (w : World) : World :=
  {| config := config w; configLoaded := configLoaded w; stateCache := m;
     stateLoaded := stateLoaded w; saving := saving w;
     lastCheckMap := lastCheckMap w; configFile := configFile w;
     stateFile := stateFile w; clock := clock w; trace := trace w |}.

Definition set_stateLoaded (b : bool) (w : World) : World :=
  {| config := config w; configLoaded := configLoaded w;
     stateCache := stateCache w; stateLoaded := b; saving := saving w;
     lastCheckMap := lastCheckMap w; configFile := configFile w;
     stateFile := stateFile w; clock := clock w; trace := trace w |}.

Definition set_saving (b : bool) (w : World) : World :=
  {| config := config w; configLoaded := configLoaded w;
     stateCache := stateCache w; stateLoaded := stateLoaded w; saving := b;
     lastCheckMap := lastCheckMap w; configFile := configFile w;
     stateFile := stateFile w; clock := clock w; trace := trace w |}.

Definition set_lastCheckMap (m : gmap string Z) (w : World) : World :=
  {| config := config w; configLoaded := configLoaded w;
     stateCache := stateCache w; stateLoaded := stateLoaded w;
     saving := saving w; lastCheckMap := m; configFile := configFile w;
     stateFile := stateFile w; clock := clock w; trace := trace w |}.

Definition set_configFile (f : FileContent ConfigDoc) (w : World) : World :=
  {| config := config w; configLoaded := configLoaded w;
     stateCache := stateCache w; stateLoaded := stateLoaded w;
     saving := saving w; lastCheckMap := lastCheckMap w; configFile := f;
     stateFile := stateFile w; clock := clock w; trace := trace w |}.

Definition set_stateFile (f : FileContent StateDoc) (w : World) : World :=
  {| config := config w; configLoaded := configLoaded w;
     stateCache := stateCache w; stateLoaded := stateLoaded w;
     saving := saving w; lastCheckMap := lastCheckMap w;
     configFile := configFile w; stateFile := f; clock := clock w;
     trace := trace w |}.

Definition set_clock (t : Z) (w : World) : World :=
  {| config := config w; configLoaded := configLoaded w;
     stateCache := stateCache w; stateLoaded := stateLoaded w;
     saving := saving w; lastCheckMap := lastCheckMap w;
     configFile := configFile w; stateFile := stateFile w; clock := t;
     trace := trace w |}.

(** Append an event to the trace. *)
Definition emit (e : Event) (w : World) : World :=
  {| config := config w; configLoaded := configLoaded w;
     stateCache := stateCache w; stateLoaded := stateLoaded w;
     saving := saving w; lastCheckMap := lastCheckMap w;
     configFile := configFile w; stateFile := stateFile w; clock := clock w;
     trace := trace w ++ [e] |}.

Definition with_enabled (v : jsval) (c : Config) : Config :=
  {| cfg_enabled := v; cfg_groups := cfg_groups c;
     cfg_interval := cfg_interval c;
     cfg_adminAuthority := cfg_adminAuthority c |}.

Definition with_groups (gs : list Group) (c : Config) : Config :=
  {| cfg_enabled := cfg_enabled c; cfg_groups := Some gs;
     cfg_interval := cfg_interval c;
     cfg_adminAuthority := cfg_adminAuthority c |}.

(** ** The engine *)

Section Engine.

Context `{!EcmaConv}.

Definition normalizePlatform (platform : jsval) : option Platform :=
  if strict_eq platform (Str "mr") then Some mr
  else if strict_eq platform (Str "cf") then Some cf
  else None.

Definition getStateKey (channelId : string) (platform : Platform)
    (projectId : string) : string :=
  channelId +:+ "|" +:+ platform_code platform +:+ "|" +:+ projectId.

(** *** Durable config store *)

(** What [JSON.stringify] keeps of a stored subscription and of a group. *)
Definition json_sub (s : StoredSub) : StoredSub :=
  {| sub_platform := json_value (sub_platform s);
     sub_projectId := json_value (sub_projectId s);
     sub_interval := json_value (sub_interval s) |}.

Definition json_group (g : Group) : Group :=
  {| grp_channelId := json_value (grp_channelId g);
     grp_enabled := json_value (grp_enabled g);
     grp_subs := map json_sub <$> grp_subs g |}.

Definition saveConfigToFile (env : Env) (w : World) : World :=
  if diskWritable env then
    let obj :=
      {| doc_enabled := Bool (truthy (cfg_enabled (config w)));
         doc_groups :=
           Some (map json_group (default [] (cfg_groups (config w)))) |} in
    set_configFile (Document obj) (emit (EvWriteFile ConfigFile) w)
  else emit (EvWarn ConfigWriteFailed) w.

(** [if (!Array.isArray(config.groups)) config.groups = []]. *)
Definition groups_made_array (c : Config) : Config :=
  match cfg_groups c with
  | Some _ => c
  | None => with_groups [] c
  end.

Definition loadConfigFromFile (env : Env) (w : World) : World :=
  if configLoaded w then w
  else
    let w := set_configLoaded true w in
    match configFile w with
    | Document json =>
        let c := config w in
        let c := if is_boolean (doc_enabled json)
                 then with_enabled (doc_enabled json) c else c in
        let c := match doc_groups json with
                 | Some gs => with_groups gs c
                 | None => c
                 end in
        set_config (groups_made_array c) w
    | NotAnObject => set_config (groups_made_array (config w)) w
    | Unreadable =>
        let w := set_config (groups_made_array (config w)) w in
        match cfg_groups (config w) with
        | Some (_ :: _) => saveConfigToFile env w
        | _ => w
        end
    end.

(** *** Durable version-state store *)

Definition loadStateFromFile (w : World) : World :=
  if stateLoaded w then w
  else
    let w := set_stateLoaded true w in
    match stateFile w with
    | Document json =>
        set_stateCache
          (foldl (fun cache kv =>
                    match kv.2 with
                    | Some lastVersion => <[kv.1 := lastVersion]> cache
                    | None => cache
                    end)
                 (stateCache w) json) w
    | _ => w
    end.

(** The object [saveStateToFile] builds, [obj[key] = { lastVersion:
    val.lastVersion }] for every entry of the cache, as [JSON] keeps it.
    The assignment [obj["__proto__"] = { ... }] sets the prototype of [obj]
    and gives it no property of its own, so an entry under that key is not
    written. *)
Definition state_document (cache : gmap string jsval) : StateDoc :=
  map (fun kv => (kv.1, Some (json_value kv.2)))
      (map_to_list (delete "__proto__" cache)).

Definition saveStateToFile (env : Env) (w : World) : World :=
  if saving w then w
  else
    let w := set_saving true w in
    let w :=
      if diskWritable env then
        let obj := state_document (stateCache w) in
        set_stateFile (Document obj) (emit (EvWriteFile StateFile) w)
      else emit (EvWarn StateWriteFailed) w in
    set_saving false w.

Definition getState (channelId : string) (platform : Platform)
    (projectId : string) (w : World) : option jsval * World :=
  let w := loadStateFromFile w in
  let key := getStateKey channelId platform projectId in
  (stateCache w !! key, w).

Definition createState (env : Env) (channelId : string) (platform : Platform)
    (projectId : string) (lastVersion : string) (w : World) : World :=
  let w := loadStateFromFile w in
  let key := getStateKey channelId platform projectId in
  let w := set_stateCache (<[key := Str lastVersion]> (stateCache w)) w in
  saveStateToFile env w.

Definition updateState (env : Env) (channelId : string) (platform : Platform)
    (projectId : string) (lastVersion : string) (w : World) : World :=
  let w := loadStateFromFile w in
  let key := getStateKey channelId platform projectId in
  let w := set_stateCache (<[key := Str lastVersion]> (stateCache w)) w in
  saveStateToFile env w.

(** *** Groups and the enumeration of subscriptions *)

Definition getConfigGroups (c : Config) : list Group * Config :=
  let c := groups_made_array c in
  (default [] (cfg_groups c), c).

Fixpoint find_index {A : Type} (p : A -> bool) (l : list A) : option nat :=
  match l with
  | [] => None
  | x :: r => if p x then Some 0%nat else S <$> find_index p r
  end.

(** [String(g?.channelId) === String(channelId)]. *)
Definition same_channel (channelId : jsval) (g : Group) : bool :=
  String.eqb (ToString (grp_channelId g)) (ToString channelId).

Definition getGroup (channelId : jsval) (c : Config)
    : option Group * Config :=
  let '(groups, c) := getConfigGroups c in
  (find (same_channel channelId) groups, c).

(** [ensureGroup] returns the group by reference; here it returns the
    position of that group in [config.groups]. *)
Definition ensureGroup (channelId : jsval) (c : Config) : nat * Config :=
  let '(groups, c) := getConfigGroups c in
  let '(i, groups) :=
    match find_index (same_channel channelId) groups with
    | Some i => (i, groups)
    | None =>
        (length groups,
         groups ++ [ {| grp_channelId := Str (ToString channelId);
                        grp_enabled := Bool true;
                        grp_subs := Some [] |} ])
    end in
  let settle (group : Group) :=
    {| grp_channelId := grp_channelId group;
       grp_enabled := if is_boolean (grp_enabled group)
                      then grp_enabled group else Bool true;
       grp_subs := Some (default [] (grp_subs group)) |} in
  (i, with_groups (alter settle i groups) c).

Definition getConfigSubs (channelId : jsval) (c : Config)
    : list Sub * Config :=
  let '(groups, c) := getConfigGroups c in
  let subs :=
    foldl (fun subs group =>
      if negb (truthy (grp_channelId group)) then subs
      else if truthy channelId
              && negb (strict_eq (grp_channelId group) channelId) then subs
      else if strict_eq (grp_enabled group) (Bool false) then subs
      else
        let list := default [] (grp_subs group) in
        foldl (fun subs sub =>
          match normalizePlatform (sub_platform sub) with
          | None => subs
          | Some platformKey =>
              let projectId :=
                trim (ToString (js_or (sub_projectId sub) (Str ""))) in
              if String.eqb projectId "" then subs
              else
                let rawInterval := ToNumber (sub_interval sub) in
                if isFinite rawInterval && num_le rawInterval (Fin 0)
                then subs
                else
                  let interval :=
                    num_max (Fin (60 * 1000))
                      (num_or (num_or rawInterval
                                 (ToNumber (cfg_interval c)))
                              (Fin (30 * 60 * 1000))) in
                  subs ++ [ {| channelId := ToString (grp_channelId group);
                               platform := platformKey;
                               projectId := projectId;
                               interval := interval |} ]
          end) subs list)
      [] groups in
  (subs, c).

Definition getConfigSubsOrdered (channelId : jsval) (c : Config)
    : list Sub * Config :=
  let '(groups, c) := getConfigGroups c in
  let subs :=
    foldl (fun subs group =>
      if negb (truthy (grp_channelId group)) then subs
      else if truthy channelId
              && negb (strict_eq (grp_channelId group) channelId) then subs
      else if strict_eq (grp_enabled group) (Bool false) then subs
      else
        let list := default [] (grp_subs group) in
        foldl (fun subs sub =>
          match normalizePlatform (sub_platform sub) with
          | None => subs
          | Some platformKey =>
              let projectId :=
                trim (ToString (js_or (sub_projectId sub) (Str ""))) in
              if String.eqb projectId "" then subs
              else
                let rawInterval := ToNumber (sub_interval sub) in
                if isFinite rawInterval && num_le rawInterval (Fin 0)
                then subs
                else
                  let interval :=
                    num_max (Fin (60 * 1000))
                      (num_or (num_or rawInterval
                                 (ToNumber (cfg_interval c)))
                              (Fin (30 * 60 * 1000))) in
                  subs ++ [ {| channelId := ToString (grp_channelId group);
                               platform := platformKey;
                               projectId := projectId;
                               interval := interval |} ]
          end) subs list)
      [] groups in
  (subs, c).

(** *** Change detector and notifier *)

(** [lastCheckMap.get(key) || 0]. *)
Definition lastCheckOf (m : gmap string Z) (key : string) : Z :=
  default 0 (m !! key).

(** [latest.version || '']. *)
Definition or_empty (s : string) : string :=
  if truthy (Str s) then s else "".

(** The call [sub.platform === 'mr' ? getLatestModrinth(...) :
    getLatestCurseForge(...)]; the request takes [latency env]. *)
Definition getLatest (env : Env) (platform : Platform) (projectId : string)
    (w : World) : FetchResult * World :=
  let w := emit (EvFetchLatest platform projectId) w in
  let w := set_clock (clock w + latency env) w in
  (match platform with
   | mr => latestModrinth env projectId
   | cf => latestCurseForge env projectId
   end, w).

(** The loop [for (const buf of imgBufs)] of [sendUpdate]; [false] when
    [sendToChannel] throws, which leaves the loop. *)
Fixpoint sendImages (env : Env) (channelId : string) (imgBufs : list Image)
    (w : World) : bool * World :=
  match imgBufs with
  | [] => (true, w)
  | src :: rest =>
      match deliver env channelId src with
      | Sent => sendImages env channelId rest (emit (EvDelivered channelId src) w)
      | NotSent =>
          sendImages env channelId rest (emit (EvWarn (CannotDeliver channelId)) w)
      | SendThrows => (false, w)
      end
  end.

(** [sendUpdate]: everything is inside [try { ... } catch (e) { logger.warn }],
    so it returns normally whatever the collaborators do. *)
Definition sendUpdate (env : Env) (channelId : string) (platform : Platform)
    (projectId : string) (latest : Latest) (w : World) : World :=
  let w := emit (EvSendUpdate channelId platform projectId latest) w in
  let caught := emit (EvWarn (SendFailed platform projectId)) in
  match (match platform with
         | mr => fetchModrinthDetail env projectId
         | cf => fetchCurseForgeDetail env projectId
         end) with
  | None => caught w
  | Some detailData =>
      match (if String.eqb (source detailData) "CurseForge"
             then drawProjectCardCFNotify env detailData latest
             else drawProjectCardMRNotify env detailData latest) with
      | None => caught w
      | Some imgBufs =>
          let '(completed, w) := sendImages env channelId imgBufs w in
          if completed then w else caught w
      end
  end.

Record Stats := {
  checked : nat;
  updated : nat;
  noChange : nat;
  skipped : nat;
  failed : nat
}.

Definition stats0 : Stats :=
  {| checked := 0; updated := 0; noChange := 0; skipped := 0; failed := 0 |}.

Definition count_checked (s : Stats) : Stats :=
  {| checked := S (checked s); updated := updated s; noChange := noChange s;
     skipped := skipped s; failed := failed s |}.

Definition count_updated (s : Stats) : Stats :=
  {| checked := checked s; updated := S (updated s); noChange := noChange s;
     skipped := skipped s; failed := failed s |}.

Definition count_noChange (s : Stats) : Stats :=
  {| checked := checked s; updated := updated s; noChange := S (noChange s);
     skipped := skipped s; failed := failed s |}.

Definition count_skipped (s : Stats) : Stats :=
  {| checked := checked s; updated := updated s; noChange := noChange s;
     skipped := S (skipped s); failed := failed s |}.

Definition count_failed (s : Stats) : Stats :=
  {| checked := checked s; updated := updated s; noChange := noChange s;
     skipped := skipped s; failed := S (failed s) |}.

(** One iteration of the loop [for (const sub of subs)] of [checkOnce]. *)
Definition checkOnce_step (env : Env) (force : bool) (sub : Sub)
    (ws : World * Stats) : World * Stats :=
  let '(w, stats) := ws in
  let key :=
    channelId sub +:+ "|" +:+ platform_code (platform sub) +:+ "|"
      +:+ projectId sub in
  let lastCheck := lastCheckOf (lastCheckMap w) key in
  if negb force && num_lt (Fin (clock w - lastCheck)) (interval sub)
  then (w, count_skipped stats)
  else
    let w := set_lastCheckMap (<[key := clock w]> (lastCheckMap w)) w in
    let stats := count_checked stats in
    match getLatest env (platform sub) (projectId sub) w with
    | (FetchThrows, w) =>
        (emit (EvWarn (CheckFailed (platform sub) (projectId sub))) w,
         count_failed stats)
    | (FetchNull, w) => (w, count_failed stats)
    | (FetchLatest latest, w) =>
        match getState (channelId sub) (platform sub) (projectId sub) w with
        | (None, w) =>
            (createState env (channelId sub) (platform sub) (projectId sub)
               (or_empty (version latest)) w,
             count_noChange stats)
        | (Some lastVersion, w) =>
            if negb (truthy lastVersion) then
              (updateState env (channelId sub) (platform sub) (projectId sub)
                 (version latest) w,
               count_noChange stats)
            else if strict_eq (Str (version latest)) lastVersion then
              (w, count_noChange stats)
            else
              let w := sendUpdate env (channelId sub) (platform sub)
                         (projectId sub) latest w in
              let w := updateState env (channelId sub) (platform sub)
                         (projectId sub) (version latest) w in
              (w, count_updated stats)
        end
    end.

(** [checkOnce(channelId?, force = false)]; [None] is the early
    [return] taken when [config.enabled] is falsy. *)
Definition checkOnce (env : Env) (channelId : jsval) (force : bool)
    (w : World) : option Stats * World :=
  let w := loadConfigFromFile env w in
  if negb (truthy (cfg_enabled (config w))) then (None, w)
  else
    let '(subs, c) := getConfigSubs channelId (config w) in
    let w := set_config c w in
    let '(w, stats) :=
      foldl (fun ws sub => checkOnce_step env force sub ws) (w, stats0) subs in
    (Some stats, w).

Record CheckResult := { sent : bool; updated_flag : bool }.

(** [checkOne(sub, forceSendAll)]; [None] when the fetch throws (the
    caller catches it). *)
Definition checkOne (env : Env) (sub : Sub) (forceSendAll : bool) (w : World)
    : option CheckResult * World :=
  let w := loadConfigFromFile env w in
  match getLatest env (platform sub) (projectId sub) w with
  | (FetchThrows, w) => (None, w)
  | (FetchNull, w) => (Some {| sent := false; updated_flag := false |}, w)
  | (FetchLatest latest, w) =>
      let notify (w : World) :=
        let w := sendUpdate env (channelId sub) (platform sub) (projectId sub)
                   latest w in
        let w := updateState env (channelId sub) (platform sub)
                   (projectId sub) (or_empty (version latest)) w in
        (Some {| sent := true; updated_flag := true |}, w) in
      match getState (channelId sub) (platform sub) (projectId sub) w with
      | (None, w) =>
          let w := createState env (channelId sub) (platform sub)
                     (projectId sub) (or_empty (version latest)) w in
          if forceSendAll then notify w
          else (Some {| sent := false; updated_flag := false |}, w)
      | (Some lastVersion, w) =>
          if forceSendAll then notify w
          else if negb (truthy lastVersion) then
            (Some {| sent := false; updated_flag := false |},
             updateState env (channelId sub) (platform sub) (projectId sub)
               (or_empty (version latest)) w)
          else if strict_eq (Str (version latest)) lastVersion then
            (Some {| sent := false; updated_flag := false |}, w)
          else notify w
      end
  end.

End Engine.

(** ** The command surface *)

Section Commands.

Context `{!EcmaConv}.

(** What the commands read of a chat session: [session.channelId] and the
    level [getRoleLevelAsync(session)] resolves (0 none, 1 member, 2 admin,
    3 owner). *)
Record Session := {
  ses_channelId : jsval;
  ses_roleLevel : Z
}.

(** [requireManage(session)], called without a [channelId] argument. *)
Definition requireManage (c : Config) (session : Session) : bool :=
  let level := ToNumber (nullish (cfg_adminAuthority c) (Num (Fin 3))) in
  if num_le level (Fin 1) then true
  else
    let roleLevel := ses_roleLevel session in
    if num_le level (Fin 2) then 2 <=? roleLevel
    else 3 <=? roleLevel.

(** The texts the commands answer with. *)
Inductive Reply :=
| MissingArguments
| BadPlatform
| ChannelRequired
| PermissionDenied
| EmptyProjectId
| AlreadyExists (platformKey : Platform) (pid : string)
| Added (platformKey : Platform) (pid : string)
| NoSubscriptions
| NoSuchIndex
| NoSuchProject
| NoUpdate
| Silent.

(** The test of [list.some(...)] in [notify.add] (and of the filter in
    [notify.remove]). *)
Definition same_subscription (platformKey : Platform) (pid : string)
    (s : StoredSub) : bool :=
  bool_decide (normalizePlatform (sub_platform s) = Some platformKey)
  && String.eqb (trim (ToString (js_or (sub_projectId s) (Str "")))) pid.

(** The action of [notify.add <platform> <projectId>]. *)
Definition notify_add (env : Env) (session : Session)
    (platform projectId : jsval) (w : World) : Reply * World :=
  let w := loadConfigFromFile env w in
  if negb (truthy platform) || negb (truthy projectId)
  then (MissingArguments, w)
  else
    match normalizePlatform platform with
    | None => (BadPlatform, w)
    | Some platformKey =>
        let targetChannel := ses_channelId session in
        if negb (truthy targetChannel) then (ChannelRequired, w)
        else if negb (requireManage (config w) session)
        then (PermissionDenied, w)
        else
          let pid := trim (ToString projectId) in
          if String.eqb pid "" then (EmptyProjectId, w)
          else
            let '(i, c) := ensureGroup targetChannel (config w) in
            let w := set_config c w in
            let groups := default [] (cfg_groups c) in
            let list := default [] ((groups !! i) ≫= grp_subs) in
            if existsb (same_subscription platformKey pid) list
            then (AlreadyExists platformKey pid, w)
            else
              let interval :=
                num_max (Fin (60 * 1000))
                  (num_or (ToNumber (cfg_interval c))
                          (Fin (30 * 60 * 1000))) in
              let list :=
                list ++ [ {| sub_platform := Str (platform_code platformKey);
                             sub_projectId := Str pid;
                             sub_interval := Num interval |} ] in
              let put (group : Group) :=
                {| grp_channelId := grp_channelId group;
                   grp_enabled := grp_enabled group;
                   grp_subs := Some list |} in
              let w := set_config (with_groups (alter put i groups) c) w in
              (Added platformKey pid, saveConfigToFile env w)
    end.

(** The loop [for (const sub of targets)] of [notify.check]: the number of
    checks that reported [sent]. *)
Fixpoint check_targets (env : Env) (broadcast : bool) (targets : list Sub)
    (w : World) : nat * World :=
  match targets with
  | [] => (0%nat, w)
  | sub :: rest =>
      match checkOne env sub broadcast w with
      | (Some res, w) =>
          let '(n, w) := check_targets env broadcast rest w in
          ((if sent res then S n else n), w)
      | (None, w) =>
          check_targets env broadcast rest
            (emit (EvWarn (CheckFailed (platform sub) (projectId sub))) w)
      end
  end.

(** The action of [notify.check [arg]] with its option [-b]
    ([broadcast]). *)
Definition notify_check (env : Env) (session : Session) (arg : jsval)
    (broadcast : bool) (w : World) : Reply * World :=
  let w := loadConfigFromFile env w in
  let targetChannel := ses_channelId session in
  if negb (truthy targetChannel) then (ChannelRequired, w)
  else if negb (requireManage (config w) session) then (PermissionDenied, w)
  else
    let '(list, c) := getConfigSubsOrdered targetChannel (config w) in
    let w := set_config c w in
    match list with
    | [] => (NoSubscriptions, w)
    | _ =>
        let targets :=
          if truthy arg then
            let idx := ToNumber arg in
            if isFinite idx && num_lt (Fin 0) idx then
              match js_index list (num_sub idx (Fin 1)) with
              | Some sub => inr [sub]
              | None => inl NoSuchIndex
              end
            else
              match find (fun s => String.eqb (projectId s) (ToString arg))
                         list with
              | Some sub => inr [sub]
              | None => inl NoSuchProject
              end
          else inr list in
        match targets with
        | inl reply => (reply, w)
        | inr targets =>
            let '(sent, w) := check_targets env broadcast targets w in
            ((if (sent =? 0)%nat then NoUpdate else Silent), w)
        end
    end.

End Commands.

(** ** Concrete worlds for the examples *)

Module Sample.

(** Conversions that agree with ECMAScript on plain decimal integers, which
    is all the examples use. *)
Definition digit_value (c : Ascii.ascii) : option Z :=
  let n := Ascii.N_of_ascii c in
  if ((48 <=? n) && (n <=? 57))%N then Some (Z.of_N n - 48) else None.

Fixpoint digits_value (acc : Z) (s : string) : option Z :=
  match s with
  | EmptyString => Some acc
  | String c r =>
      match digit_value c with
      | Some d => digits_value (10 * acc + d) r
      | None => None
      end
  end.

Definition decimal_of_string (s : string) : jsnum :=
  match trim s with
  | EmptyString => Fin 0
  | t => match digits_value 0 t with Some z => Fin z | None => NaN end
  end.

Definition string_of_number (n : jsnum) : string :=
  match n with
  | NaN => "NaN"
  | PInf => "Infinity"
  | NInf => "-Infinity"
  | Fin z => pretty z
  end.

Definition decimal : EcmaConv :=
  {| NumberToString := string_of_number;
     StringToNumber := decimal_of_string |}.

Definition release (v : string) : Latest :=
  {| versionId := Str ("id-" +:+ v); version := v; changelog := "";
     downloads := Num (Fin 0); datePublished := Null; loaders := [];
     gameVersions := []; fileName := ""; fileSize := Num (Fin 0) |}.

(** A world in which every project's latest release is [v], details and
    cards are produced, and delivery succeeds when [ok]. *)
Definition env_of (v : string) (ok : bool) : Env :=
  {| latestModrinth := fun _ => FetchLatest (release v);
     latestCurseForge := fun _ => FetchLatest (release v);
     latency := 250;
     fetchModrinthDetail := fun _ => Some {| source := "Modrinth" |};
     fetchCurseForgeDetail := fun _ => Some {| source := "CurseForge" |};
     drawProjectCardMRNotify :=
       fun _ _ => if ok then Some ["card"] else None;
     drawProjectCardCFNotify :=
       fun _ _ => if ok then Some ["card"] else None;
     deliver := fun _ _ => Sent;
     diskWritable := true |}.

Definition stored (p pid : string) (i : jsval) : StoredSub :=
  {| sub_platform := Str p; sub_projectId := Str pid; sub_interval := i |}.

Definition group_of (ch : string) (on : bool) (l : list StoredSub) : Group :=
  {| grp_channelId := Str ch; grp_enabled := Bool on; grp_subs := Some l |}.

Definition config_of (gs : list Group) : Config :=
  {| cfg_enabled := Bool true; cfg_groups := Some gs;
     cfg_interval := Num (Fin 1800000); cfg_adminAuthority := Num (Fin 1) |}.

(** A process whose config and state are loaded, at time [t]. *)
Definition world_of (c : Config) (st : gmap string jsval)
    (checks : gmap string Z) (t : Z) : World :=
  {| config := c; configLoaded := true; stateCache := st;
     stateLoaded := true; saving := false; lastCheckMap := checks;
     configFile := Unreadable; stateFile := Unreadable; clock := t;
     trace := [] |}.

Definition sub_of (ch pid : string) (i : Z) : Sub :=
  {| channelId := ch; platform := mr; projectId := pid; interval := Fin i |}.

Definition member (ch : string) : Session :=
  {| ses_channelId := Str ch; ses_roleLevel := 1 |}.

(** Channel [C1] follows the Modrinth project [abc123]. *)
Definition following : Config :=
  config_of [group_of "C1" true [stored "mr" "abc123" Undefined]].

(** The same, with the stored interval set to zero. *)
Definition following_zero : Config :=
  config_of [group_of "C1" true [stored "mr" "abc123" (Num (Fin 0))]].

(** The same, with the channel's notifications switched off. *)
Definition following_off : Config :=
  config_of [group_of "C1" false [stored "mr" "abc123" Undefined]].

Definition seen (v : string) : gmap string jsval :=
  {[ "C1|mr|abc123" := Str v ]}.

(** The subscription as enumerated, checked every half hour. *)
Definition abc123 : Sub := sub_of "C1" "abc123" 1800000.

(** The same subscription with an interval of two billion seconds. *)
Definition abc123_slow : Sub := sub_of "C1" "abc123" 2000000000000.

(** Some moment in January 2027, in milliseconds since the epoch. *)
Definition noon : Z := 1800000000000.

(** Version 1.0.0 has been seen; nothing has been checked yet. *)
Definition w_seen : World := world_of following (seen "1.0.0") ∅ noon.

(** Nothing has been seen. *)
Definition w_new : World := world_of following ∅ ∅ noon.

(** The last check was one second ago. *)
Definition w_checked : World :=
  world_of following (seen "1.0.0") {[ "C1|mr|abc123" := noon - 1000 ]} noon.

Definition w_zero : World := world_of following_zero ∅ ∅ noon.

Definition w_off : World := world_of following_off ∅ ∅ noon.

End Sample.

(** ** Notions used in the statements *)

Section Notions.

Context `{!EcmaConv}.

(** The version state as the engine sees it: the cache once the state file
    has been read. *)
Definition persisted (w : World) : gmap string jsval :=
  stateCache (loadStateFromFile w).

(** The cache that [loadStateFromFile] builds. *)
Definition cache_after_load (w : World) : gmap string jsval :=
  if stateLoaded w then stateCache w
  else match stateFile w with
       | Document json =>
           foldl (fun cache kv =>
                    match kv.2 with
                    | Some lastVersion => <[kv.1 := lastVersion]> cache
                    | None => cache
                    end) (stateCache w) json
       | _ => stateCache w
       end.

(** What the version fetcher answers for a subscription. *)
Definition latest_of (env : Env) (sub : Sub) : FetchResult :=
  match platform sub with
  | mr => latestModrinth env (projectId sub)
  | cf => latestCurseForge env (projectId sub)
  end.

(** The world once an eligible subscription has been stamped in
    [lastCheckMap] and its fetcher has answered. *)
Definition probed (env : Env) (sub : Sub) (w : World) : World :=
  (getLatest env (platform sub) (projectId sub)
     (set_lastCheckMap
        (<[getStateKey (channelId sub) (platform sub) (projectId sub)
           := clock w]> (lastCheckMap w)) w)).2.

(** The part of [checkOnce]'s loop body that follows the fetch, as a
    function of what the fetcher answered. *)
Definition decide_update (env : Env) (sub : Sub) (answer : FetchResult)
    (w : World) (stats : Stats) : World * Stats :=
  match answer with
  | FetchThrows =>
      (emit (EvWarn (CheckFailed (platform sub) (projectId sub))) w,
       count_failed stats)
  | FetchNull => (w, count_failed stats)
  | FetchLatest latest =>
      match getState (channelId sub) (platform sub) (projectId sub) w with
      | (None, w) =>
          (createState env (channelId sub) (platform sub) (projectId sub)
             (or_empty (version latest)) w,
           count_noChange stats)
      | (Some lastVersion, w) =>
          if negb (truthy lastVersion) then
            (updateState env (channelId sub) (platform sub) (projectId sub)
               (version latest) w,
             count_noChange stats)
          else if strict_eq (Str (version latest)) lastVersion then
            (w, count_noChange stats)
          else
            let w := sendUpdate env (channelId sub) (platform sub)
                       (projectId sub) latest w in
            let w := updateState env (channelId sub) (platform sub)
                       (projectId sub) (version latest) w in
            (w, count_updated stats)
      end
  end.

Definition is_notification (e : Event) : bool :=
  match e with EvSendUpdate _ _ _ _ => true | _ => false end.

Definition is_fetch (e : Event) : bool :=
  match e with EvFetchLatest _ _ => true | _ => false end.

Definition is_write (e : Event) : bool :=
  match e with EvWriteFile _ | EvWarn ConfigWriteFailed
             | EvWarn StateWriteFailed => true | _ => false end.

(** Number of times the notification side effect was invoked. *)
Definition notifications (t : list Event) : nat :=
  length (List.filter is_notification t).

(** The platform fetches performed. *)
Definition fetches (t : list Event) : list Event := List.filter is_fetch t.

(** A string that does not begin with white space. *)
Definition starts_clean (s : string) : Prop :=
  match s with
  | EmptyString => True
  | String c _ => is_ws c = false
  end.

(** Two worlds that differ at most by events that are neither fetches nor
    notifications (file writes, warnings, deliveries). *)
Definition quiet_step (w w' : World) : Prop :=
  config w' = config w /\ configLoaded w' = configLoaded w
  /\ lastCheckMap w' = lastCheckMap w /\ configFile w' = configFile w
  /\ clock w' = clock w
  /\ notifications (trace w') = notifications (trace w)
  /\ fetches (trace w') = fetches (trace w)
  /\ trace w `prefix_of` trace w'.

(** Two worlds with the same version state, timestamps and clock, that
    differ at most by events that are neither fetches nor notifications
    (what touching the configuration can change). *)
Definition config_step (w w' : World) : Prop :=
  stateCache w' = stateCache w /\ stateLoaded w' = stateLoaded w
  /\ stateFile w' = stateFile w /\ saving w' = saving w
  /\ lastCheckMap w' = lastCheckMap w /\ clock w' = clock w
  /\ notifications (trace w') = notifications (trace w)
  /\ fetches (trace w') = fetches (trace w).

(** The images that reached a channel, in order: the calls of
    [sendToChannel] that returned [true]. *)
Definition delivered (t : list Event) : list (string * Image) :=
  omap (fun e => match e with
                 | EvDelivered ch img => Some (ch, img)
                 | _ => None
                 end) t.

(** The images the [try] block of [sendUpdate] has in hand when it enters
    its sending loop; [None] when the detail fetch or the renderer
    throws. *)
Definition rendered (env : Env) (platform : Platform) (projectId : string)
    (latest : Latest) : option (list Image) :=
  match (match platform with
         | mr => fetchModrinthDetail env projectId
         | cf => fetchCurseForgeDetail env projectId
         end) with
  | None => None
  | Some detailData =>
      if String.eqb (source detailData) "CurseForge"
      then drawProjectCardCFNotify env detailData latest
      else drawProjectCardMRNotify env detailData latest
  end.

(** [sendToChannel] returns [true] for the image. *)
Definition reaches (env : Env) (channelId : string) (img : Image) : bool :=
  match deliver env channelId img with Sent => true | _ => false end.

(** [sendToChannel] throws on none of the images. *)
Definition none_throws (env : Env) (channelId : string)
    (imgs : list Image) : Prop :=
  Forall (fun img => deliver env channelId img <> SendThrows) imgs.

(** The [try] block of [sendUpdate] throws: the detail fetch throws, the
    card renderer throws, or [sendToChannel] throws on one of the images. *)
Definition notifier_throws (env : Env) (channelId : string)
    (platform : Platform) (projectId : string) (latest : Latest) : Prop :=
  match (match platform with
         | mr => fetchModrinthDetail env projectId
         | cf => fetchCurseForgeDetail env projectId
         end) with
  | None => True
  | Some detailData =>
      match (if String.eqb (source detailData) "CurseForge"
             then drawProjectCardCFNotify env detailData latest
             else drawProjectCardMRNotify env detailData latest) with
      | None => True
      | Some imgBufs =>
          Exists (fun src => deliver env channelId src = SendThrows) imgBufs
      end
  end.

(** The two ways an iteration of [checkOnce] can go for a subscription:
    skipped (nothing happens, [skipped] is counted), or stamped with the
    current time and then fetched. *)
Definition was_skipped (w : World) (stats : Stats) (r : World * Stats)
    : Prop :=
  r = (w, count_skipped stats).

Definition was_checked (sub : Sub) (w : World) (stats : Stats)
    (r : World * Stats) : Prop :=
  (exists rest,
     trace r.1 =
     trace w ++ EvFetchLatest (platform sub) (projectId sub) :: rest)
  /\ lastCheckMap r.1
       !! getStateKey (channelId sub) (platform sub) (projectId sub)
     = Some (clock w)
  /\ checked r.2 = S (checked stats)
  /\ skipped r.2 = skipped stats.

(** The time has not reached [t0 + I]. *)
Definition not_yet (now t0 : Z) (I : jsnum) : Prop :=
  match I with
  | Fin i => now < t0 + i
  | PInf => True
  | NInf | NaN => False
  end.

(** The pair a stored entry is compared by, when its platform is valid. *)
Definition sub_key (s : StoredSub) : option (Platform * string) :=
  match normalizePlatform (sub_platform s) with
  | Some platformKey =>
      Some (platformKey, trim (ToString (js_or (sub_projectId s) (Str ""))))
  | None => None
  end.

(** No pair occurs twice in a subscription list, in any group. *)
Definition unique_pairs (l : list StoredSub) : Prop := NoDup (omap sub_key l).

Definition unique_config (c : Config) : Prop :=
  Forall (fun g => unique_pairs (default [] (grp_subs g)))
         (default [] (cfg_groups c)).

(** The subscription list of a channel: that of the group [getGroup]
    finds. *)
Definition channel_subs (channelId : jsval) (c : Config) : list StoredSub :=
  default [] ((getGroup channelId c).1 ≫= grp_subs).

(** A group that [getConfigSubs channelId] does not skip. *)
Definition visited (channelId : jsval) (g : Group) : bool :=
  truthy (grp_channelId g)
  && (negb (truthy channelId) || strict_eq (grp_channelId g) channelId)
  && negb (strict_eq (grp_enabled g) (Bool false)).

(** What the inner loop of [getConfigSubs] pushes for one stored entry of
    a group, if anything. *)
Definition entry_of (c : Config) (group : Group) (sub : StoredSub)
    : option Sub :=
  match normalizePlatform (sub_platform sub) with
  | None => None
  | Some platformKey =>
      let projectId := trim (ToString (js_or (sub_projectId sub) (Str ""))) in
      if String.eqb projectId "" then None
      else
        let rawInterval := ToNumber (sub_interval sub) in
        if isFinite rawInterval && num_le rawInterval (Fin 0) then None
        else
          Some {| channelId := ToString (grp_channelId group);
                  platform := platformKey;
                  projectId := projectId;
                  interval :=
                    num_max (Fin (60 * 1000))
                      (num_or (num_or rawInterval (ToNumber (cfg_interval c)))
                              (Fin (30 * 60 * 1000))) |}
  end.

(** What the outer loop pushes for one group. *)
Definition group_entries (channelId : jsval) (c : Config) (g : Group)
    : list Sub :=
  if visited channelId g
  then omap (entry_of c g) (default [] (grp_subs g))
  else [].

(** A group with the entry at position [j] of its list taken out. *)
Definition without_entry (j : nat) (g : Group) : Group :=
  {| grp_channelId := grp_channelId g;
     grp_enabled := grp_enabled g;
     grp_subs := delete j <$> grp_subs g |}.

(** A process that has just started on the files [disk] holds: the plugin
    settings [c], nothing cached, nothing loaded. *)
Definition fresh_process (c : Config) (t : Z) (disk : World) : World :=
  {| config := c; configLoaded := false; stateCache := ∅;
     stateLoaded := false; saving := false; lastCheckMap := ∅;
     configFile := configFile disk; stateFile := stateFile disk; clock := t;
     trace := [] |}.

Definition representable_sub (s : StoredSub) : Prop :=
  json_representable (sub_platform s)
  /\ json_representable (sub_projectId s)
  /\ json_representable (sub_interval s).

Definition representable_group (g : Group) : Prop :=
  json_representable (grp_channelId g)
  /\ json_representable (grp_enabled g)
  /\ Forall representable_sub (default [] (grp_subs g)).

End Notions.

(** ** The rest of the command surface and of the scheduler *)

Section MoreCommands.

Context `{!EcmaConv}.

(** [parseOnOff(value)]: [Some true], [Some false], or [None] for
    [null]. *)
Definition parseOnOff (value : jsval) : option bool :=
  match value with
  | Str s =>
      let v := toLowerCase (trim s) in
      if existsb (String.eqb v) ["1"; "on"; "true"; "yes"; "y"] then Some true
      else if existsb (String.eqb v) ["0"; "off"; "false"; "no"; "n"]
      then Some false
      else None
  | _ => None
  end.

(** [Math.round(n / 60000)]: the nearest integer, halves going up. *)
Definition minutes_of (n : jsnum) : jsnum :=
  match n with
  | Fin z => Fin ((z + 30000) / 60000)
  | _ => n
  end.

(** A line of [notify.list]:
    [`${i + 1}. ${platformKey}:${pid} (${minutes} ...)`]. *)
Record ListLine := {
  line_number : nat;
  line_platform : string;
  line_projectId : string;
  line_minutes : jsnum
}.

(** The answers of [notify.remove], [notify.enable] and [notify.list]:
    one of the rejections they share with [notify.add], or their own
    texts. *)
Inductive Answer :=
| Rejected (r : Reply)
| NotFound
| Removed (platformKey : Platform) (pid : string)
| BadOnOff
| SwitchedOn
| SwitchedOff
| NothingListed (disabled : bool)
| Listing (enabled : bool) (lines : list ListLine).

(** The action of [notify.remove <platform> <projectId>]. *)
Definition notify_remove (env : Env) (session : Session)
    (platform projectId : jsval) (w : World) : Answer * World :=
  let w := loadConfigFromFile env w in
  if negb (truthy platform) || negb (truthy projectId)
  then (Rejected MissingArguments, w)
  else
    match normalizePlatform platform with
    | None => (Rejected BadPlatform, w)
    | Some platformKey =>
        let targetChannel := ses_channelId session in
        if negb (truthy targetChannel) then (Rejected ChannelRequired, w)
        else if negb (requireManage (config w) session)
        then (Rejected PermissionDenied, w)
        else
          let pid := trim (ToString projectId) in
          if String.eqb pid "" then (Rejected EmptyProjectId, w)
          else
            let '(groups, c) := getConfigGroups (config w) in
            let w := set_config c w in
            match find_index (same_channel targetChannel) groups with
            | None => (NotFound, w)
            | Some i =>
                match (groups !! i) ≫= grp_subs with
                | None | Some [] => (NotFound, w)
                | Some subs =>
                    let kept :=
                      List.filter
                        (fun s => negb (same_subscription platformKey pid s))
                        subs in
                    let put (group : Group) :=
                      {| grp_channelId := grp_channelId group;
                         grp_enabled := grp_enabled group;
                         grp_subs := Some kept |} in
                    let w :=
                      set_config (with_groups (alter put i groups) c) w in
                    if (length kept =? length subs)%nat then (NotFound, w)
                    else (Removed platformKey pid, saveConfigToFile env w)
                end
            end
    end.

(** The action of [notify.enable <onoff>]. *)
Definition notify_enable (env : Env) (session : Session) (onoff : jsval)
    (w : World) : Answer * World :=
  let w := loadConfigFromFile env w in
  let targetChannel := ses_channelId session in
  if negb (truthy targetChannel) then (Rejected ChannelRequired, w)
  else if negb (requireManage (config w) session)
  then (Rejected PermissionDenied, w)
  else
    match parseOnOff onoff with
    | None => (BadOnOff, w)
    | Some flag =>
        let '(i, c) := ensureGroup targetChannel (config w) in
        let groups := default [] (cfg_groups c) in
        let put (group : Group) :=
          {| grp_channelId := grp_channelId group;
             grp_enabled := Bool flag;
             grp_subs := grp_subs group |} in
        let w := set_config (with_groups (alter put i groups) c) w in
        ((if flag then SwitchedOn else SwitchedOff), saveConfigToFile env w)
    end.

(** The body of [list.map((s, i) => ...)] in [notify.list]. *)
Definition list_line (c : Config) (i : nat) (s : StoredSub) : ListLine :=
  let platformKey :=
    match normalizePlatform (sub_platform s) with
    | Some p => platform_code p
    | None => trim (ToString (js_or (sub_platform s) (Str "")))
    end in
  let pid := trim (ToString (js_or (sub_projectId s) (Str ""))) in
  let rawInterval := ToNumber (sub_interval s) in
  let interval :=
    num_max (Fin (60 * 1000))
      (num_or (num_or rawInterval (ToNumber (cfg_interval c)))
              (Fin (30 * 60 * 1000))) in
  {| line_number := S i; line_platform := platformKey;
     line_projectId := pid; line_minutes := minutes_of interval |}.

(** The action of [notify.list]. *)
Definition notify_list (env : Env) (session : Session) (w : World)
    : Answer * World :=
  let w := loadConfigFromFile env w in
  let targetChannel := ses_channelId session in
  if negb (truthy targetChannel) then (Rejected ChannelRequired, w)
  else if negb (requireManage (config w) session)
  then (Rejected PermissionDenied, w)
  else
    let '(group, c) := getGroup targetChannel (config w) in
    let w := set_config c w in
    match group with
    | None => (NothingListed false, w)
    | Some group =>
        let list := default [] (grp_subs group) in
        match list with
        | [] => (NothingListed (strict_eq (grp_enabled group) (Bool false)), w)
        | _ =>
            (Listing (negb (strict_eq (grp_enabled group) (Bool false)))
                     (imap (list_line c) list), w)
        end
    end.

(** [autoCheckLoop], the body of each scheduler tick (its [try/catch]
    has nothing to catch here: [checkOnce] catches per subscription). *)
Definition autoCheckLoop (env : Env) (w : World) : World :=
  let w := loadConfigFromFile env w in
  if truthy (cfg_enabled (config w)) then
    let '(subs, c) := getConfigSubs Undefined (config w) in
    let w := set_config c w in
    match subs with
    | [] => w
    | _ => (checkOnce env Undefined false w).2
    end
  else w.

(** [Math.min(...intervals)] of a non-empty list ([Infinity] when
    empty). *)
Definition num_min (a b : jsnum) : jsnum :=
  match a, b with
  | NaN, _ | _, NaN => NaN
  | NInf, _ | _, NInf => NInf
  | PInf, x | x, PInf => x
  | Fin x, Fin y => Fin (Z.min x y)
  end.

(** [getMinInterval] of [startAutoCheck]. *)
Definition getMinInterval (c : Config) : jsnum * Config :=
  let '(subs, c) := getConfigSubs Undefined c in
  match subs with
  | [] => (num_or (ToNumber (cfg_interval c)) (Fin (30 * 60 * 1000)), c)
  | _ => (foldr num_min PInf (map interval subs), c)
  end.

End MoreCommands.

(** ** Roles and delivery *)

(** An element of a [roles] array: a string, an object (its [id] and
    [name]), or anything else. *)
Inductive RoleEntry :=
| RoleString (s : string)
| RoleObject (id name : jsval)
| RoleOther.

(** [member.role] and [member.roles] ([None] when not an array). *)
Record Member := {
  mem_role : jsval;
  mem_roles : option (list RoleEntry)
}.

(** Where [getRoleLevel] looks: [session.member],
    [session.event.sender.role] and [session.event.member]. *)
Record RoleSources := {
  src_member : option Member;
  src_sender_role : jsval;
  src_event_member : option Member
}.

(** What [bot.getGuildMember] gives: not asked for lack of the method, the
    guild id or the user id; an exception; or a member (possibly
    [undefined]). *)
Inductive GuildLookup :=
| LookupUnavailable
| LookupThrows
| LookupMember (m : option Member).

(** What [roles.forEach(...)] adds for one element. *)
Definition entry_roles (r : RoleEntry) : list string :=
  match r with
  | RoleString s => [s]
  | RoleObject id name =>
      (match id with Str s => [s] | _ => [] end)
      ++ (match name with Str s => [s] | _ => [] end)
  | RoleOther => []
  end.

Definition array_roles (roles : option (list RoleEntry)) : list string :=
  flat_map entry_roles (default [] roles).

(** [if (typeof role === 'string') roles.add(role)]. *)
Definition string_role (role : jsval) : list string :=
  match role with Str s => [s] | _ => [] end.

(** [if (m?.role && typeof m.role === 'string') roles.add(m.role)]. *)
Definition truthy_string_role (role : jsval) : list string :=
  match role with
  | Str s => if String.eqb s "" then [] else [s]
  | _ => []
  end.

(** [roles.has(name)]. *)
Definition has_role (name : string) (roles : list string) : bool :=
  existsb (String.eqb name) roles.

Definition level_of (roles : list string) : Z :=
  if has_role "owner" roles then 3
  else if has_role "admin" roles then 2
  else if has_role "member" roles then 1
  else 0.

(** The set [roles] that [getRoleLevel] builds. *)
Definition session_roles (s : RoleSources) : list string :=
  array_roles (src_member s ≫= mem_roles)
  ++ string_role (from_option mem_role Undefined (src_member s))
  ++ string_role (src_sender_role s)
  ++ truthy_string_role (from_option mem_role Undefined (src_event_member s))
  ++ array_roles (src_event_member s ≫= mem_roles).

Definition getRoleLevel (s : RoleSources) : Z := level_of (session_roles s).

(** [getRoleLevelAsync]: the level, and whether the membership lookup was
    called. *)
Definition getRoleLevelAsync (s : RoleSources) (lookup : GuildLookup)
    : Z * bool :=
  let level := getRoleLevel s in
  if 0 <? level then (level, false)
  else
    match lookup with
    | LookupUnavailable => (level, false)
    | LookupThrows => (level, true)
    | LookupMember member =>
        let roles :=
          truthy_string_role (from_option mem_role Undefined member)
          ++ array_roles (member ≫= mem_roles) in
        ((if has_role "owner" roles then 3
          else if has_role "admin" roles then 2
          else if has_role "member" roles then 1
          else level), true)
    end.

(** The session as the commands see it. *)
Definition session_of (channelId : jsval) (s : RoleSources)
    (lookup : GuildLookup) : Session :=
  {| ses_channelId := channelId;
     ses_roleLevel := (getRoleLevelAsync s lookup).1 |}.

(** [s.indexOf(':')]; the colon is code unit 58. *)
Fixpoint indexOf_colon (s : string) : Z :=
  match s with
  | EmptyString => -1
  | String c r =>
      if (Ascii.N_of_ascii c =? 58)%N then 0
      else let i := indexOf_colon r in if i <? 0 then -1 else i + 1
  end.

(** [s.slice(n)] for [0 <= n]. *)
Fixpoint slice_from (n : nat) (s : string) : string :=
  match n, s with
  | O, _ => s
  | S k, EmptyString => EmptyString
  | S k, String _ r => slice_from k r
  end.

(** [parseChannelId]: [{ platform, id }] or [null]. *)
Definition parseChannelId (channelId : string) : option (string * string) :=
  let idx := indexOf_colon channelId in
  if idx <=? 0 then None
  else Some (String.substring 0 (Z.to_nat idx) channelId,
             slice_from (Z.to_nat (idx + 1)) channelId).

(** A bot of [ctx.bots]: its platform, and whether [sendMessage] to a
    given target resolves ([true]) or throws. *)
Record Bot := {
  bot_platform : string;
  bot_sends : string -> bool
}.

(** A call [bot.sendMessage(target, content)] on the bot at a position of
    [ctx.bots]. *)
Record SendCall := { call_bot : nat; call_target : string }.

(** The loop [for (const bot of ctx.bots) { try { ...; return true }
    catch {} }], from position [i] on. *)
Fixpoint try_each (i : nat) (bots : list Bot) (channelId : string)
    : bool * list SendCall :=
  match bots with
  | [] => (false, [])
  | bot :: rest =>
      let call := {| call_bot := i; call_target := channelId |} in
      if bot_sends bot channelId then (true, [call])
      else let '(ok, calls) := try_each (S i) rest channelId in
           (ok, call :: calls)
  end.

(** [sendToChannel(channelId, content)] on the bots [ctx.bots]: its
    outcome and the [sendMessage] calls it makes, in order. *)
Definition sendToChannel (bots : list Bot) (channelId : string)
    : SendResult * list SendCall :=
  let direct (i : nat) (bot : Bot) (target : string) :=
    ((if bot_sends bot target then Sent else SendThrows),
     [ {| call_bot := i; call_target := target |} ]) in
  let fallback :=
    match bots with
    | [bot] => direct 0%nat bot channelId
    | _ =>
        let '(ok, calls) := try_each 0 bots channelId in
        ((if ok then Sent else NotSent), calls)
    end in
  match parseChannelId channelId with
  | Some (platform, id) =>
      match find_index (fun b => String.eqb (bot_platform b) platform) bots with
      | Some i =>
          match bots !! i with
          | Some bot => direct i bot id
          | None => fallback
          end
      | None => fallback
      end
  | None => fallback
  end.

(** ** Notions used in the further statements *)

(** The string holds no vertical bar (code unit 124), the separator of
    [getStateKey]. *)
Fixpoint no_bar (s : string) : bool :=
  match s with
  | EmptyString => true
  | String c r => negb (Ascii.N_of_ascii c =? 124)%N && no_bar r
  end.

Section MoreNotions.

Context `{!EcmaConv}.

(** The arguments pass every check that [notify.add] and [notify.remove]
    make before they look at the subscription list: both are given, the
    platform is ["mr"] or ["cf"], the command comes from a channel, the
    sender may manage, and the trimmed project id is not empty. *)
Definition accepted (c : Config) (session : Session)
    (platform projectId : jsval) (platformKey : Platform) : Prop :=
  normalizePlatform platform = Some platformKey
  /\ truthy projectId = true
  /\ truthy (ses_channelId session) = true
  /\ requireManage c session = true
  /\ trim (ToString projectId) <> "".

(** The entry [notify.add] pushes. *)
Definition added_entry (c : Config) (platformKey : Platform) (pid : string)
    : StoredSub :=
  {| sub_platform := Str (platform_code platformKey);
     sub_projectId := Str pid;
     sub_interval :=
       Num (num_max (Fin (60 * 1000))
              (num_or (ToNumber (cfg_interval c)) (Fin (30 * 60 * 1000)))) |}.

(** The defaults [ensureGroup] puts into the group it returns, and the
    group it makes when the channel has none. *)
Definition settled (group : Group) : Group :=
  {| grp_channelId := grp_channelId group;
     grp_enabled := if is_boolean (grp_enabled group)
                    then grp_enabled group else Bool true;
     grp_subs := Some (default [] (grp_subs group)) |}.

Definition fresh_group (channelId : jsval) : Group :=
  {| grp_channelId := Str (ToString channelId);
     grp_enabled := Bool true;
     grp_subs := Some [] |}.

(** The assignments [group.subs = list] and [group.enabled = flag]. *)
Definition with_subs (l : list StoredSub) (group : Group) : Group :=
  {| grp_channelId := grp_channelId group;
     grp_enabled := grp_enabled group;
     grp_subs := Some l |}.

Definition with_flag (flag : bool) (group : Group) : Group :=
  {| grp_channelId := grp_channelId group;
     grp_enabled := Bool flag;
     grp_subs := grp_subs group |}.

(** The subscription [getConfigSubs] makes of the entry [notify.add]
    pushes into the group of [channelId]. *)
Definition added_sub (c : Config) (channelId : jsval)
    (platformKey : Platform) (pid : string) : Sub :=
  {| channelId := ToString channelId;
     platform := platformKey;
     projectId := pid;
     interval :=
       num_max (Fin (60 * 1000))
         (num_or (ToNumber (cfg_interval c)) (Fin (30 * 60 * 1000))) |}.

(** Every group holds a string as channel id, and no two groups hold the
    same: the configurations the commands make from an empty one. *)
Definition distinct_channels (gs : list Group) : Prop :=
  Forall (fun g => exists s, grp_channelId g = Str s) gs
  /\ NoDup (map grp_channelId gs).

(** The request a check of [sub] makes. *)
Definition fetch_of (sub : Sub) : Event :=
  EvFetchLatest (platform sub) (projectId sub).

(** The document [saveConfigToFile] writes for a configuration. *)
Definition config_document (c : Config) : ConfigDoc :=
  {| doc_enabled := Bool (truthy (cfg_enabled c));
     doc_groups := Some (map json_group (default [] (cfg_groups c))) |}.

End MoreNotions.

(** The string holds no colon (code unit 58). *)
Fixpoint no_colon (s : string) : bool :=
  match s with
  | EmptyString => true
  | String c r => negb (Ascii.N_of_ascii c =? 58)%N && no_colon r
  end.

(** What the loop of [sendUpdate] logs for an image that [sendToChannel]
    does not throw on: the delivery, or the warning of [sendToChannel]. *)
Definition outcome (env : Env) (channelId : string) (img : Image) : Event :=
  match deliver env channelId img with
  | Sent => EvDelivered channelId img
  | _ => EvWarn (CannotDeliver channelId)
  end.

(** The call [sendMessage(target)] on the bot at position [i] resolves. *)
Definition call_resolves (bots : list Bot) (c : SendCall) : bool :=
  match bots !! call_bot c with
  | Some bot => bot_sends bot (call_target c)
  | None => false
  end.

(** ** Further concrete worlds for the examples *)

Module Cases.

Import Sample.

(** The platforms are down: every fetch of a latest version throws. *)
Definition env_down : Env :=
  {| latestModrinth := fun _ => FetchThrows;
     latestCurseForge := fun _ => FetchThrows;
     latency := 250;
     fetchModrinthDetail := fun _ => Some {| source := "Modrinth" |};
     fetchCurseForgeDetail := fun _ => Some {| source := "CurseForge" |};
     drawProjectCardMRNotify := fun _ _ => Some ["card"];
     drawProjectCardCFNotify := fun _ _ => Some ["card"];
     deliver := fun _ _ => Sent;
     diskWritable := true |}.

(** The disk refuses every write. *)
Definition env_readonly : Env :=
  {| latestModrinth := fun _ => FetchLatest (release "1.1.0");
     latestCurseForge := fun _ => FetchLatest (release "1.1.0");
     latency := 250;
     fetchModrinthDetail := fun _ => Some {| source := "Modrinth" |};
     fetchCurseForgeDetail := fun _ => Some {| source := "CurseForge" |};
     drawProjectCardMRNotify := fun _ _ => Some ["card"];
     drawProjectCardCFNotify := fun _ _ => Some ["card"];
     deliver := fun _ _ => Sent;
     diskWritable := false |}.

(** The card has three images, and sending the second one throws. *)
Definition env_three_images : Env :=
  {| latestModrinth := fun _ => FetchLatest (release "1.1.0");
     latestCurseForge := fun _ => FetchLatest (release "1.1.0");
     latency := 250;
     fetchModrinthDetail := fun _ => Some {| source := "Modrinth" |};
     fetchCurseForgeDetail := fun _ => Some {| source := "CurseForge" |};
     drawProjectCardMRNotify := fun _ _ => Some ["a"; "b"; "c"];
     drawProjectCardCFNotify := fun _ _ => Some ["a"; "b"; "c"];
     deliver := fun _ img => if String.eqb img "b" then SendThrows else Sent;
     diskWritable := true |}.

(** The configuration [following] with the master switch off. *)
Definition switched_off : Config := with_enabled (Bool false) following.

Definition w_disabled : World := world_of switched_off (seen "1.0.0") ∅ noon.

(** The state entry of the subscription holds an empty version. *)
Definition w_blank : World :=
  world_of following {[ "C1|mr|abc123" := Str "" ]} ∅ noon.

(** A process that has just started, with no file to read. *)
Definition w_started : World := fresh_process following noon w_new.

(** Settings with no [enabled] flag and the interval [Infinity]; nothing
    is subscribed yet. *)
Definition unbounded : Config :=
  {| cfg_enabled := Undefined; cfg_groups := Some [];
     cfg_interval := Num PInf; cfg_adminAuthority := Num (Fin 1) |}.

Definition w_unbounded : World := world_of unbounded ∅ ∅ noon.

(** The process after [notify.add mr abc123] in channel [C1]. *)
Definition w_subscribed : World :=
  (@notify_add decimal (env_of "1.0.0" true) (member "C1") (Str "mr")
     (Str "abc123") w_unbounded).2.

(** Only owners may manage ([adminAuthority] 3). *)
Definition guarded : Config :=
  {| cfg_enabled := Bool true;
     cfg_groups := Some [group_of "C1" true [stored "mr" "abc123" Undefined]];
     cfg_interval := Num (Fin 1800000);
     cfg_adminAuthority := Num (Fin 3) |}.

Definition w_guarded : World := world_of guarded ∅ ∅ noon.

(** Channel [C1] follows the CurseForge project 238222. *)
Definition following_cf : Config :=
  config_of [group_of "C1" true [stored "cf" "238222" Undefined]].

Definition w_cf : World := world_of following_cf ∅ ∅ noon.

(** A session whose sender is shown as owner by the OneBot event. *)
Definition owner_sources : RoleSources :=
  {| src_member := None; src_sender_role := Str "owner";
     src_event_member := None |}.

(** Two bots; the one of [discord] accepts the channel [42] only. *)
Definition two_bots : list Bot :=
  [ {| bot_platform := "onebot"; bot_sends := fun _ => false |};
    {| bot_platform := "discord"; bot_sends := fun t => String.eqb t "42" |} ].

(** Twelve search results, by their titles, and a function that numbers
    the messages sent by the page they show. *)
Definition twelve : list string :=
  ["r1"; "r2"; "r3"; "r4"; "r5"; "r6"; "r7"; "r8"; "r9"; "r10"; "r11"; "r12"].

End Cases.

(** ** The result list of the mcmod search

    The second plugin of the file answers a search with a numbered list,
    ten results to a page, and then takes [p], [n] or a number from the
    same sender.  A result and the message ids that [session.send] returns
    are not looked into; the expiry timer of a list is left out, the tasks
    below being those that run while the list is still there. *)

Module Mcmod.

Section ResultList.

Context {Item Ids : Type}.

Definition PAGE_SIZE : Z := 10.

(** [Math.ceil(n / PAGE_SIZE)] for a length [n]. *)
Definition ceil_pages (n : nat) : Z :=
  (Z.of_nat n + (PAGE_SIZE - 1)) / PAGE_SIZE.

(** [l.slice(a, b)] for integers [a] and [b]: a negative bound counts from
    the end, and both are clamped to the array. *)
Definition slice {A : Type} (a b : Z) (l : list A) : list A :=
  let len := Z.of_nat (length l) in
  let from := if a <? 0 then Z.max (len + a) 0 else Z.min a len in
  let to := if b <? 0 then Z.max (len + b) 0 else Z.min b len in
  take (Z.to_nat (to - from)) (drop (Z.to_nat from) l).

(** The text [formatListPage] builds, by its parts: the page shown and the
    number of pages of the heading, the type that names the results, and
    the lines, each a number and a result. *)
Record ListPage := {
  page_shown : Z;
  page_total : Z;
  page_type : string;
  page_lines : list (Z * Item)
}.

Definition formatListPage (items : list Item) (pageIndex : Z)
    (type : string) : ListPage :=
  let total := Z.max 1 (ceil_pages (length items)) in
  let page :=
    slice (pageIndex * PAGE_SIZE) ((pageIndex + 1) * PAGE_SIZE) items in
  {| page_shown := pageIndex + 1;
     page_total := total;
     page_type := type;
     page_lines :=
       imap (fun idx it => (pageIndex * PAGE_SIZE + Z.of_nat idx + 1, it))
            page |}.

(** An entry of [searchStates]; [st_pageIndex] is [None] when the entry
    has no [pageIndex]. *)
Record SearchState := {
  st_type : string;
  st_results : list Item;
  st_pageIndex : option Z;
  st_messageIds : Ids
}.

(** The entry a search of a given type stores
    ([{ type, results, pageIndex: 0, messageIds, timer }]). *)
Definition typed_state (type : string) (results : list Item) (ids : Ids)
    : SearchState :=
  {| st_type := type; st_results := results; st_pageIndex := Some 0;
     st_messageIds := ids |}.

(** The entry the plain search stores
    ([{ results, page: 0, type: 'mod', messageIds, timer }]): it has a
    [page] and no [pageIndex]. *)
Definition plain_state (results : list Item) (ids : Ids) : SearchState :=
  {| st_type := "mod"; st_results := results; st_pageIndex := None;
     st_messageIds := ids |}.

(** What the task of [p] and [n] sends: "no more pages", or a page after
    withdrawing the messages of the old one. *)
Inductive Turned :=
| NoMorePages
| NewPage (withdrawn : Ids) (page : ListPage).

(** The task of [n] ([next]) and [p] on the entry [s]; [send] gives the
    ids of the message sent.  A comparison with a missing [pageIndex] is a
    comparison with [undefined], which is false. *)
Definition page_turn (send : ListPage -> Ids) (next : bool)
    (s : SearchState) : Turned * SearchState :=
  let total := ceil_pages (length (st_results s)) in
  let go (newIndex : Z) :=
    let page := formatListPage (st_results s) newIndex (st_type s) in
    (NewPage (st_messageIds s) page,
     {| st_type := st_type s; st_results := st_results s;
        st_pageIndex := Some newIndex; st_messageIds := send page |}) in
  match st_pageIndex s with
  | Some pageIndex =>
      if next && (pageIndex <? total - 1) then go (pageIndex + 1)
      else if negb next && (0 <? pageIndex) then go (pageIndex - 1)
      else (NoMorePages, s)
  | None => (NoMorePages, s)
  end.

(** What the task of a number does: nothing, or it withdraws the list and
    goes on to draw the card of a result. *)
Inductive Selected :=
| Ignored
| Chosen (withdrawn : Ids) (item : Item).

(** The task of the number [choice] on the entry [s], and the entry
    afterwards ([None] once cleared).  With [pageIndex] missing,
    [pageStart] and [pageEnd] are [NaN] and the test of the page lets every
    number through. *)
Definition select_item (choice : Z) (s : SearchState)
    : Selected * option SearchState :=
  let idx := choice - 1 in
  let len := Z.of_nat (length (st_results s)) in
  let off_page :=
    match st_pageIndex s with
    | Some pageIndex =>
        let pageStart := pageIndex * PAGE_SIZE in
        let pageEnd := Z.min (pageStart + PAGE_SIZE) len in
        (choice <? pageStart + 1) || (pageEnd <? choice)
    | None => false
    end in
  if off_page then (Ignored, Some s)
  else if (0 <=? idx) && (idx <? len) then
    match st_results s !! Z.to_nat idx with
    | Some item => (Chosen (st_messageIds s) item, None)
    | None => (Ignored, Some s)
    end
  else (Ignored, Some s).

(** The middleware on an input that is neither [q], [p] nor [n]:
    [choice] is [parseInt(input)] ([None] for [NaN]); [None] when the
    message is passed on to [next()]. *)
Definition number_input (choice : option Z) (s : SearchState)
    : option (Selected * option SearchState) :=
  match choice with
  | Some c => if 1 <=? c then Some (select_item c s) else None
  | None => None
  end.

(** The entry shows a page that exists. *)
Definition on_page (s : SearchState) (pageIndex : Z) : Prop :=
  st_pageIndex s = Some pageIndex
  /\ 0 <= pageIndex < Z.max 1 (ceil_pages (length (st_results s))).

End ResultList.

End Mcmod.

(** ** Properties of the JavaScript fragment *)

Section JSFacts.

Context `{!EcmaConv}.

Lemma or_empty_id (s : string) : or_empty s = s.
Proof.
  unfold or_empty; simpl.
  destruct (String.eqb s "") eqn:E; simpl; [|reflexivity].
  apply String.eqb_eq in E. congruence.
Qed.

Lemma strict_eq_Str (s : string) (v : jsval) :
  strict_eq (Str s) v = true <-> v = Str s.
Proof.
  destruct v as [| | |[]|]; simpl; try (split; discriminate).
  rewrite String.eqb_eq. split; congruence.
Qed.

Lemma strict_eq_Str_r (v : jsval) (s : string) :
  strict_eq v (Str s) = true <-> v = Str s.
Proof.
  destruct v as [| | |[]|]; simpl; try (split; discriminate).
  rewrite String.eqb_eq. split; congruence.
Qed.

Lemma strict_eq_Bool (v : jsval) (b : bool) :
  strict_eq v (Bool b) = true <-> v = Bool b.
Proof.
  destruct v as [| |b'|[]|]; simpl; try (split; discriminate).
  destruct b', b; simpl; split; congruence.
Qed.

Lemma truthy_Str (s : string) : truthy (Str s) = true <-> s <> "".
Proof.
  simpl. rewrite negb_true_iff, String.eqb_neq. reflexivity.
Qed.

Lemma num_lt_not_yet (now t0 : Z) (I : jsnum) :
  num_lt (Fin (now - t0)) I = true <-> not_yet now t0 I.
Proof.
  destruct I; simpl; try (split; [discriminate | tauto]); [tauto|].
  rewrite Z.ltb_lt. lia.
Qed.

(** The default chain [raw || Number(config.interval) || 1800000] is never
    falsy, and [Math.max(60000, _)] of it is at least 60000. *)
Lemma interval_floor (raw dflt : jsnum) :
  num_le (Fin 60000)
    (num_max (Fin (60 * 1000))
       (num_or (num_or raw dflt) (Fin (30 * 60 * 1000)))) = true.
Proof.
  unfold num_or.
  destruct raw as [| | |r]; simpl;
    try destruct dflt as [| | |d]; simpl; try reflexivity;
    repeat match goal with
    | |- context [(?z =? 0)] => destruct (Z.eqb_spec z 0); simpl
    end; try reflexivity;
    try (apply Z.leb_le; lia);
    destruct dflt as [| | |d]; simpl; try reflexivity;
    repeat match goal with
    | |- context [(?z =? 0)] => destruct (Z.eqb_spec z 0); simpl
    end; try reflexivity; apply Z.leb_le; lia.
Qed.

(** *** [trim] *)

Lemma trimStart_clean (s : string) : starts_clean (trimStart s).
Proof.
  induction s as [|c r IH]; simpl; [exact I|].
  destruct (is_ws c) eqn:E; [exact IH | exact E].
Qed.

Lemma trimStart_id (s : string) : starts_clean s -> trimStart s = s.
Proof.
  destruct s as [|c r]; simpl; [reflexivity|]. intros ->. reflexivity.
Qed.

Lemma trimEnd_clean (s : string) : starts_clean s -> starts_clean (trimEnd s).
Proof.
  destruct s as [|c r]; simpl; [tauto|]. intros Hc.
  destruct (trimEnd r); rewrite ?Hc; simpl; exact Hc.
Qed.

Lemma trimEnd_idem (s : string) : trimEnd (trimEnd s) = trimEnd s.
Proof.
  induction s as [|c r IH]; simpl; [reflexivity|].
  destruct (trimEnd r) as [|c' r'] eqn:E.
  - destruct (is_ws c) eqn:Ec; simpl; rewrite ?Ec; reflexivity.
  - simpl. simpl in IH. rewrite IH. reflexivity.
Qed.

Lemma trim_idem (s : string) : trim (trim s) = trim s.
Proof.
  unfold trim.
  rewrite (trimStart_id (trimEnd (trimStart s))).
  - apply trimEnd_idem.
  - apply trimEnd_clean, trimStart_clean.
Qed.

End JSFacts.

(** ** Worlds: what each operation leaves alone *)

Section Frames.

Context `{!EcmaConv}.

Lemma world_eq (a b : World) :
  config a = config b -> configLoaded a = configLoaded b ->
  stateCache a = stateCache b -> stateLoaded a = stateLoaded b ->
  saving a = saving b -> lastCheckMap a = lastCheckMap b ->
  configFile a = configFile b -> stateFile a = stateFile b ->
  clock a = clock b -> trace a = trace b -> a = b.
Proof.
  destruct a, b; simpl; intros; subst; reflexivity.
Qed.

Lemma loadStateFromFile_eq (w : World) :
  loadStateFromFile w =
  set_stateCache (cache_after_load w) (set_stateLoaded true w).
Proof.
  unfold loadStateFromFile, cache_after_load.
  destruct (stateLoaded w) eqn:E.
  - apply world_eq; simpl; auto.
  - simpl. destruct (stateFile w); apply world_eq; reflexivity.
Qed.

Lemma persisted_eq (w : World) : persisted w = cache_after_load w.
Proof. unfold persisted. rewrite loadStateFromFile_eq. reflexivity. Qed.

Lemma persisted_loaded (w : World) :
  stateLoaded w = true -> persisted w = stateCache w.
Proof.
  intros E. rewrite persisted_eq. unfold cache_after_load. rewrite E.
  reflexivity.
Qed.

(** [persisted] looks only at the cache, the loaded flag and the state
    file. *)
Lemma persisted_ext (a b : World) :
  stateCache a = stateCache b -> stateLoaded a = stateLoaded b ->
  stateFile a = stateFile b -> persisted a = persisted b.
Proof.
  intros E1 E2 E3. rewrite !persisted_eq. unfold cache_after_load.
  rewrite E1, E2, E3. reflexivity.
Qed.

End Frames.

(** ** The version-state store and the notifier, operation by operation *)

Section Operations.

Context `{!EcmaConv}.

Lemma notifications_app (a b : list Event) :
  notifications (a ++ b) = (notifications a + notifications b)%nat.
Proof. unfold notifications. rewrite List.filter_app, length_app. reflexivity. Qed.

Lemma fetches_app (a b : list Event) :
  fetches (a ++ b) = fetches a ++ fetches b.
Proof. unfold fetches. apply List.filter_app. Qed.

Lemma quiet_step_refl (w : World) : quiet_step w w.
Proof. unfold quiet_step; repeat split; reflexivity. Qed.

Lemma quiet_step_trans (a b c : World) :
  quiet_step a b -> quiet_step b c -> quiet_step a c.
Proof.
  unfold quiet_step.
  intros (A1 & A2 & A3 & A4 & A5 & A6 & A7 & A8)
         (B1 & B2 & B3 & B4 & B5 & B6 & B7 & B8).
  repeat split; try congruence. etrans; eassumption.
Qed.

Lemma quiet_emit (e : Event) (w : World) :
  is_notification e = false -> is_fetch e = false -> quiet_step w (emit e w).
Proof.
  intros Hn Hf. unfold quiet_step; simpl.
  rewrite notifications_app, fetches_app. unfold notifications, fetches.
  simpl. rewrite Hn, Hf. simpl. rewrite Nat.add_0_r, app_nil_r.
  repeat split; try reflexivity. apply prefix_app_r. reflexivity.
Qed.

(** *** [saveStateToFile] *)

Lemma saveStateToFile_quiet (env : Env) (w : World) :
  quiet_step w (saveStateToFile env w).
Proof.
  unfold saveStateToFile. destruct (saving w); [apply quiet_step_refl|].
  destruct (diskWritable env).
  - apply (quiet_step_trans _ (emit (EvWriteFile StateFile) w)).
    + apply quiet_emit; reflexivity.
    + unfold quiet_step; simpl. repeat split; reflexivity.
  - apply (quiet_step_trans _ (emit (EvWarn StateWriteFailed) w)).
    + apply quiet_emit; reflexivity.
    + unfold quiet_step; simpl. repeat split; reflexivity.
Qed.

Lemma saveStateToFile_cache (env : Env) (w : World) :
  stateCache (saveStateToFile env w) = stateCache w
  /\ stateLoaded (saveStateToFile env w) = stateLoaded w
  /\ saving (saveStateToFile env w) = saving w.
Proof.
  unfold saveStateToFile. destruct (saving w) eqn:E; [auto|].
  destruct (diskWritable env); simpl; auto.
Qed.

Lemma saveStateToFile_file (env : Env) (w : World) :
  saving w = false -> diskWritable env = true ->
  stateFile (saveStateToFile env w) =
  Document (state_document (stateCache w)).
Proof.
  intros E1 E2. unfold saveStateToFile. rewrite E1, E2. reflexivity.
Qed.

(** *** [createState] and [updateState] *)

Lemma createState_updateState (env : Env) (ch : string) (p : Platform)
    (pid v : string) (w : World) :
  createState env ch p pid v w = updateState env ch p pid v w.
Proof. reflexivity. Qed.

Lemma updateState_quiet (env : Env) (ch : string) (p : Platform)
    (pid v : string) (w : World) :
  quiet_step w (updateState env ch p pid v w).
Proof.
  unfold updateState.
  eapply quiet_step_trans; [|apply saveStateToFile_quiet].
  rewrite loadStateFromFile_eq. unfold quiet_step; simpl.
  repeat split; reflexivity.
Qed.

Lemma updateState_cache (env : Env) (ch : string) (p : Platform)
    (pid v : string) (w : World) :
  stateCache (updateState env ch p pid v w)
  = <[getStateKey ch p pid := Str v]> (persisted w)
  /\ stateLoaded (updateState env ch p pid v w) = true.
Proof.
  unfold updateState.
  destruct (saveStateToFile_cache env
    (set_stateCache
       (<[getStateKey ch p pid := Str v]> (stateCache (loadStateFromFile w)))
       (loadStateFromFile w))) as (E1 & E2 & _).
  rewrite E1, E2. simpl. rewrite loadStateFromFile_eq. simpl.
  rewrite persisted_eq. auto.
Qed.

Lemma updateState_persisted (env : Env) (ch : string) (p : Platform)
    (pid v : string) (w : World) :
  persisted (updateState env ch p pid v w)
  = <[getStateKey ch p pid := Str v]> (persisted w).
Proof.
  destruct (updateState_cache env ch p pid v w) as (E1 & E2).
  rewrite persisted_loaded by exact E2. exact E1.
Qed.

Lemma updateState_file (env : Env) (ch : string) (p : Platform)
    (pid v : string) (w : World) :
  saving w = false -> diskWritable env = true ->
  stateFile (updateState env ch p pid v w) =
  Document (state_document (<[getStateKey ch p pid := Str v]> (persisted w))).
Proof.
  intros E1 E2. unfold updateState. rewrite saveStateToFile_file.
  - simpl. rewrite persisted_eq, loadStateFromFile_eq. reflexivity.
  - simpl. rewrite loadStateFromFile_eq. exact E1.
  - exact E2.
Qed.

(** *** [sendUpdate] *)

Lemma sendImages_quiet (env : Env) (ch : string) (imgs : list Image)
    (w : World) :
  quiet_step w (sendImages env ch imgs w).2
  /\ stateCache (sendImages env ch imgs w).2 = stateCache w
  /\ stateLoaded (sendImages env ch imgs w).2 = stateLoaded w
  /\ stateFile (sendImages env ch imgs w).2 = stateFile w
  /\ saving (sendImages env ch imgs w).2 = saving w.
Proof.
  revert w. induction imgs as [|img rest IH]; intros w; simpl.
  - split; [apply quiet_step_refl | auto].
  - destruct (deliver env ch img).
    + destruct (IH (emit (EvDelivered ch img) w)) as (Q & E1 & E2 & E3 & E4).
      split; [|auto].
      apply (quiet_step_trans _ (emit (EvDelivered ch img) w));
        [apply quiet_emit; reflexivity | exact Q].
    + destruct (IH (emit (EvWarn (CannotDeliver ch)) w))
        as (Q & E1 & E2 & E3 & E4).
      split; [|auto].
      apply (quiet_step_trans _ (emit (EvWarn (CannotDeliver ch)) w));
        [apply quiet_emit; reflexivity | exact Q].
    + simpl. split; [apply quiet_step_refl | auto].
Qed.

(** [sendUpdate] announces itself once and then only delivers or warns; it
    touches neither the configuration nor the version state. *)
Lemma sendUpdate_effect (env : Env) (ch : string) (p : Platform)
    (pid : string) (latest : Latest) (w : World) :
  quiet_step (emit (EvSendUpdate ch p pid latest) w)
             (sendUpdate env ch p pid latest w)
  /\ stateCache (sendUpdate env ch p pid latest w) = stateCache w
  /\ stateLoaded (sendUpdate env ch p pid latest w) = stateLoaded w
  /\ stateFile (sendUpdate env ch p pid latest w) = stateFile w
  /\ saving (sendUpdate env ch p pid latest w) = saving w.
Proof.
  unfold sendUpdate.
  set (w1 := emit (EvSendUpdate ch p pid latest) w).
  assert (Hc : quiet_step w1 (emit (EvWarn (SendFailed p pid)) w1))
    by (apply quiet_emit; reflexivity).
  destruct (match p with
            | mr => fetchModrinthDetail env pid
            | cf => fetchCurseForgeDetail env pid
            end) as [d|]; [|split; [exact Hc | auto]].
  destruct (if String.eqb (source d) "CurseForge"
            then drawProjectCardCFNotify env d latest
            else drawProjectCardMRNotify env d latest) as [imgs|];
    [|split; [exact Hc | auto]].
  destruct (sendImages_quiet env ch imgs w1) as (Q & E1 & E2 & E3 & E4).
  destruct (sendImages env ch imgs w1) as [ok w2]; simpl in *.
  destruct ok.
  - split; [exact Q | auto].
  - split; [|auto].
    apply (quiet_step_trans _ w2); [exact Q | apply quiet_emit; reflexivity].
Qed.

Lemma sendUpdate_notifications (env : Env) (ch : string) (p : Platform)
    (pid : string) (latest : Latest) (w : World) :
  notifications (trace (sendUpdate env ch p pid latest w))
  = S (notifications (trace w))
  /\ fetches (trace (sendUpdate env ch p pid latest w)) = fetches (trace w)
  /\ trace w `prefix_of` trace (sendUpdate env ch p pid latest w).
Proof.
  destruct (sendUpdate_effect env ch p pid latest w)
    as ((_ & _ & _ & _ & _ & N & F & P) & _).
  rewrite N, F. simpl. rewrite notifications_app, fetches_app.
  unfold notifications, fetches; simpl. rewrite app_nil_r.
  repeat split; [lia|].
  etrans; [|exact P]. simpl. apply prefix_app_r. reflexivity.
Qed.

Lemma sendUpdate_persisted (env : Env) (ch : string) (p : Platform)
    (pid : string) (latest : Latest) (w : World) :
  persisted (sendUpdate env ch p pid latest w) = persisted w.
Proof.
  destruct (sendUpdate_effect env ch p pid latest w) as (_ & E1 & E2 & E3 & _).
  apply persisted_ext; assumption.
Qed.

(** *** What reaches the channel *)

Lemma delivered_app (a b : list Event) :
  delivered (a ++ b) = delivered a ++ delivered b.
Proof. apply omap_app. Qed.

Lemma saveStateToFile_delivered (env : Env) (w : World) :
  delivered (trace (saveStateToFile env w)) = delivered (trace w).
Proof.
  unfold saveStateToFile. destruct (saving w); [reflexivity|].
  destruct (diskWritable env); cbn; rewrite delivered_app; cbn;
    apply app_nil_r.
Qed.

Lemma updateState_delivered (env : Env) (ch : string) (p : Platform)
    (pid v : string) (w : World) :
  delivered (trace (updateState env ch p pid v w)) = delivered (trace w).
Proof.
  unfold updateState. rewrite saveStateToFile_delivered. cbn.
  rewrite loadStateFromFile_eq. reflexivity.
Qed.

Lemma updateState_trace (env : Env) (ch : string) (p : Platform)
    (pid v : string) (w : World) :
  saving w = false -> diskWritable env = true ->
  trace (updateState env ch p pid v w) = trace w ++ [EvWriteFile StateFile].
Proof.
  intros E1 E2. unfold updateState, saveStateToFile.
  rewrite loadStateFromFile_eq. cbn. rewrite E1, E2. reflexivity.
Qed.

Lemma sendImages_all (env : Env) (ch : string) (imgs : list Image)
    (w : World) :
  Forall (fun img => deliver env ch img <> SendThrows) imgs ->
  (sendImages env ch imgs w).1 = true
  /\ trace (sendImages env ch imgs w).2
     = trace w ++ map (outcome env ch) imgs.
Proof.
  revert w. induction imgs as [|img rest IH]; intros w HF; cbn.
  - rewrite app_nil_r. auto.
  - apply Forall_cons in HF as (Hok & HF). unfold outcome at 1.
    destruct (deliver env ch img); [| |congruence];
      match goal with
      | |- context [sendImages env ch rest ?w1] =>
          destruct (IH w1 HF) as (-> & ->)
      end; cbn; rewrite <- app_assoc; auto.
Qed.

Lemma delivered_outcomes (env : Env) (ch : string) (imgs : list Image) :
  delivered (map (outcome env ch) imgs)
  = map (pair ch) (List.filter (reaches env ch) imgs).
Proof.
  induction imgs as [|img rest IH]; [reflexivity|].
  cbn [map List.filter]. unfold outcome at 1, reaches at 1.
  change (delivered (?e :: ?l)) with (delivered ([e] ++ l)).
  rewrite delivered_app, IH.
  destruct (deliver env ch img); reflexivity.
Qed.

(** [sendUpdate] when the card is rendered and no sending throws. *)
Lemma sendUpdate_rendered (env : Env) (ch : string) (p : Platform)
    (pid : string) (latest : Latest) (w : World) (imgs : list Image) :
  rendered env p pid latest = Some imgs -> none_throws env ch imgs ->
  trace (sendUpdate env ch p pid latest w)
  = trace w ++ EvSendUpdate ch p pid latest :: map (outcome env ch) imgs.
Proof.
  unfold rendered, sendUpdate. intros Hr HF.
  destruct (match p with
            | mr => fetchModrinthDetail env pid
            | cf => fetchCurseForgeDetail env pid
            end) as [d|]; [|discriminate].
  rewrite Hr.
  destruct (sendImages_all env ch imgs
              (emit (EvSendUpdate ch p pid latest) w) HF) as (E1 & E2).
  destruct (sendImages env ch imgs _) as [ok w2]. cbn [fst snd] in *.
  subst ok. rewrite E2. cbn. rewrite <- app_assoc. reflexivity.
Qed.

Lemma sendUpdate_delivered (env : Env) (ch : string) (p : Platform)
    (pid : string) (latest : Latest) (w : World) (imgs : list Image) :
  rendered env p pid latest = Some imgs -> none_throws env ch imgs ->
  delivered (trace (sendUpdate env ch p pid latest w))
  = delivered (trace w) ++ map (pair ch) (List.filter (reaches env ch) imgs).
Proof.
  intros Hr HF. rewrite (sendUpdate_rendered _ _ _ _ _ _ imgs Hr HF).
  rewrite delivered_app. cbn. rewrite delivered_outcomes. reflexivity.
Qed.

Lemma updateState_saving (env : Env) (ch : string) (p : Platform)
    (pid v : string) (w : World) :
  saving (updateState env ch p pid v w) = saving w.
Proof.
  unfold updateState.
  rewrite (proj2 (proj2 (saveStateToFile_cache env _))). cbn.
  rewrite loadStateFromFile_eq. reflexivity.
Qed.

(** [sendUpdate] announces itself first. *)
Lemma sendUpdate_starts (env : Env) (ch : string) (p : Platform)
    (pid : string) (latest : Latest) (w : World) :
  exists mid,
    trace (sendUpdate env ch p pid latest w)
    = trace w ++ EvSendUpdate ch p pid latest :: mid.
Proof.
  destruct (sendUpdate_effect env ch p pid latest w)
    as ((_ & _ & _ & _ & _ & _ & _ & (mid & E)) & _).
  exists mid. rewrite E. cbn. rewrite <- app_assoc. reflexivity.
Qed.

End Operations.

(** ** One iteration of [checkOnce] *)

Section CheckOnce.

Context `{!EcmaConv}.

Lemma probed_effect (env : Env) (sub : Sub) (w : World) :
  let w1 := probed env sub w in
  trace w1 = trace w ++ [EvFetchLatest (platform sub) (projectId sub)]
  /\ lastCheckMap w1
     = <[getStateKey (channelId sub) (platform sub) (projectId sub)
         := clock w]> (lastCheckMap w)
  /\ clock w1 = clock w + latency env
  /\ config w1 = config w
  /\ persisted w1 = persisted w
  /\ stateFile w1 = stateFile w
  /\ saving w1 = saving w.
Proof.
  unfold probed, getLatest; simpl.
  repeat split; try reflexivity. apply persisted_ext; reflexivity.
Qed.

Lemma checkOnce_step_skipped (env : Env) (sub : Sub) (w : World)
    (stats : Stats) :
  num_lt (Fin (clock w - lastCheckOf (lastCheckMap w)
                 (getStateKey (channelId sub) (platform sub) (projectId sub))))
         (interval sub) = true ->
  checkOnce_step env false sub (w, stats) = (w, count_skipped stats).
Proof.
  intros E. unfold checkOnce_step, getStateKey in *. rewrite E. reflexivity.
Qed.

Lemma checkOnce_step_checked (env : Env) (force : bool) (sub : Sub)
    (w : World) (stats : Stats) :
  negb force
  && num_lt (Fin (clock w - lastCheckOf (lastCheckMap w)
                    (getStateKey (channelId sub) (platform sub)
                       (projectId sub))))
            (interval sub) = false ->
  checkOnce_step env force sub (w, stats) =
  decide_update env sub (latest_of env sub) (probed env sub w)
    (count_checked stats).
Proof.
  intros E. unfold checkOnce_step, getStateKey in *. rewrite E.
  unfold decide_update, probed, latest_of, getLatest, getStateKey.
  destruct (platform sub); reflexivity.
Qed.

Lemma loadStateFromFile_quiet (w : World) :
  quiet_step w (loadStateFromFile w)
  /\ stateCache (loadStateFromFile w) = persisted w
  /\ stateLoaded (loadStateFromFile w) = true
  /\ persisted (loadStateFromFile w) = persisted w
  /\ stateFile (loadStateFromFile w) = stateFile w
  /\ saving (loadStateFromFile w) = saving w
  /\ trace (loadStateFromFile w) = trace w.
Proof.
  rewrite persisted_eq. rewrite loadStateFromFile_eq.
  unfold quiet_step; simpl. repeat split; reflexivity.
Qed.

Lemma decide_update_seed (env : Env) (sub : Sub) (latest : Latest)
    (w : World) (stats : Stats) :
  persisted w !! getStateKey (channelId sub) (platform sub) (projectId sub)
    = None ->
  decide_update env sub (FetchLatest latest) w stats =
  (createState env (channelId sub) (platform sub) (projectId sub)
     (or_empty (version latest)) (loadStateFromFile w),
   count_noChange stats).
Proof.
  intros E. unfold decide_update, getState. fold (persisted w).
  rewrite E. reflexivity.
Qed.

Lemma decide_update_same (env : Env) (sub : Sub) (latest : Latest)
    (w : World) (stats : Stats) :
  persisted w !! getStateKey (channelId sub) (platform sub) (projectId sub)
    = Some (Str (version latest)) ->
  version latest <> "" ->
  decide_update env sub (FetchLatest latest) w stats =
  (loadStateFromFile w, count_noChange stats).
Proof.
  intros E Hv. unfold decide_update, getState. fold (persisted w).
  rewrite E. apply truthy_Str in Hv. rewrite Hv. simpl negb. cbv iota.
  replace (strict_eq (Str (version latest)) (Str (version latest)))
    with true by (symmetry; apply strict_eq_Str; reflexivity).
  reflexivity.
Qed.

Lemma decide_update_changed (env : Env) (sub : Sub) (latest : Latest)
    (lv : string) (w : World) (stats : Stats) :
  persisted w !! getStateKey (channelId sub) (platform sub) (projectId sub)
    = Some (Str lv) ->
  lv <> "" ->
  version latest <> lv ->
  decide_update env sub (FetchLatest latest) w stats =
  (updateState env (channelId sub) (platform sub) (projectId sub)
     (version latest)
     (sendUpdate env (channelId sub) (platform sub) (projectId sub) latest
        (loadStateFromFile w)),
   count_updated stats).
Proof.
  intros E Hlv Hne. unfold decide_update, getState. fold (persisted w).
  rewrite E. apply truthy_Str in Hlv. rewrite Hlv. simpl negb. cbv iota.
  destruct (strict_eq (Str (version latest)) (Str lv)) eqn:Es; [|reflexivity].
  apply strict_eq_Str in Es. congruence.
Qed.

(** C1. In a non-forced check of a subscription whose persisted state holds
    a non-empty [lastVersion], with fetched record [latest]: the
    notification side effect is invoked (once) iff [latest.version] is a
    different string from [lastVersion], whatever the other fields of
    [latest] are; if the two are equal nothing is sent and the persisted
    state (cache and file) is unchanged and no image reaches any channel;
    if they differ the state becomes [latest.version] (and is written to
    the state file when the disk takes the write), and, the card being
    rendered and no sending throwing, its images reach the channel of the
    subscription, in order, each one that [sendToChannel] can place. *)
Theorem version_change_detection (env : Env) (sub : Sub) (w : World)
    (stats : Stats) (latest : Latest) (lv : string) :
  let key := getStateKey (channelId sub) (platform sub) (projectId sub) in
  num_lt (Fin (clock w - lastCheckOf (lastCheckMap w) key)) (interval sub)
    = false ->
  latest_of env sub = FetchLatest latest ->
  persisted w !! key = Some (Str lv) ->
  lv <> "" ->
  let w' := (checkOnce_step env false sub (w, stats)).1 in
  let stats' := (checkOnce_step env false sub (w, stats)).2 in
  (notifications (trace w') = S (notifications (trace w))
     <-> version latest <> lv)
  /\ (notifications (trace w') = notifications (trace w)
     <-> version latest = lv)
  /\ (version latest = lv ->
      persisted w' = persisted w /\ stateFile w' = stateFile w
      /\ noChange stats' = S (noChange stats)
      /\ updated stats' = updated stats
      /\ delivered (trace w') = delivered (trace w))
  /\ (version latest <> lv ->
      persisted w' = <[key := Str (version latest)]> (persisted w)
      /\ updated stats' = S (updated stats)
      /\ noChange stats' = noChange stats
      /\ (saving w = false -> diskWritable env = true ->
          stateFile w' = Document (state_document (persisted w')))
      /\ (forall imgs,
            rendered env (platform sub) (projectId sub) latest = Some imgs ->
            none_throws env (channelId sub) imgs ->
            delivered (trace w')
            = delivered (trace w)
              ++ map (pair (channelId sub))
                     (List.filter (reaches env (channelId sub)) imgs))).
Proof.
  intros key Hdue Hfetch Hst Hlv w' stats'. subst w' stats'.
  rewrite checkOnce_step_checked by exact Hdue. rewrite Hfetch.
  destruct (probed_effect env sub w) as (Ht & _ & _ & _ & Hp & Hf & Hs).
  set (w1 := probed env sub w) in *.
  assert (Hn1 : notifications (trace w1) = notifications (trace w)).
  { rewrite Ht, notifications_app. unfold notifications at 2; simpl. lia. }
  destruct (loadStateFromFile_quiet w1)
    as (Hq & Hc2 & Hl2 & Hp2 & Hf2 & Hs2 & Ht2).
  destruct (decide (version latest = lv)) as [Heq|Hne].
  - subst lv. rewrite decide_update_same by (rewrite ?Hp; assumption).
    simpl. rewrite Ht2, Hn1, Hp2, Hp, Hf2, Hf.
    assert (Hd1 : delivered (trace w1) = delivered (trace w)).
    { rewrite Ht, delivered_app. cbn. apply app_nil_r. }
    repeat split; try tauto; try lia; try reflexivity; try congruence.
  - rewrite (decide_update_changed env sub latest lv)
      by (rewrite ?Hp; assumption).
    simpl.
    set (w2 := sendUpdate env (channelId sub) (platform sub) (projectId sub)
                 latest (loadStateFromFile w1)).
    destruct (sendUpdate_notifications env (channelId sub) (platform sub)
                (projectId sub) latest (loadStateFromFile w1)) as (N & _ & _).
    destruct (sendUpdate_effect env (channelId sub) (platform sub)
                (projectId sub) latest (loadStateFromFile w1))
      as (_ & _ & _ & _ & S2).
    fold w2 in N, S2.
    destruct (updateState_quiet env (channelId sub) (platform sub)
                (projectId sub) (version latest) w2)
      as (_ & _ & _ & _ & _ & N3 & _).
    assert (P2 : persisted w2 = persisted w).
    { unfold w2. rewrite sendUpdate_persisted, Hp2. exact Hp. }
    rewrite N3, N, Ht2, Hn1, updateState_persisted, P2.
    split; [split; [tauto | congruence]|].
    split; [split; [intros; lia | congruence]|].
    split; [congruence|]. intros _.
    split; [reflexivity|]. split; [reflexivity|]. split; [reflexivity|].
    split.
    + intros Hsv Hdw. rewrite updateState_file, P2; [reflexivity| |exact Hdw].
      rewrite S2, Hs2, Hs. exact Hsv.
    + intros imgs Hr HF. rewrite updateState_delivered. unfold w2.
      rewrite (sendUpdate_delivered _ _ _ _ _ _ imgs Hr HF), Ht2, Ht.
      rewrite delivered_app. cbn. rewrite app_nil_r. reflexivity.
Qed.

End CheckOnce.

(** ** The configuration store *)

Section ConfigStore.

Context `{!EcmaConv}.

Lemma config_step_refl (w : World) : config_step w w.
Proof. unfold config_step; repeat split; reflexivity. Qed.

Lemma config_step_persisted (w w' : World) :
  config_step w w' -> persisted w' = persisted w.
Proof.
  intros (E1 & E2 & E3 & _). apply persisted_ext; assumption.
Qed.

Lemma set_config_step (c : Config) (w : World) : config_step w (set_config c w).
Proof. unfold config_step; simpl; repeat split; reflexivity. Qed.

Lemma saveConfigToFile_step (env : Env) (w : World) :
  config_step w (saveConfigToFile env w)
  /\ config (saveConfigToFile env w) = config w.
Proof.
  unfold saveConfigToFile, config_step.
  destruct (diskWritable env); simpl;
    rewrite notifications_app, fetches_app; unfold notifications, fetches;
    simpl; rewrite Nat.add_0_r, app_nil_r; repeat split; reflexivity.
Qed.

Lemma loadConfigFromFile_step (env : Env) (w : World) :
  config_step w (loadConfigFromFile env w).
Proof.
  unfold loadConfigFromFile.
  destruct (configLoaded w); [apply config_step_refl|].
  simpl. destruct (configFile w) as [| |json].
  - set (w1 := set_config _ _).
    assert (H1 : config_step w w1)
      by (unfold config_step; simpl; repeat split; reflexivity).
    destruct (cfg_groups (groups_made_array (config w))) as [[|g gs]|];
      try exact H1.
    destruct (saveConfigToFile_step env w1) as ((A & B & C & D & E & F & G & I) & _).
    destruct H1 as (A1 & B1 & C1 & D1 & E1 & F1 & G1 & I1).
    unfold config_step. repeat split; congruence.
  - unfold config_step; simpl; repeat split; reflexivity.
  - unfold config_step; simpl; repeat split; reflexivity.
Qed.

Lemma loadConfigFromFile_delivered (env : Env) (w : World) :
  delivered (trace (loadConfigFromFile env w)) = delivered (trace w).
Proof.
  unfold loadConfigFromFile.
  destruct (configLoaded w); [reflexivity|].
  cbn. destruct (configFile w) as [| |json]; try reflexivity.
  destruct (cfg_groups (groups_made_array (config w))) as [[|g gs]|];
    try reflexivity.
  unfold saveConfigToFile.
  destruct (diskWritable env); cbn; rewrite delivered_app; cbn;
    apply app_nil_r.
Qed.

Lemma loadConfigFromFile_loaded (env : Env) (w : World) :
  configLoaded w = true -> loadConfigFromFile env w = w.
Proof. intros E. unfold loadConfigFromFile. rewrite E. reflexivity. Qed.

End ConfigStore.

(** ** A single manual check *)

Section CheckOne.

Context `{!EcmaConv}.

Lemma fetched_effect (env : Env) (sub : Sub) (w : World) :
  let w1 := (getLatest env (platform sub) (projectId sub) w).2 in
  (getLatest env (platform sub) (projectId sub) w).1 = latest_of env sub
  /\ trace w1 = trace w ++ [EvFetchLatest (platform sub) (projectId sub)]
  /\ persisted w1 = persisted w
  /\ notifications (trace w1) = notifications (trace w).
Proof.
  unfold getLatest, latest_of; simpl.
  rewrite notifications_app. unfold notifications at 2; simpl.
  repeat split; try reflexivity; try lia.
  apply persisted_ext; reflexivity.
Qed.

(** C3. The first non-forced check of a subscription (no persisted state for
    its key) sends no notification (the notifier is not invoked and no
    image reaches any channel), counts as [noChange] in [checkOnce] and
    answers [{ sent: false, updated: false }] in [checkOne], and leaves a
    state entry holding the fetched version label: in the cache, which
    otherwise stays as it was, and in the state file, which holds the new
    cache when the disk takes the write. *)
Theorem first_check_seeds_state (env : Env) (sub : Sub) (w : World)
    (stats : Stats) (latest : Latest) :
  let key := getStateKey (channelId sub) (platform sub) (projectId sub) in
  latest_of env sub = FetchLatest latest ->
  persisted w !! key = None ->
  (num_lt (Fin (clock w - lastCheckOf (lastCheckMap w) key)) (interval sub)
     = false ->
   let w' := (checkOnce_step env false sub (w, stats)).1 in
   let stats' := (checkOnce_step env false sub (w, stats)).2 in
   notifications (trace w') = notifications (trace w)
   /\ delivered (trace w') = delivered (trace w)
   /\ noChange stats' = S (noChange stats)
   /\ updated stats' = updated stats
   /\ persisted w' !! key = Some (Str (version latest))
   /\ persisted w' = <[key := Str (version latest)]> (persisted w)
   /\ (saving w = false -> diskWritable env = true ->
       stateFile w' = Document (state_document (persisted w'))))
  /\ (let r := checkOne env sub false w in
      r.1 = Some {| sent := false; updated_flag := false |}
      /\ notifications (trace r.2) = notifications (trace w)
      /\ delivered (trace r.2) = delivered (trace w)
      /\ persisted r.2 !! key = Some (Str (version latest))
      /\ persisted r.2 = <[key := Str (version latest)]> (persisted w)
      /\ (saving w = false -> diskWritable env = true ->
          stateFile r.2 = Document (state_document (persisted r.2)))).
Proof.
  intros key Hfetch Hst. subst key. split.
  - intros Hdue w' stats'. subst w' stats'.
    rewrite checkOnce_step_checked by exact Hdue. rewrite Hfetch.
    destruct (probed_effect env sub w) as (Ht & _ & _ & _ & Hp & _ & Hs).
    set (w1 := probed env sub w) in *.
    rewrite decide_update_seed by (rewrite Hp; exact Hst). simpl.
    rewrite createState_updateState.
    destruct (loadStateFromFile_quiet w1)
      as (_ & _ & _ & Hp2 & _ & Hs2 & Ht2).
    destruct (updateState_quiet env (channelId sub) (platform sub)
                (projectId sub) (or_empty (version latest))
                (loadStateFromFile w1)) as (_ & _ & _ & _ & _ & N & _).
    rewrite N, Ht2, Ht, notifications_app, updateState_persisted, or_empty_id.
    rewrite updateState_delivered, Ht2, Ht, delivered_app, Hp2, Hp.
    unfold notifications at 2; simpl.
    split; [lia|]. split; [apply app_nil_r|].
    split; [reflexivity|]. split; [reflexivity|].
    split; [apply lookup_insert_eq|]. split; [reflexivity|].
    intros Hsv Hdw. rewrite updateState_file, Hp2, Hp; [reflexivity| |exact Hdw].
    rewrite Hs2, Hs. exact Hsv.
  - intros r. subst r. unfold checkOne.
    pose proof (loadConfigFromFile_step env w) as Hc.
    set (w0 := loadConfigFromFile env w) in *.
    destruct (fetched_effect env sub w0) as (Ha & Ht & Hp & Hn).
    assert (Hs1 : saving (getLatest env (platform sub) (projectId sub) w0).2
                  = saving w0) by reflexivity.
    destruct (getLatest env (platform sub) (projectId sub) w0) as [a w1].
    simpl in Ha, Ht, Hp, Hn, Hs1. rewrite Ha, Hfetch.
    unfold getState. fold (persisted w1).
    rewrite Hp, (config_step_persisted _ _ Hc), Hst. simpl.
    rewrite createState_updateState.
    destruct (loadStateFromFile_quiet w1)
      as (_ & _ & _ & Hp2 & _ & Hs2 & Ht2).
    destruct (updateState_quiet env (channelId sub) (platform sub)
                (projectId sub) (or_empty (version latest))
                (loadStateFromFile w1)) as (_ & _ & _ & _ & _ & N & _).
    rewrite N, Ht2, Hn, updateState_persisted, or_empty_id.
    rewrite updateState_delivered, Ht2, Ht, delivered_app, Hp2, Hp.
    rewrite (config_step_persisted _ _ Hc).
    assert (Hd0 : delivered (trace w0) = delivered (trace w))
      by apply loadConfigFromFile_delivered.
    pose proof (config_step_persisted _ _ Hc) as Hpc.
    destruct Hc as (_ & _ & _ & Sc & _ & _ & Nc & _).
    split; [reflexivity|]. split; [exact Nc|].
    split; [cbn; rewrite app_nil_r; exact Hd0|].
    split; [apply lookup_insert_eq|]. split; [reflexivity|].
    intros Hsv Hdw.
    rewrite updateState_file, Hp2, Hp, Hpc; [|rewrite Hs2, Hs1, Sc; exact Hsv
                                             |exact Hdw].
    reflexivity.
Qed.

(** What the forced branch of [checkOne] does from a world [w]: it
    calls [sendUpdate], then [updateState]. *)
Lemma notified_then_stored (env : Env) (sub : Sub) (latest : Latest)
    (w : World) :
  let key := getStateKey (channelId sub) (platform sub) (projectId sub) in
  let w' := updateState env (channelId sub) (platform sub) (projectId sub)
              (or_empty (version latest))
              (sendUpdate env (channelId sub) (platform sub) (projectId sub)
                 latest w) in
  notifications (trace w') = S (notifications (trace w))
  /\ persisted w' = <[key := Str (version latest)]> (persisted w)
  /\ (forall imgs,
        rendered env (platform sub) (projectId sub) latest = Some imgs ->
        none_throws env (channelId sub) imgs ->
        delivered (trace w')
        = delivered (trace w)
          ++ map (pair (channelId sub))
                 (List.filter (reaches env (channelId sub)) imgs))
  /\ (saving w = false -> diskWritable env = true ->
      stateFile w' = Document (state_document (persisted w'))
      /\ exists mid,
           trace w'
           = trace w
             ++ EvSendUpdate (channelId sub) (platform sub) (projectId sub)
                  latest
                :: mid ++ [EvWriteFile StateFile]).
Proof.
  intros key w'. subst key w'.
  set (w2 := sendUpdate env (channelId sub) (platform sub) (projectId sub)
               latest w).
  destruct (updateState_quiet env (channelId sub) (platform sub)
              (projectId sub) (or_empty (version latest)) w2)
    as (_ & _ & _ & _ & _ & N & _).
  destruct (sendUpdate_notifications env (channelId sub) (platform sub)
              (projectId sub) latest w) as (N2 & _ & _).
  destruct (sendUpdate_effect env (channelId sub) (platform sub)
              (projectId sub) latest w) as (_ & _ & _ & _ & S2).
  fold w2 in N2, S2.
  assert (P2 : persisted w2 = persisted w) by apply sendUpdate_persisted.
  rewrite N, N2, updateState_persisted, or_empty_id, P2.
  split; [reflexivity|]. split; [reflexivity|]. split.
  - intros imgs Hr HF. rewrite updateState_delivered. unfold w2.
    apply sendUpdate_delivered; assumption.
  - intros Hsv Hdw.
    assert (Hsv2 : saving w2 = false) by (rewrite S2; exact Hsv).
    split.
    + rewrite updateState_file, P2 by assumption. reflexivity.
    + rewrite updateState_trace by assumption.
      destruct (sendUpdate_starts env (channelId sub) (platform sub)
                  (projectId sub) latest w) as (mid & E).
      fold w2 in E. exists mid. rewrite E, <- app_assoc. reflexivity.
Qed.

(** C7. A check in force/broadcast mode whose fetch returns a record always
    invokes the notification side effect, exactly once, and leaves the state
    at the fetched version, in the cache and (when the disk takes the
    write) in the state file, whatever the stored [lastVersion] is (equal
    to the fetched version included); the card being rendered and no
    sending throwing, its images reach the channel.  When no state
    existed, the state is created and written first, then the notification
    is sent, then the state is written again. *)
Theorem forced_check_always_notifies (env : Env) (sub : Sub) (w : World)
    (latest : Latest) :
  let key := getStateKey (channelId sub) (platform sub) (projectId sub) in
  latest_of env sub = FetchLatest latest ->
  let r := checkOne env sub true w in
  let announce :=
    EvSendUpdate (channelId sub) (platform sub) (projectId sub) latest in
  r.1 = Some {| sent := true; updated_flag := true |}
  /\ notifications (trace r.2) = S (notifications (trace w))
  /\ persisted r.2 !! key = Some (Str (version latest))
  /\ persisted r.2 = <[key := Str (version latest)]> (persisted w)
  /\ (forall imgs,
        rendered env (platform sub) (projectId sub) latest = Some imgs ->
        none_throws env (channelId sub) imgs ->
        delivered (trace r.2)
        = delivered (trace w)
          ++ map (pair (channelId sub))
                 (List.filter (reaches env (channelId sub)) imgs))
  /\ (saving w = false -> diskWritable env = true ->
      stateFile r.2 = Document (state_document (persisted r.2))
      /\ exists mid,
           trace r.2
           = trace (loadConfigFromFile env w)
             ++ EvFetchLatest (platform sub) (projectId sub)
                :: match persisted w !! key with
                   | Some _ => [announce]
                   | None => [EvWriteFile StateFile; announce]
                   end
                ++ mid ++ [EvWriteFile StateFile]).
Proof.
  intros key Hfetch r announce. subst r key announce. unfold checkOne.
  pose proof (loadConfigFromFile_step env w) as Hc.
  pose proof (config_step_persisted _ _ Hc) as Hpc.
  pose proof (loadConfigFromFile_delivered env w) as Hd0.
  destruct Hc as (_ & _ & _ & Sc & _ & _ & Nc & _).
  set (w0 := loadConfigFromFile env w) in *.
  destruct (fetched_effect env sub w0) as (Ha & Ht & Hp & Hn).
  assert (Hs1 : saving (getLatest env (platform sub) (projectId sub) w0).2
                = saving w0) by reflexivity.
  destruct (getLatest env (platform sub) (projectId sub) w0) as [a w1].
  simpl in Ha, Ht, Hp, Hn, Hs1. rewrite Ha, Hfetch.
  unfold getState. fold (persisted w1).
  destruct (loadStateFromFile_quiet w1)
    as (_ & _ & _ & Hp2 & _ & Hs2 & Ht2).
  set (w2 := loadStateFromFile w1) in *.
  assert (Hd2 : delivered (trace w2) = delivered (trace w)).
  { rewrite Ht2, Ht, delivered_app, Hd0. cbn. apply app_nil_r. }
  assert (Hst : persisted w1 = persisted w) by (rewrite Hp; exact Hpc).
  rewrite Hst.
  destruct (persisted w !! getStateKey (channelId sub) (platform sub)
              (projectId sub)) as [lastVersion|] eqn:Est; simpl.
  - destruct (notified_then_stored env sub latest w2) as (G1 & G2 & G3 & G4).
    rewrite G1, G2, Ht2, Hn, Nc, Hp2, Hst.
    split; [reflexivity|]. split; [reflexivity|].
    split; [apply lookup_insert_eq|]. split; [reflexivity|]. split.
    + intros imgs Hr HF. rewrite (G3 imgs Hr HF), Hd2. reflexivity.
    + intros Hsv Hdw.
      destruct G4 as (F & mid & E);
        [rewrite Hs2, Hs1, Sc; exact Hsv | exact Hdw |].
      rewrite G2, Hp2, Hst in F. split; [exact F|].
      exists mid. rewrite E, Ht2, Ht, <- app_assoc. reflexivity.
  - change (createState env (channelId sub) (platform sub) (projectId sub)
              (or_empty (version latest)) w2)
      with (updateState env (channelId sub) (platform sub) (projectId sub)
              (or_empty (version latest)) w2).
    set (w3 := updateState env (channelId sub) (platform sub) (projectId sub)
                 (or_empty (version latest)) w2).
    assert (N3 : notifications (trace w3) = notifications (trace w2)).
    { unfold w3. apply updateState_quiet. }
    assert (P3 : persisted w3
                 = <[getStateKey (channelId sub) (platform sub)
                       (projectId sub) := Str (version latest)]>
                     (persisted w)).
    { unfold w3. rewrite updateState_persisted, or_empty_id, Hp2, Hst.
      reflexivity. }
    assert (D3 : delivered (trace w3) = delivered (trace w)).
    { unfold w3. rewrite updateState_delivered. exact Hd2. }
    assert (S3 : saving w3 = saving w).
    { unfold w3. rewrite updateState_saving, Hs2, Hs1. exact Sc. }
    destruct (notified_then_stored env sub latest w3) as (G1 & G2 & G3 & G4).
    rewrite G1, G2, N3, Ht2, Hn, Nc, P3, insert_insert_eq.
    split; [reflexivity|]. split; [reflexivity|].
    split; [apply lookup_insert_eq|]. split; [reflexivity|]. split.
    + intros imgs Hr HF. rewrite (G3 imgs Hr HF), D3. reflexivity.
    + intros Hsv Hdw.
      destruct G4 as (F & mid & E); [rewrite S3; exact Hsv | exact Hdw |].
      rewrite G2, P3, insert_insert_eq in F. split; [exact F|].
      exists mid. rewrite E. unfold w3.
      rewrite updateState_trace, Ht2, Ht;
        [|rewrite Hs2, Hs1, Sc; exact Hsv | exact Hdw].
      rewrite <- !app_assoc. reflexivity.
Qed.

End CheckOne.

(** ** Failed notifications and the eligibility gate *)

Section Gate.

Context `{!EcmaConv}.

Lemma sendImages_throws (env : Env) (ch : string) (imgs : list Image)
    (w : World) :
  Exists (fun src => deliver env ch src = SendThrows) imgs ->
  (sendImages env ch imgs w).1 = false.
Proof.
  revert w. induction imgs as [|img rest IH]; intros w Hex; simpl.
  - inversion Hex.
  - destruct (deliver env ch img) eqn:E; try reflexivity.
    + apply IH. inversion Hex; subst; [congruence | assumption].
    + apply IH. inversion Hex; subst; [congruence | assumption].
Qed.

Lemma sendUpdate_warns (env : Env) (ch : string) (p : Platform)
    (pid : string) (latest : Latest) (w : World) :
  notifier_throws env ch p pid latest ->
  EvWarn (SendFailed p pid) ∈ trace (sendUpdate env ch p pid latest w).
Proof.
  unfold notifier_throws, sendUpdate. intros Hthrow.
  destruct (match p with
            | mr => fetchModrinthDetail env pid
            | cf => fetchCurseForgeDetail env pid
            end) as [d|].
  - destruct (if String.eqb (source d) "CurseForge"
              then drawProjectCardCFNotify env d latest
              else drawProjectCardMRNotify env d latest) as [imgs|].
    + pose proof (sendImages_throws env ch imgs
                    (emit (EvSendUpdate ch p pid latest) w) Hthrow) as E.
      destruct (sendImages env ch imgs _) as [ok w2]. simpl in E. subst ok.
      simpl. apply elem_of_app. right. apply list_elem_of_singleton.
      reflexivity.
    + simpl. apply elem_of_app. right. apply list_elem_of_singleton.
      reflexivity.
  - simpl. apply elem_of_app. right. apply list_elem_of_singleton.
    reflexivity.
Qed.

(** A check that finds the fetched label already stored sends nothing. *)
Lemma decide_update_stored (env : Env) (sub : Sub) (latest : Latest)
    (w : World) (stats : Stats) :
  persisted w !! getStateKey (channelId sub) (platform sub) (projectId sub)
    = Some (Str (version latest)) ->
  let r := decide_update env sub (FetchLatest latest) w stats in
  notifications (trace r.1) = notifications (trace w)
  /\ noChange r.2 = S (noChange stats)
  /\ updated r.2 = updated stats.
Proof.
  intros E r. subst r.
  destruct (loadStateFromFile_quiet w) as (_ & _ & _ & _ & _ & _ & Ht).
  destruct (decide (version latest = "")) as [He|Hne].
  - unfold decide_update, getState. fold (persisted w). rewrite E, He.
    simpl.
    destruct (updateState_quiet env (channelId sub) (platform sub)
                (projectId sub) "" (loadStateFromFile w))
      as (_ & _ & _ & _ & _ & N & _).
    rewrite N, Ht. auto.
  - rewrite decide_update_same by assumption. simpl. rewrite Ht. auto.
Qed.

(** C2, as the code has it. In the non-forced checking path a notification
    side effect that throws (detail fetch, render or delivery) is caught
    inside [sendUpdate], which logs a warning and returns normally; the
    persisted state is then advanced to the fetched version all the same,
    and the next check that fetches the same version sends nothing. *)
Theorem failed_notification_advances_state (env : Env) (sub : Sub)
    (w : World) (stats : Stats) (latest : Latest) (lv : string) :
  let key := getStateKey (channelId sub) (platform sub) (projectId sub) in
  num_lt (Fin (clock w - lastCheckOf (lastCheckMap w) key)) (interval sub)
    = false ->
  latest_of env sub = FetchLatest latest ->
  persisted w !! key = Some (Str lv) ->
  lv <> "" ->
  version latest <> lv ->
  notifier_throws env (channelId sub) (platform sub) (projectId sub) latest ->
  let w' := (checkOnce_step env false sub (w, stats)).1 in
  let stats' := (checkOnce_step env false sub (w, stats)).2 in
  EvWarn (SendFailed (platform sub) (projectId sub)) ∈ trace w'
  /\ persisted w' !! key = Some (Str (version latest))
  /\ updated stats' = S (updated stats)
  /\ forall (env2 : Env) (force : bool) (t : Z) (stats2 : Stats)
       (latest2 : Latest),
       latest_of env2 sub = FetchLatest latest2 ->
       version latest2 = version latest ->
       negb force
       && num_lt (Fin (t - lastCheckOf (lastCheckMap w') key)) (interval sub)
       = false ->
       let r := checkOnce_step env2 force sub (set_clock t w', stats2) in
       notifications (trace r.1) = notifications (trace w')
       /\ noChange r.2 = S (noChange stats2)
       /\ updated r.2 = updated stats2.
Proof.
  intros key Hdue Hfetch Hst Hlv Hne Hthrow w' stats'. subst w' stats' key.
  rewrite checkOnce_step_checked by exact Hdue. rewrite Hfetch.
  destruct (probed_effect env sub w) as (_ & _ & _ & _ & Hp & _ & _).
  set (w1 := probed env sub w) in *.
  rewrite (decide_update_changed env sub latest lv)
    by (rewrite ?Hp; assumption).
  cbn [fst snd].
  set (w2 := sendUpdate env (channelId sub) (platform sub) (projectId sub)
               latest (loadStateFromFile w1)).
  set (w3 := updateState env (channelId sub) (platform sub) (projectId sub)
               (version latest) w2).
  assert (P3 : persisted w3
               !! getStateKey (channelId sub) (platform sub) (projectId sub)
               = Some (Str (version latest))).
  { unfold w3. rewrite updateState_persisted. apply lookup_insert_eq. }
  split; [|split; [|split]].
  - destruct (updateState_quiet env (channelId sub) (platform sub)
                (projectId sub) (version latest) w2)
      as (_ & _ & _ & _ & _ & _ & _ & Pre).
    fold w3 in Pre. destruct Pre as [rest ->].
    apply elem_of_app. left. unfold w2. apply sendUpdate_warns. exact Hthrow.
  - exact P3.
  - reflexivity.
  - clearbody w3. clear w2 w1 Hp.
    intros env2 force t stats2 latest2 Hf2 Hv2 Hdue2.
    rewrite checkOnce_step_checked by exact Hdue2. rewrite Hf2.
    destruct (probed_effect env2 sub (set_clock t w3))
      as (Ht4 & _ & _ & _ & Hp4 & _ & _).
    destruct (decide_update_stored env2 sub latest2
                (probed env2 sub (set_clock t w3)) (count_checked stats2))
      as (N & C1 & C2).
    { rewrite Hp4, Hv2.
      rewrite (persisted_ext (set_clock t w3) w3) by reflexivity. exact P3. }
    rewrite N, Ht4, notifications_app.
    split; [|split; [exact C1 | exact C2]].
    unfold notifications at 2. cbn [List.filter is_notification length].
    cbn [set_clock trace]. lia.
Qed.

Lemma decide_update_frame (env : Env) (sub : Sub) (answer : FetchResult)
    (w : World) (stats : Stats) :
  lastCheckMap (decide_update env sub answer w stats).1 = lastCheckMap w
  /\ trace w `prefix_of` trace (decide_update env sub answer w stats).1
  /\ checked (decide_update env sub answer w stats).2 = checked stats
  /\ skipped (decide_update env sub answer w stats).2 = skipped stats.
Proof.
  destruct (loadStateFromFile_quiet w) as (Q0 & _).
  assert (Hup : forall v w0, quiet_step w w0 ->
            quiet_step w (updateState env (channelId sub) (platform sub)
                            (projectId sub) v w0)).
  { intros v w0 Q. eapply quiet_step_trans; [exact Q|].
    apply updateState_quiet. }
  assert (Hq : forall w0, quiet_step w w0 ->
            lastCheckMap w0 = lastCheckMap w /\ trace w `prefix_of` trace w0).
  { intros w0 (_ & _ & L & _ & _ & _ & _ & P). auto. }
  unfold decide_update, getState. set (w0 := loadStateFromFile w) in *.
  destruct answer as [| |latest]; cbn [fst snd].
  - simpl. repeat split; try reflexivity. apply prefix_app_r. reflexivity.
  - repeat split; reflexivity.
  - destruct (stateCache w0 !! _) as [lastVersion|]; cbn [fst snd].
    + destruct (truthy lastVersion); cbn [negb fst snd].
      * destruct (strict_eq (Str (version latest)) lastVersion);
          cbn [fst snd].
        -- destruct (Hq _ Q0); repeat split; assumption.
        -- destruct (sendUpdate_effect env (channelId sub) (platform sub)
                       (projectId sub) latest w0)
             as ((_ & _ & L & _ & _ & _ & _ & P) & _).
           destruct (updateState_quiet env (channelId sub) (platform sub)
                       (projectId sub) (version latest)
                       (sendUpdate env (channelId sub) (platform sub)
                          (projectId sub) latest w0))
             as (_ & _ & L2 & _ & _ & _ & _ & P2).
           destruct (Hq _ Q0) as (L0 & P0).
           simpl in L, P. repeat split; try congruence.
           etrans; [exact P0|]. etrans; [|exact P2]. etrans; [|exact P].
           apply prefix_app_r. reflexivity.
      * destruct (Hq _ (Hup (version latest) _ Q0));
          repeat split; assumption.
    + rewrite createState_updateState.
      destruct (Hq _ (Hup (or_empty (version latest)) _ Q0));
        repeat split; assumption.
Qed.

Lemma checkOnce_step_was_checked (env : Env) (force : bool) (sub : Sub)
    (w : World) (stats : Stats) :
  negb force
  && num_lt (Fin (clock w - lastCheckOf (lastCheckMap w)
                    (getStateKey (channelId sub) (platform sub)
                       (projectId sub))))
            (interval sub) = false ->
  was_checked sub w stats (checkOnce_step env force sub (w, stats)).
Proof.
  intros E. rewrite checkOnce_step_checked by exact E.
  destruct (probed_effect env sub w) as (Ht & Hl & _).
  destruct (decide_update_frame env sub (latest_of env sub)
              (probed env sub w) (count_checked stats))
    as (L & P & C & S).
  unfold was_checked. rewrite L, Hl, C, S. repeat split.
  - destruct P as [rest ->]. rewrite Ht, <- app_assoc. eauto.
  - apply lookup_insert_eq.
Qed.

(** C5, as the code has it. With recorded timestamp [t0] a non-forced check
    is skipped (no fetch, counted [skipped]) while the clock is below
    [t0 + I], and runs once it has reached it; a missing timestamp counts as
    [t0 = 0], so the first check runs iff the clock reading is at least [I];
    a forced check always runs; and every check that runs stamps the
    subscription with the current time before it fetches. *)
Theorem eligibility_gating (env : Env) (force : bool) (sub : Sub)
    (w : World) (stats : Stats) :
  let key := getStateKey (channelId sub) (platform sub) (projectId sub) in
  let r := checkOnce_step env force sub (w, stats) in
  (forall t0, lastCheckMap w !! key = Some t0 -> force = false ->
     (not_yet (clock w) t0 (interval sub) -> was_skipped w stats r)
     /\ (~ not_yet (clock w) t0 (interval sub) -> was_checked sub w stats r))
  /\ (lastCheckMap w !! key = None -> force = false ->
      (not_yet (clock w) 0 (interval sub) -> was_skipped w stats r)
      /\ (~ not_yet (clock w) 0 (interval sub) -> was_checked sub w stats r))
  /\ (force = true -> was_checked sub w stats r)
  /\ (was_skipped w stats r \/ was_checked sub w stats r).
Proof.
  intros key r. subst r key.
  assert (Hgate : forall t0,
    lastCheckOf (lastCheckMap w)
      (getStateKey (channelId sub) (platform sub) (projectId sub)) = t0 ->
    force = false ->
    (not_yet (clock w) t0 (interval sub) ->
     was_skipped w stats (checkOnce_step env force sub (w, stats)))
    /\ (~ not_yet (clock w) t0 (interval sub) ->
        was_checked sub w stats (checkOnce_step env force sub (w, stats)))).
  { intros t0 E -> . split; intros Hn.
    - apply num_lt_not_yet in Hn. unfold was_skipped.
      apply checkOnce_step_skipped. rewrite E. exact Hn.
    - apply checkOnce_step_was_checked. rewrite E. cbn [negb andb].
      destruct (num_lt (Fin (clock w - t0)) (interval sub)) eqn:El;
        [|reflexivity].
      apply num_lt_not_yet in El. contradiction. }
  split; [|split; [|split]].
  - intros t0 Ht Hf. apply Hgate; [|exact Hf].
    unfold lastCheckOf. rewrite Ht. reflexivity.
  - intros Ht Hf. apply Hgate; [|exact Hf].
    unfold lastCheckOf. rewrite Ht. reflexivity.
  - intros ->. apply checkOnce_step_was_checked. reflexivity.
  - destruct (negb force
              && num_lt (Fin (clock w - lastCheckOf (lastCheckMap w)
                    (getStateKey (channelId sub) (platform sub)
                       (projectId sub)))) (interval sub)) eqn:E.
    + left. apply andb_true_iff in E as (Ef & El).
      apply negb_true_iff in Ef. subst force. unfold was_skipped.
      apply checkOnce_step_skipped. exact El.
    + right. apply checkOnce_step_was_checked. exact E.
Qed.

End Gate.

(** ** The enumeration of subscriptions *)

Section Enumeration.

Context `{!EcmaConv}.

Lemma inner_loop (c : Config) (group : Group) (entries : list StoredSub)
    (subs : list Sub) :
  foldl (fun subs sub =>
    match normalizePlatform (sub_platform sub) with
    | None => subs
    | Some platformKey =>
        let projectId :=
          trim (ToString (js_or (sub_projectId sub) (Str ""))) in
        if String.eqb projectId "" then subs
        else
          let rawInterval := ToNumber (sub_interval sub) in
          if isFinite rawInterval && num_le rawInterval (Fin 0)
          then subs
          else
            let interval :=
              num_max (Fin (60 * 1000))
                (num_or (num_or rawInterval
                           (ToNumber (cfg_interval c)))
                        (Fin (30 * 60 * 1000))) in
            subs ++ [ {| channelId := ToString (grp_channelId group);
                         platform := platformKey;
                         projectId := projectId;
                         interval := interval |} ]
    end) subs entries
  = subs ++ omap (entry_of c group) entries.
Proof.
  revert subs. induction entries as [|sub rest IH]; intros subs; cbn [foldl omap].
  - rewrite app_nil_r. reflexivity.
  - rewrite IH. cbn [omap list_omap]. unfold entry_of at 2.
    destruct (normalizePlatform (sub_platform sub)) as [pk|]; [|reflexivity].
    cbv zeta.
    destruct (String.eqb _ ""); [reflexivity|].
    destruct (isFinite _ && num_le _ _); [reflexivity|].
    rewrite <- app_assoc. reflexivity.
Qed.

Lemma outer_loop (channelId : jsval) (c : Config) (groups : list Group)
    (subs : list Sub) :
  foldl (fun subs group =>
    if negb (truthy (grp_channelId group)) then subs
    else if truthy channelId
            && negb (strict_eq (grp_channelId group) channelId) then subs
    else if strict_eq (grp_enabled group) (Bool false) then subs
    else
      let list := default [] (grp_subs group) in
      foldl (fun subs sub =>
        match normalizePlatform (sub_platform sub) with
        | None => subs
        | Some platformKey =>
            let projectId :=
              trim (ToString (js_or (sub_projectId sub) (Str ""))) in
            if String.eqb projectId "" then subs
            else
              let rawInterval := ToNumber (sub_interval sub) in
              if isFinite rawInterval && num_le rawInterval (Fin 0)
              then subs
              else
                let interval :=
                  num_max (Fin (60 * 1000))
                    (num_or (num_or rawInterval
                               (ToNumber (cfg_interval c)))
                            (Fin (30 * 60 * 1000))) in
                subs ++ [ {| channelId := ToString (grp_channelId group);
                             platform := platformKey;
                             projectId := projectId;
                             interval := interval |} ]
        end) subs list)
    subs groups
  = subs ++ flat_map (group_entries channelId c) groups.
Proof.
  revert subs. induction groups as [|group rest IH]; intros subs.
  - cbn. rewrite app_nil_r. reflexivity.
  - cbn [foldl flat_map]. rewrite IH, app_assoc. f_equal.
    unfold group_entries, visited.
    destruct (truthy (grp_channelId group)); cbn [negb andb];
      [|rewrite app_nil_r; reflexivity].
    destruct (truthy channelId); cbn [negb andb orb].
    + destruct (strict_eq (grp_channelId group) channelId); cbn [negb];
        [|rewrite app_nil_r; reflexivity].
      destruct (strict_eq (grp_enabled group) (Bool false)); cbn [negb];
        [rewrite app_nil_r; reflexivity|].
      apply inner_loop.
    + destruct (strict_eq (grp_enabled group) (Bool false)); cbn [negb];
        [rewrite app_nil_r; reflexivity|].
      apply inner_loop.
Qed.

Lemma getConfigSubs_entries (channelId : jsval) (c : Config) :
  (getConfigSubs channelId c).1
  = flat_map (group_entries channelId (groups_made_array c))
      (default [] (cfg_groups c)).
Proof.
  unfold getConfigSubs, getConfigGroups. cbn [fst].
  rewrite outer_loop. cbn [app].
  unfold groups_made_array.
  destruct (cfg_groups c) eqn:E; cbn; rewrite ?E; reflexivity.
Qed.

Lemma getConfigSubsOrdered_unfold (channelId : jsval) (c : Config) :
  (getConfigSubsOrdered channelId c).1
  = flat_map (group_entries channelId (groups_made_array c))
      (default [] (cfg_groups c))
  /\ (getConfigSubsOrdered channelId c).2 = groups_made_array c.
Proof.
  unfold getConfigSubsOrdered, getConfigGroups. cbn [fst snd].
  rewrite outer_loop. cbn [app]. split; [|reflexivity].
  unfold groups_made_array.
  destruct (cfg_groups c) eqn:E; cbn; rewrite ?E; reflexivity.
Qed.

(** C9. [getConfigSubsOrdered] and [getConfigSubs] return the same list, in
    the same order, for every configuration and every [channelId] argument
    (given or not), and settle [config.groups] the same way. *)
Theorem getConfigSubsOrdered_is_getConfigSubs (channelId : jsval)
    (c : Config) :
  getConfigSubsOrdered channelId c = getConfigSubs channelId c.
Proof.
  unfold getConfigSubsOrdered, getConfigSubs.
  destruct (getConfigGroups c) as [groups c']. reflexivity.
Qed.

Lemma entry_of_interval (c : Config) (g : Group) (e : StoredSub) (s : Sub) :
  entry_of c g e = Some s -> num_le (Fin 60000) (interval s) = true.
Proof.
  unfold entry_of.
  destruct (normalizePlatform _); [|discriminate]. cbv zeta.
  destruct (String.eqb _ _); [discriminate|].
  destruct (_ && _); [discriminate|].
  intros [= <-]. cbn [interval]. apply interval_floor.
Qed.

Lemma cfg_interval_made_array (c : Config) :
  cfg_interval (groups_made_array c) = cfg_interval c.
Proof. unfold groups_made_array. destruct (cfg_groups c); reflexivity. Qed.

Lemma group_entries_without (channelId : jsval) (c : Config) (g : Group)
    (l : list StoredSub) (j : nat) (e : StoredSub) :
  grp_subs g = Some l -> l !! j = Some e -> entry_of c g e = None ->
  group_entries channelId c (without_entry j g) = group_entries channelId c g.
Proof.
  intros Hl Hj He. unfold group_entries, visited, without_entry; cbn.
  destruct (truthy (grp_channelId g) && _ && _); [|reflexivity].
  rewrite Hl. cbn.
  change (entry_of c {| grp_channelId := grp_channelId g;
                        grp_enabled := grp_enabled g;
                        grp_subs := Some (delete j l) |})
    with (entry_of c g).
  rewrite delete_take_drop.
  rewrite <- (take_drop_middle l j e Hj) at 3.
  rewrite !omap_app. cbn [omap list_omap]. rewrite He. reflexivity.
Qed.

Lemma entry_of_ext (c1 c2 : Config) (g : Group) (e : StoredSub) :
  cfg_interval c1 = cfg_interval c2 -> entry_of c1 g e = entry_of c2 g e.
Proof. intros E. unfold entry_of. rewrite E. reflexivity. Qed.

Lemma group_entries_ext (channelId : jsval) (c1 c2 : Config) (g : Group) :
  cfg_interval c1 = cfg_interval c2 ->
  group_entries channelId c1 g = group_entries channelId c2 g.
Proof.
  intros E. unfold group_entries. destruct (visited channelId g); [|reflexivity].
  apply list_omap_ext, Forall2_same_length_lookup_2; [reflexivity|].
  intros k x y Hx Hy. rewrite Hx in Hy. injection Hy as <-.
  apply entry_of_ext, E.
Qed.

Lemma flat_map_without (channelId : jsval) (c1 c2 : Config)
    (gs : list Group) (i : nat) (g : Group) (l : list StoredSub) (j : nat)
    (e : StoredSub) :
  cfg_interval c1 = cfg_interval c2 ->
  gs !! i = Some g -> grp_subs g = Some l -> l !! j = Some e ->
  entry_of c2 g e = None ->
  flat_map (group_entries channelId c1) (<[i := without_entry j g]> gs)
  = flat_map (group_entries channelId c2) gs.
Proof.
  intros Ec. revert i. induction gs as [|g0 rest IH]; intros i Hi Hl Hj He.
  - discriminate.
  - destruct i as [|i]; cbn [flat_map] in *.
    + injection Hi as ->. cbn.
      rewrite (group_entries_ext channelId c1 c2) by exact Ec.
      rewrite (group_entries_without channelId c2 g l j e Hl Hj He).
      f_equal. apply flat_map_ext. intros a.
      apply group_entries_ext, Ec.
    + cbn. rewrite (group_entries_ext channelId c1 c2) by exact Ec.
      f_equal. apply IH; assumption.
Qed.

(** C4, as the code has it. Every subscription the enumeration yields has
    an interval of at least 60 000 ms. A stored entry (of a visited group,
    with a valid platform and a non-empty project id) whose interval is
    unset is enumerated with the global default interval (30 minutes when
    that is unset too), floored at 60 000 ms. A stored entry whose interval
    converts to a finite number that is not positive is skipped: the
    enumeration is the same as if the entry were not stored. *)
Theorem interval_normalization (channelId : jsval) (c : Config) :
  (forall s, s ∈ (getConfigSubs channelId c).1 ->
     num_le (Fin 60000) (interval s) = true)
  /\ (forall gs i g l j e pk pid,
        cfg_groups c = Some gs -> gs !! i = Some g ->
        grp_subs g = Some l -> l !! j = Some e ->
        (visited channelId g = true ->
         sub_key e = Some (pk, pid) -> pid <> "" ->
         sub_interval e = Undefined ->
         {| channelId := ToString (grp_channelId g);
            platform := pk;
            projectId := pid;
            interval := num_max (Fin 60000)
                          (num_or (ToNumber (cfg_interval c))
                                  (Fin 1800000)) |}
           ∈ (getConfigSubs channelId c).1)
        /\ (isFinite (ToNumber (sub_interval e)) = true ->
            num_le (ToNumber (sub_interval e)) (Fin 0) = true ->
            (getConfigSubs channelId
               (with_groups (<[i := without_entry j g]> gs) c)).1
            = (getConfigSubs channelId c).1)).
Proof.
  split.
  - intros s Hs. rewrite getConfigSubs_entries in Hs.
    apply list_elem_of_In, in_flat_map in Hs as (g & _ & Hs).
    unfold group_entries in Hs. destruct (visited channelId g); [|inversion Hs].
    apply list_elem_of_In, list_elem_of_omap in Hs as (e & _ & He).
    eapply entry_of_interval, He.
  - intros gs i g l j e pk pid Hgs Hi Hl Hj. split.
    + intros Hv Hk Hpid Hu. rewrite getConfigSubs_entries, Hgs. cbn.
      apply list_elem_of_In, in_flat_map. exists g. split.
      { apply list_elem_of_In, list_elem_of_lookup. eauto. }
      unfold group_entries. rewrite Hv, Hl. cbn.
      apply list_elem_of_In, list_elem_of_omap. exists e. split.
      { apply list_elem_of_lookup. eauto. }
      unfold sub_key in Hk. unfold entry_of.
      destruct (normalizePlatform (sub_platform e)) as [pk'|]; [|discriminate].
      injection Hk as -> Hp. cbv zeta. rewrite Hp.
      apply String.eqb_neq in Hpid. rewrite Hpid, Hu.
      rewrite cfg_interval_made_array. reflexivity.
    + intros Hfin Hle. rewrite !getConfigSubs_entries, Hgs. cbn.
      apply flat_map_without with (l := l) (e := e); try assumption.
      * rewrite !cfg_interval_made_array. reflexivity.
      * unfold entry_of.
        destruct (normalizePlatform _); [|reflexivity]. cbv zeta.
        destruct (String.eqb _ _); [reflexivity|].
        rewrite Hfin, Hle. reflexivity.
Qed.

End Enumeration.

(** ** The manual check of a disabled channel *)

Section ManualCheck.

Context `{!EcmaConv}.

Lemma flat_map_nil {A B : Type} (f : A -> list B) (l : list A) :
  (forall x, x ∈ l -> f x = []) -> flat_map f l = [].
Proof.
  induction l as [|x r IH]; intros Hf; [reflexivity|]. cbn.
  rewrite (Hf x) by apply list_elem_of_here.
  apply IH. intros y Hy. apply Hf. apply list_elem_of_further, Hy.
Qed.

(** C10. When every group stored for the channel has [enabled === false],
    the manual check command finds no subscription to check, whatever the
    group stores: it answers "no subscriptions", fetches nothing, sends
    nothing and leaves the version state and the timestamps as they
    were. *)
Theorem disabled_channel_is_not_checked (env : Env) (session : Session)
    (arg : jsval) (broadcast : bool) (w : World) :
  let w0 := loadConfigFromFile env w in
  truthy (ses_channelId session) = true ->
  requireManage (config w0) session = true ->
  (forall g, g ∈ default [] (cfg_groups (config w0)) ->
     strict_eq (grp_channelId g) (ses_channelId session) = true ->
     grp_enabled g = Bool false) ->
  let r := notify_check env session arg broadcast w in
  r.1 = NoSubscriptions
  /\ fetches (trace r.2) = fetches (trace w)
  /\ notifications (trace r.2) = notifications (trace w)
  /\ stateCache r.2 = stateCache w
  /\ stateLoaded r.2 = stateLoaded w
  /\ stateFile r.2 = stateFile w
  /\ lastCheckMap r.2 = lastCheckMap w.
Proof.
  intros w0 Hch Hman Hoff r. subst r. unfold notify_check. fold w0.
  rewrite Hch, Hman. cbn [negb].
  assert (Hnil : (getConfigSubsOrdered (ses_channelId session)
                    (config w0)).1 = []).
  { rewrite (proj1 (getConfigSubsOrdered_unfold _ _)).
    apply flat_map_nil. intros g Hg.
    unfold group_entries, visited. rewrite Hch. cbn [negb orb].
    destruct (strict_eq (grp_channelId g) (ses_channelId session)) eqn:Es;
      [|rewrite andb_false_r; reflexivity].
    rewrite (Hoff g Hg Es). cbn. rewrite andb_false_r. reflexivity. }
  destruct (getConfigSubsOrdered (ses_channelId session) (config w0))
    as [subs c].
  cbn [fst] in Hnil. subst subs. cbn [fst snd].
  destruct (loadConfigFromFile_step env w) as (A & B & C & D & E & _ & N & F).
  fold w0 in A, B, C, D, E, N, F. cbn.
  repeat split; assumption.
Qed.

End ManualCheck.

(** ** Adding a subscription *)

Section Add.

Context `{!EcmaConv}.

Lemma find_index_Some {A : Type} (p : A -> bool) (l : list A) (i : nat) :
  find_index p l = Some i ->
  exists x, l !! i = Some x /\ find p l = Some x /\ p x = true.
Proof.
  revert i. induction l as [|a r IH]; intros i; cbn; [discriminate|].
  destruct (p a) eqn:E.
  - intros [= <-]. exists a. auto.
  - destruct (find_index p r) as [k|]; [|discriminate].
    intros [= <-]. destruct (IH k eq_refl) as (x & ? & ? & ?). exists x. auto.
Qed.

Lemma find_index_None {A : Type} (p : A -> bool) (l : list A) :
  find_index p l = None -> find p l = None.
Proof.
  induction l as [|a r IH]; cbn; [reflexivity|].
  destruct (p a); [discriminate|].
  destruct (find_index p r); [discriminate|]. intros _. apply IH. reflexivity.
Qed.

Lemma find_index_app_new {A : Type} (p : A -> bool) (l : list A) (x : A) :
  find_index p l = None -> p x = true ->
  find_index p (l ++ [x]) = Some (length l).
Proof.
  intros Hn Hx. induction l as [|a r IH]; cbn in *.
  - rewrite Hx. reflexivity.
  - destruct (p a); [discriminate|].
    destruct (find_index p r); [discriminate|]. rewrite IH; reflexivity.
Qed.

Lemma find_alter {A : Type} (p : A -> bool) (f : A -> A) (l : list A)
    (i : nat) :
  find_index p l = Some i -> (forall x, p (f x) = p x) ->
  find p (alter f i l) = f <$> find p l
  /\ find_index p (alter f i l) = Some i.
Proof.
  intros Hi Hp. revert i Hi.
  induction l as [|a r IH]; intros i; cbn; [discriminate|].
  destruct (p a) eqn:E.
  - intros [= <-]. cbn. rewrite Hp, E. auto.
  - destruct (find_index p r) as [k|] eqn:Ek; [|discriminate].
    intros [= <-]. cbn. rewrite E.
    destruct (IH k eq_refl) as (-> & ->). auto.
Qed.

(** How [ensureGroup] settles the channel's group: the group sits at the
    returned position, it is the one [getGroup] finds, its list is the
    channel's list, and nothing else is touched. *)
Lemma ensureGroup_settles (ch : jsval) (c : Config) :
  exists gs g,
    cfg_groups (ensureGroup ch c).2 = Some gs
    /\ gs !! (ensureGroup ch c).1 = Some g
    /\ grp_subs g = Some (channel_subs ch c)
    /\ find (same_channel ch) gs = Some g
    /\ cfg_interval (ensureGroup ch c).2 = cfg_interval c
    /\ cfg_adminAuthority (ensureGroup ch c).2 = cfg_adminAuthority c
    /\ (unique_config c -> unique_config (ensureGroup ch c).2).
Proof.
  unfold ensureGroup, getConfigGroups, channel_subs, getGroup, getConfigGroups.
  set (settle := fun group : Group =>
    {| grp_channelId := grp_channelId group;
       grp_enabled := if is_boolean (grp_enabled group)
                      then grp_enabled group else Bool true;
       grp_subs := Some (default [] (grp_subs group)) |}).
  set (fresh := {| grp_channelId := Str (ToString ch);
                   grp_enabled := Bool true; grp_subs := Some [] |}).
  assert (Hg : default [] (cfg_groups (groups_made_array c))
               = default [] (cfg_groups c)).
  { unfold groups_made_array. destruct (cfg_groups c) eqn:E; cbn;
      rewrite ?E; reflexivity. }
  assert (Hi : cfg_interval (groups_made_array c) = cfg_interval c
               /\ cfg_adminAuthority (groups_made_array c)
                  = cfg_adminAuthority c).
  { unfold groups_made_array. destruct (cfg_groups c); auto. }
  rewrite Hg. cbn [fst snd]. unfold unique_config.
  generalize (default [] (cfg_groups c)). intros gs0. clear Hg.
  assert (Hsettle : forall x, same_channel ch (settle x) = same_channel ch x)
    by reflexivity.
  assert (Huniq : forall gs1 i,
            Forall (fun g => unique_pairs (default [] (grp_subs g))) gs1 ->
            Forall (fun g => unique_pairs (default [] (grp_subs g)))
              (default [] (cfg_groups (with_groups (alter settle i gs1)
                                         (groups_made_array c))))).
  { intros gs1 i HF. cbn.
    apply Forall_alter; [exact HF|]. intros x _ Hx. exact Hx. }
  destruct (find_index (same_channel ch) gs0) as [i|] eqn:Ei; cbn [fst snd].
  - destruct (find_index_Some _ _ _ Ei) as (g & Hl & Hf & Hp).
    destruct (find_alter _ settle _ _ Ei Hsettle) as (Hf2 & _).
    exists (alter settle i gs0), (settle g). cbn.
    rewrite list_lookup_alter_eq, Hl, Hf2, Hf. cbn.
    repeat split; try tauto. intros Hu. apply Huniq, Hu.
  - pose proof (find_index_None _ _ Ei) as Hn.
    assert (Hp : same_channel ch fresh = true).
    { unfold same_channel, fresh; cbn. apply String.eqb_refl. }
    pose proof (find_index_app_new _ _ fresh Ei Hp) as Ei2.
    destruct (find_index_Some _ _ _ Ei2) as (g & Hl & Hf & _).
    destruct (find_alter _ settle _ _ Ei2 Hsettle) as (Hf2 & _).
    assert (g = fresh).
    { rewrite lookup_app_r in Hl by lia.
      rewrite Nat.sub_diag in Hl. cbn in Hl. congruence. }
    subst g.
    exists (alter settle (length gs0) (gs0 ++ [fresh])), (settle fresh). cbn.
    rewrite list_lookup_alter_eq, Hl, Hf2, Hf, Hn. cbn.
    repeat split; try tauto. intros Hu. apply Huniq.
    apply Forall_app. split; [exact Hu|].
    apply Forall_singleton. cbn. apply NoDup_nil_2.
Qed.

Lemma existsb_same_subscription (pk : Platform) (pid : string)
    (l : list StoredSub) :
  existsb (same_subscription pk pid) l = false ->
  (pk, pid) ∉ omap sub_key l.
Proof.
  intros Hex Hin. apply list_elem_of_omap in Hin as (s & Hs & Hk).
  assert (Hs' : same_subscription pk pid s = true).
  { unfold same_subscription, sub_key in *.
    destruct (normalizePlatform (sub_platform s)) as [pk'|]; [|discriminate].
    injection Hk as -> ->. rewrite bool_decide_eq_true_2 by reflexivity.
    cbn. apply String.eqb_refl. }
  assert (Ht : existsb (same_subscription pk pid) l = true).
  { apply existsb_exists. exists s. split; [|exact Hs'].
    apply list_elem_of_In, Hs. }
  congruence.
Qed.

Lemma normalizePlatform_code (pk : Platform) :
  normalizePlatform (Str (platform_code pk)) = Some pk.
Proof. destruct pk; reflexivity. Qed.

(** C6. Pairs stay unique under [notify.add]: if no (platform, projectId)
    pair occurs twice in a group before the command, none does after it,
    whatever its arguments and outcome. And when the pair given (platform
    normalized, project id trimmed) is already in the channel's list, the
    command answers "already exists", leaves that list as it is and writes
    nothing to the configuration file (after the configuration has been
    loaded, which every command does first). *)
Theorem add_keeps_pairs_unique (env : Env) (session : Session)
    (platform projectId : jsval) (w : World) :
  let w0 := loadConfigFromFile env w in
  unique_config (config w0) ->
  let r := notify_add env session platform projectId w in
  unique_config (config r.2)
  /\ (forall platformKey,
        normalizePlatform platform = Some platformKey ->
        truthy projectId = true ->
        truthy (ses_channelId session) = true ->
        requireManage (config w0) session = true ->
        trim (ToString projectId) <> "" ->
        existsb (same_subscription platformKey (trim (ToString projectId)))
                (channel_subs (ses_channelId session) (config w0)) = true ->
        r.1 = AlreadyExists platformKey (trim (ToString projectId))
        /\ channel_subs (ses_channelId session) (config r.2)
           = channel_subs (ses_channelId session) (config w0)
        /\ configFile r.2 = configFile w0
        /\ trace r.2 = trace w0).
Proof.
  intros w0 Hu r. subst r. unfold notify_add. fold w0.
  destruct (ensureGroup_settles (ses_channelId session) (config w0))
    as (gs & g & Hgs & Hi & Hl & Hf & Hint & _ & Hu2).
  specialize (Hu2 Hu).
  assert (Hcs : channel_subs (ses_channelId session)
                  (ensureGroup (ses_channelId session) (config w0)).2
                = channel_subs (ses_channelId session) (config w0)).
  { unfold channel_subs at 1, getGroup, getConfigGroups.
    assert (Hm : groups_made_array
                   (ensureGroup (ses_channelId session) (config w0)).2
                 = (ensureGroup (ses_channelId session) (config w0)).2).
    { unfold groups_made_array. rewrite Hgs. reflexivity. }
    rewrite Hm, Hgs. cbn. rewrite Hf. cbn. rewrite Hl. reflexivity. }
  destruct (ensureGroup (ses_channelId session) (config w0)) as [i c] eqn:Ee.
  cbn [fst snd] in *.
  assert (Hlist : default [] ((default [] (cfg_groups c) !! i) ≫= grp_subs)
                  = channel_subs (ses_channelId session) (config w0)).
  { rewrite Hgs. cbn. rewrite Hi. cbn. rewrite Hl. reflexivity. }
  split.
  - destruct (negb (truthy platform) || negb (truthy projectId));
      [exact Hu|].
    destruct (normalizePlatform platform) as [pk|]; [|exact Hu].
    destruct (negb (truthy (ses_channelId session))); [exact Hu|].
    destruct (negb (requireManage (config w0) session)); [exact Hu|].
    destruct (String.eqb (trim (ToString projectId)) "") eqn:Epid;
      [exact Hu|].
    rewrite Hlist.
    destruct (existsb _ _) eqn:Eex; [exact Hu2|].
    cbn [fst snd]. rewrite (proj2 (saveConfigToFile_step env _)).
    cbn [snd config set_config].
    assert (Hu3 : Forall (fun g => unique_pairs (default [] (grp_subs g))) gs).
    { unfold unique_config in Hu2. rewrite Hgs in Hu2. exact Hu2. }
    unfold unique_config. cbn. rewrite Hgs. cbn.
    apply Forall_alter; [exact Hu3|]. intros x _ _. cbn.
    unfold unique_pairs. rewrite omap_app. cbn [omap list_omap].
    unfold sub_key at 2. cbn [sub_platform sub_projectId].
    rewrite normalizePlatform_code.
    apply String.eqb_neq in Epid.
    assert (Ht : js_or (Str (trim (ToString projectId))) (Str "")
                 = Str (trim (ToString projectId))).
    { unfold js_or. apply truthy_Str in Epid. rewrite Epid. reflexivity. }
    rewrite Ht. cbn [ToString]. rewrite trim_idem. cbn.
    apply NoDup_app. split; [|split].
    + rewrite Forall_lookup in Hu3. specialize (Hu3 i g Hi).
      rewrite Hl in Hu3. exact Hu3.
    + intros k Hk Hk2. apply list_elem_of_singleton in Hk2. subst k.
      revert Hk. apply existsb_same_subscription, Eex.
    + apply NoDup_singleton.
  - intros pk Hpk Hpj Hch Hman Hpid Hex.
    assert (Hpl : truthy platform = true).
    { unfold normalizePlatform in Hpk.
      destruct (strict_eq platform (Str "mr")) eqn:E1.
      - apply strict_eq_Str_r in E1. subst. reflexivity.
      - destruct (strict_eq platform (Str "cf")) eqn:E2; [|discriminate].
        apply strict_eq_Str_r in E2. subst. reflexivity. }
    rewrite Hpl, Hpj, Hpk, Hch, Hman. cbn [negb orb].
    apply String.eqb_neq in Hpid. rewrite Hpid, Hlist, Hex.
    cbn [fst snd config set_config configFile trace].
    repeat split; try reflexivity. exact Hcs.
Qed.

End Add.

(** ** Persistence *)

Section Persistence.

Context `{!EcmaConv}.

Lemma json_value_id (v : jsval) : json_representable v -> json_value v = v.
Proof.
  destruct v as [| |b|n|s]; cbn; try reflexivity.
  intros ->. reflexivity.
Qed.

Lemma json_sub_id (s : StoredSub) : representable_sub s -> json_sub s = s.
Proof.
  destruct s as [p i n]. unfold representable_sub, json_sub. cbn.
  intros (Hp & Hi & Hn). rewrite !json_value_id by assumption. reflexivity.
Qed.

Lemma json_subs_id (l : list StoredSub) :
  Forall representable_sub l -> map json_sub l = l.
Proof.
  induction 1 as [|s r Hs _ IH]; cbn; [reflexivity|].
  rewrite json_sub_id, IH by assumption. reflexivity.
Qed.

Lemma json_group_id (g : Group) : representable_group g -> json_group g = g.
Proof.
  destruct g as [ch en subs]. unfold representable_group, json_group. cbn.
  intros (Hc & He & Hs). rewrite !json_value_id by assumption.
  destruct subs as [l|]; cbn in *; [|reflexivity].
  rewrite json_subs_id by assumption. reflexivity.
Qed.

Lemma json_groups_id (gs : list Group) :
  Forall representable_group gs -> map json_group gs = gs.
Proof.
  induction 1 as [|g r Hg _ IH]; cbn; [reflexivity|].
  rewrite json_group_id, IH by assumption. reflexivity.
Qed.

(** Reading back the entries [saveStateToFile] wrote. *)
Lemma read_back (l : list (string * jsval)) (acc : gmap string jsval)
    (k : string) :
  NoDup l.*1 ->
  foldl (fun cache kv =>
           match kv.2 with
           | Some lastVersion => <[kv.1 := lastVersion]> cache
           | None => cache
           end) acc
        (map (fun kv : string * jsval => (kv.1, Some (json_value kv.2))) l)
    !! k
  = match (list_to_map l : gmap string jsval) !! k with
    | Some v => Some (json_value v)
    | None => acc !! k
    end.
Proof.
  revert acc. induction l as [|[k0 v0] r IH]; intros acc Hnd; cbn.
  - rewrite lookup_empty. reflexivity.
  - apply NoDup_cons in Hnd as (Hk0 & Hnd). rewrite IH by exact Hnd.
    destruct (decide (k0 = k)) as [->|Hne].
    + rewrite lookup_insert_eq.
      rewrite (not_elem_of_list_to_map_1 r k Hk0).
      rewrite lookup_insert_eq. reflexivity.
    + rewrite !lookup_insert_ne by exact Hne. reflexivity.
Qed.

(** The cache a fresh process loads from what [saveStateToFile] wrote. *)
Lemma reloaded_state (env : Env) (w : World) (c0 : Config) (t : Z) :
  diskWritable env = true ->
  saving w = false ->
  stateCache (loadStateFromFile (fresh_process c0 t (saveStateToFile env w)))
  = json_value <$> delete "__proto__" (stateCache w).
Proof.
  intros Hdisk Hsav. unfold saveStateToFile. rewrite Hsav, Hdisk.
  unfold loadStateFromFile, fresh_process, state_document. cbn.
  apply map_eq. intros k.
  rewrite read_back by apply NoDup_fst_map_to_list.
  rewrite list_to_map_to_list, lookup_empty, lookup_fmap.
  destruct (delete "__proto__" (stateCache w) !! k); reflexivity.
Qed.

(** A cache with no entry under [__proto__] and no number that is not
    finite is written whole. *)
Lemma json_cache_id (m : gmap string jsval) :
  (forall k v, m !! k = Some v -> k <> "__proto__" /\ json_representable v) ->
  json_value <$> delete "__proto__" m = m.
Proof.
  intros Hm. apply map_eq. intros k. rewrite lookup_fmap.
  destruct (decide (k = "__proto__")) as [->|Hne].
  - rewrite lookup_delete_eq. cbn.
    destruct (m !! "__proto__") as [v|] eqn:E; [|reflexivity].
    destruct (Hm _ _ E) as (Hk & _). contradiction.
  - rewrite lookup_delete_ne by congruence.
    destruct (m !! k) as [v|] eqn:E; [|reflexivity]. cbn.
    rewrite json_value_id by apply (Hm _ _ E). reflexivity.
Qed.

(** C8, as the code has it. When the disk takes the write, what a fresh
    process loads after [saveConfigToFile] is: as enabled flag the boolean
    [!!config.enabled] (an unset flag comes back as [false]), and as groups
    the stored list with every number that is not finite replaced by
    [null]; the flag comes back equal when it was a boolean, the groups
    when they hold no such number.  What it loads after [saveStateToFile]
    is the key-to-lastVersion map without the key [__proto__] and with
    every number that is not finite replaced by [null]; the map comes back
    equal when it has no such key and no such number. *)
Theorem persistence_round_trip (env env' : Env) (w : World) (c0 : Config)
    (t : Z) :
  diskWritable env = true ->
  saving w = false ->
  (let restarted :=
     loadConfigFromFile env' (fresh_process c0 t (saveConfigToFile env w)) in
   cfg_enabled (config restarted) = Bool (truthy (cfg_enabled (config w)))
   /\ truthy (cfg_enabled (config restarted))
      = truthy (cfg_enabled (config w))
   /\ (is_boolean (cfg_enabled (config w)) = true ->
       cfg_enabled (config restarted) = cfg_enabled (config w))
   /\ cfg_groups (config restarted)
      = Some (map json_group (default [] (cfg_groups (config w))))
   /\ (Forall representable_group (default [] (cfg_groups (config w))) ->
       cfg_groups (config restarted)
       = Some (default [] (cfg_groups (config w)))))
  /\ (let restarted :=
        loadStateFromFile (fresh_process c0 t (saveStateToFile env w)) in
      stateCache restarted
      = json_value <$> delete "__proto__" (stateCache w)
      /\ ((forall k v, stateCache w !! k = Some v ->
                       k <> "__proto__" /\ json_representable v) ->
          stateCache restarted = stateCache w)).
Proof.
  intros Hdisk Hsav. split.
  - unfold saveConfigToFile. rewrite Hdisk.
    unfold loadConfigFromFile, fresh_process. cbn.
    split; [reflexivity|]. split; [reflexivity|]. split.
    + destruct (cfg_enabled (config w)); cbn; try discriminate.
      intros _. destruct b; reflexivity.
    + split; [reflexivity|].
      intros Hgroups. rewrite json_groups_id by exact Hgroups. reflexivity.
  - cbv zeta. rewrite reloaded_state by assumption.
    split; [reflexivity|]. apply json_cache_id.
Qed.

End Persistence.

(** ** A whole pass of [checkOnce] *)

Section Pass.

Context `{!EcmaConv}.

Lemma fetches_emit_quiet (w w' : World) :
  quiet_step w w' -> fetches (trace w') = fetches (trace w)
  /\ notifications (trace w') = notifications (trace w).
Proof. intros (_ & _ & _ & _ & _ & N & F & _). auto. Qed.

Lemma notifications_snoc_fetch (l : list Event) (p : Platform)
    (pid : string) :
  notifications (l ++ [EvFetchLatest p pid]) = notifications l.
Proof.
  rewrite notifications_app. unfold notifications at 2. cbn. lia.
Qed.

Lemma fetches_snoc_fetch (l : list Event) (p : Platform) (pid : string) :
  fetches (l ++ [EvFetchLatest p pid]) = fetches l ++ [EvFetchLatest p pid].
Proof. rewrite fetches_app. reflexivity. Qed.

(** What the part after the fetch does to the counters and to the trace:
    one outcome is counted, and a notification is announced exactly when
    the outcome is [updated]. *)
Lemma decide_update_accounting (env : Env) (sub : Sub) (answer : FetchResult)
    (w : World) (stats : Stats) :
  let r := decide_update env sub answer w stats in
  (updated r.2 + noChange r.2 + failed r.2
   = S (updated stats + noChange stats + failed stats))%nat
  /\ (notifications (trace r.1) + updated stats
      = notifications (trace w) + updated r.2)%nat
  /\ fetches (trace r.1) = fetches (trace w).
Proof.
  intros r. subst r.
  destruct (loadStateFromFile_quiet w) as (Q0 & _).
  destruct (fetches_emit_quiet _ _ Q0) as (F0 & N0).
  assert (Hup : forall v w0,
            fetches (trace (updateState env (channelId sub) (platform sub)
                              (projectId sub) v w0)) = fetches (trace w0)
            /\ notifications (trace (updateState env (channelId sub)
                                       (platform sub) (projectId sub) v w0))
               = notifications (trace w0)).
  { intros v w0. apply fetches_emit_quiet, updateState_quiet. }
  unfold decide_update, getState. set (w0 := loadStateFromFile w) in *.
  destruct answer as [| |latest]; cbn [fst snd].
  - destruct (fetches_emit_quiet w
                (emit (EvWarn (CheckFailed (platform sub) (projectId sub))) w))
      as (F & N); [apply quiet_emit; reflexivity|].
    rewrite F, N. cbn. repeat split; lia.
  - cbn. repeat split; lia.
  - destruct (stateCache w0 !! _) as [lastVersion|]; cbn [fst snd].
    + destruct (truthy lastVersion); cbn [negb fst snd].
      * destruct (strict_eq (Str (version latest)) lastVersion);
          cbn [fst snd].
        -- rewrite F0, N0. cbn. repeat split; lia.
        -- destruct (Hup (version latest)
                       (sendUpdate env (channelId sub) (platform sub)
                          (projectId sub) latest w0)) as (F & N).
           destruct (sendUpdate_notifications env (channelId sub)
                       (platform sub) (projectId sub) latest w0)
             as (N2 & F2 & _).
           rewrite F, N, F2, N2, F0, N0. cbn. repeat split; lia.
      * destruct (Hup (version latest) w0) as (F & N).
        rewrite F, N, F0, N0. cbn. repeat split; lia.
    + rewrite createState_updateState.
      destruct (Hup (or_empty (version latest)) w0) as (F & N).
      rewrite F, N, F0, N0. cbn. repeat split; lia.
Qed.

(** The same for a whole iteration, skipped or not. *)
Lemma checkOnce_step_accounting (env : Env) (force : bool) (sub : Sub)
    (w : World) (stats : Stats) :
  let r := checkOnce_step env force sub (w, stats) in
  (checked r.2 + skipped r.2 = S (checked stats + skipped stats))%nat
  /\ (updated r.2 + noChange r.2 + failed r.2 + checked stats
      = updated stats + noChange stats + failed stats + checked r.2)%nat
  /\ (notifications (trace r.1) + updated stats
      = notifications (trace w) + updated r.2)%nat
  /\ (length (fetches (trace r.1)) + checked stats
      = length (fetches (trace w)) + checked r.2)%nat.
Proof.
  intros r. subst r.
  destruct (negb force
            && num_lt (Fin (clock w - lastCheckOf (lastCheckMap w)
                  (getStateKey (channelId sub) (platform sub)
                     (projectId sub)))) (interval sub)) eqn:E.
  - apply andb_true_iff in E as (Ef & El). apply negb_true_iff in Ef.
    subst force. rewrite checkOnce_step_skipped by exact El.
    cbn. repeat split; lia.
  - rewrite checkOnce_step_checked by exact E.
    destruct (probed_effect env sub w) as (Ht & _).
    set (w1 := probed env sub w) in *. clearbody w1.
    destruct (decide_update_accounting env sub (latest_of env sub)
                w1 (count_checked stats)) as (A & N & F).
    destruct (decide_update_frame env sub (latest_of env sub)
                w1 (count_checked stats)) as (_ & _ & C & K).
    destruct (decide_update env sub (latest_of env sub) w1
                (count_checked stats)) as [w2 st2].
    cbn [fst snd] in *.
    rewrite F, Ht, fetches_snoc_fetch, length_app.
    rewrite Ht, notifications_snoc_fetch in N.
    cbn [length]. cbn in A, C, K. cbn [count_checked updated] in N.
    repeat split; lia.
Qed.

Lemma checkOnce_loop_accounting (env : Env) (force : bool) (subs : list Sub)
    (w : World) (stats : Stats) :
  let r := foldl (fun ws sub => checkOnce_step env force sub ws) (w, stats)
             subs in
  (checked r.2 + skipped r.2 = checked stats + skipped stats + length subs)%nat
  /\ (updated r.2 + noChange r.2 + failed r.2 + checked stats
      = updated stats + noChange stats + failed stats + checked r.2)%nat
  /\ (notifications (trace r.1) + updated stats
      = notifications (trace w) + updated r.2)%nat
  /\ (length (fetches (trace r.1)) + checked stats
      = length (fetches (trace w)) + checked r.2)%nat.
Proof.
  revert w stats. induction subs as [|sub rest IH]; intros w stats.
  - cbn. repeat split; lia.
  - cbn [foldl length].
    destruct (checkOnce_step_accounting env force sub w stats)
      as (A1 & A2 & A3 & A4).
    destruct (checkOnce_step env force sub (w, stats)) as [w1 st1].
    cbn [fst snd] in *.
    destruct (IH w1 st1) as (B1 & B2 & B3 & B4).
    repeat split; lia.
Qed.

(** X1. The counters [checkOnce] returns add up: every enumerated
    subscription is either skipped or checked, every checked one ends as
    exactly one of updated, noChange or failed, the notification side
    effect was invoked once per [updated], and one platform fetch was made
    per [checked]. *)
Theorem checkOnce_accounting (env : Env) (channelId : jsval) (force : bool)
    (w : World) (stats : Stats) (w' : World) :
  checkOnce env channelId force w = (Some stats, w') ->
  (checked stats + skipped stats
   = length (getConfigSubs channelId
               (config (loadConfigFromFile env w))).1)%nat
  /\ (updated stats + noChange stats + failed stats = checked stats)%nat
  /\ notifications (trace w') = (notifications (trace w) + updated stats)%nat
  /\ length (fetches (trace w'))
     = (length (fetches (trace w)) + checked stats)%nat.
Proof.
  unfold checkOnce.
  destruct (loadConfigFromFile_step env w) as (_ & _ & _ & _ & _ & _ & N0 & F0).
  set (w0 := loadConfigFromFile env w) in *.
  destruct (truthy (cfg_enabled (config w0))); cbn [negb]; [|discriminate].
  destruct (getConfigSubs channelId (config w0)) as [subs c]. cbn [fst].
  destruct (checkOnce_loop_accounting env force subs (set_config c w0) stats0)
    as (A1 & A2 & A3 & A4).
  destruct (foldl _ _ subs) as [w1 st1]. cbn [fst snd] in *.
  intros [= <- <-]. cbn [stats0 checked skipped updated noChange failed]
    in A1, A2, A3, A4.
  cbn [trace set_config] in A3, A4. rewrite <- N0, <- F0.
  repeat split; lia.
Qed.

(** X2. The master switch: while [config.enabled] is falsy, [checkOnce]
    returns nothing and does nothing beyond loading the configuration, also
    when it is forced: no fetch, no notification, the version state and
    the timestamps stay as they were. *)
Theorem checkOnce_master_switch (env : Env) (channelId : jsval)
    (force : bool) (w : World) :
  truthy (cfg_enabled (config (loadConfigFromFile env w))) = false ->
  let r := checkOnce env channelId force w in
  r.1 = None
  /\ fetches (trace r.2) = fetches (trace w)
  /\ notifications (trace r.2) = notifications (trace w)
  /\ persisted r.2 = persisted w
  /\ stateFile r.2 = stateFile w
  /\ lastCheckMap r.2 = lastCheckMap w.
Proof.
  intros Hoff r. subst r. unfold checkOnce. rewrite Hoff. cbn [negb fst snd].
  pose proof (loadConfigFromFile_step env w) as Hs.
  pose proof (config_step_persisted _ _ Hs) as Hp.
  destruct Hs as (_ & _ & A & _ & B & _ & N & F).
  repeat split; assumption.
Qed.

Lemma loadConfigFromFile_sets_loaded (env : Env) (w : World) :
  configLoaded (loadConfigFromFile env w) = true.
Proof.
  unfold loadConfigFromFile. destruct (configLoaded w) eqn:E; [exact E|].
  destruct (configFile (set_configLoaded true w)) as [| |json];
    try reflexivity.
  cbn. destruct (cfg_groups (groups_made_array (config w))) as [[|g gs]|];
    try reflexivity.
  unfold saveConfigToFile. destruct (diskWritable env); reflexivity.
Qed.

Lemma getConfigSubs_settled (channelId : jsval) (c : Config) :
  getConfigSubs channelId (groups_made_array c) = getConfigSubs channelId c
  /\ (getConfigSubs channelId c).2 = groups_made_array c
  /\ cfg_enabled (groups_made_array c) = cfg_enabled c.
Proof.
  unfold getConfigSubs, getConfigGroups, groups_made_array.
  destruct (cfg_groups c) eqn:E; cbn; rewrite ?E; auto.
Qed.

(** X3. A scheduler tick is a non-forced [checkOnce] over all channels:
    the guards of [autoCheckLoop] (enabled, at least one subscription)
    change nothing of what is done. *)
Theorem autoCheckLoop_is_checkOnce (env : Env) (w : World) :
  autoCheckLoop env w = (checkOnce env Undefined false w).2.
Proof.
  unfold autoCheckLoop, checkOnce.
  pose proof (loadConfigFromFile_sets_loaded env w) as Hl.
  set (w0 := loadConfigFromFile env w) in *.
  destruct (truthy (cfg_enabled (config w0))) eqn:Een; cbn [negb];
    [|reflexivity].
  destruct (getConfigSubs_settled Undefined (config w0)) as (Hs & Hc & He).
  destruct (getConfigSubs Undefined (config w0)) as [subs c] eqn:E.
  cbn [snd] in Hc. subst c.
  destruct subs as [|sub rest]; [reflexivity|].
  rewrite loadConfigFromFile_loaded by exact Hl.
  cbn [config set_config]. rewrite He, Een, Hs. cbn [negb].
  reflexivity.
Qed.

End Pass.

(** ** Failures, repairs and manual checks *)

Section Edge.

Context `{!EcmaConv}.

(** X4. A fetch that throws or returns nothing counts as [failed] and
    leaves the version state alone, but the subscription has been stamped:
    the failed attempt uses up the check window, and until the interval has
    passed again the scheduler skips the subscription instead of
    retrying. *)
Theorem failed_fetch_consumes_window (env : Env) (force : bool) (sub : Sub)
    (w : World) (stats : Stats) :
  let key := getStateKey (channelId sub) (platform sub) (projectId sub) in
  negb force
  && num_lt (Fin (clock w - lastCheckOf (lastCheckMap w) key)) (interval sub)
  = false ->
  latest_of env sub = FetchThrows \/ latest_of env sub = FetchNull ->
  let r := checkOnce_step env force sub (w, stats) in
  failed r.2 = S (failed stats)
  /\ updated r.2 = updated stats
  /\ noChange r.2 = noChange stats
  /\ notifications (trace r.1) = notifications (trace w)
  /\ persisted r.1 = persisted w
  /\ stateFile r.1 = stateFile w
  /\ lastCheckMap r.1 !! key = Some (clock w)
  /\ forall (env2 : Env) (t : Z) (stats2 : Stats),
       not_yet t (clock w) (interval sub) ->
       checkOnce_step env2 false sub (set_clock t r.1, stats2)
       = (set_clock t r.1, count_skipped stats2).
Proof.
  intros key Hgate Hfail r. subst r key.
  rewrite checkOnce_step_checked by exact Hgate.
  destruct (probed_effect env sub w) as (Ht & Hl & _ & _ & Hp & Hf & _).
  set (w1 := probed env sub w) in *. clearbody w1.
  assert (Hw : exists w2,
            decide_update env sub (latest_of env sub) w1 (count_checked stats)
            = (w2, count_failed (count_checked stats))
            /\ notifications (trace w2) = notifications (trace w1)
            /\ persisted w2 = persisted w1 /\ stateFile w2 = stateFile w1
            /\ lastCheckMap w2 = lastCheckMap w1).
  { destruct Hfail as [-> | ->]; cbn [decide_update].
    - eexists. split; [reflexivity|].
      destruct (quiet_emit
                  (EvWarn (CheckFailed (platform sub) (projectId sub))) w1
                  eq_refl eq_refl) as (_ & _ & L & _ & _ & N & _).
      repeat split; try assumption; try reflexivity.
      apply persisted_ext; reflexivity.
    - eexists. split; [reflexivity|]. repeat split; reflexivity. }
  destruct Hw as (w2 & -> & N & P & F & L). cbn [fst snd].
  assert (Hstamp : lastCheckMap w2
                   !! getStateKey (channelId sub) (platform sub)
                        (projectId sub) = Some (clock w)).
  { rewrite L, Hl. apply lookup_insert_eq. }
  rewrite N, Ht, notifications_snoc_fetch, P, Hp, F, Hf.
  repeat split; try reflexivity; try exact Hstamp.
  intros env2 t stats2 Hny.
  apply checkOnce_step_skipped. cbn [set_clock clock lastCheckMap].
  unfold lastCheckOf. rewrite Hstamp. cbn [default].
  apply num_lt_not_yet, Hny.
Qed.

(** X5. A state entry whose [lastVersion] is empty or missing is repaired
    without a notification: the check stores the fetched label and reports
    no change, in [checkOnce] and in a non-forced [checkOne] alike. *)
Theorem empty_lastVersion_is_repaired (env : Env) (sub : Sub) (w : World)
    (stats : Stats) (latest : Latest) (v : jsval) :
  let key := getStateKey (channelId sub) (platform sub) (projectId sub) in
  persisted w !! key = Some v ->
  truthy v = false ->
  latest_of env sub = FetchLatest latest ->
  (num_lt (Fin (clock w - lastCheckOf (lastCheckMap w) key)) (interval sub)
     = false ->
   let r := checkOnce_step env false sub (w, stats) in
   notifications (trace r.1) = notifications (trace w)
   /\ noChange r.2 = S (noChange stats)
   /\ updated r.2 = updated stats
   /\ persisted r.1 !! key = Some (Str (version latest)))
  /\ (let r := checkOne env sub false w in
      r.1 = Some {| sent := false; updated_flag := false |}
      /\ notifications (trace r.2) = notifications (trace w)
      /\ persisted r.2 !! key = Some (Str (version latest))).
Proof.
  intros key Hst Hv Hfetch. subst key. split.
  - intros Hdue r. subst r.
    rewrite checkOnce_step_checked by exact Hdue. rewrite Hfetch.
    destruct (probed_effect env sub w) as (Ht & _ & _ & _ & Hp & _ & _).
    set (w1 := probed env sub w) in *. clearbody w1.
    unfold decide_update, getState. fold (persisted w1).
    rewrite Hp, Hst, Hv. cbn [negb fst snd].
    destruct (loadStateFromFile_quiet w1) as (_ & _ & _ & Hp2 & _ & _ & Ht2).
    destruct (updateState_quiet env (channelId sub) (platform sub)
                (projectId sub) (version latest) (loadStateFromFile w1))
      as (_ & _ & _ & _ & _ & N & _).
    rewrite N, Ht2, Ht, notifications_snoc_fetch, updateState_persisted.
    repeat split. apply lookup_insert_eq.
  - intros r. subst r. unfold checkOne.
    pose proof (loadConfigFromFile_step env w) as Hc.
    set (w0 := loadConfigFromFile env w) in *.
    destruct (fetched_effect env sub w0) as (Ha & Ht & Hp & Hn).
    destruct (getLatest env (platform sub) (projectId sub) w0) as [a w1].
    cbn [fst snd] in Ha, Ht, Hp, Hn. rewrite Ha, Hfetch.
    unfold getState. fold (persisted w1).
    rewrite Hp, (config_step_persisted _ _ Hc), Hst, Hv. cbn [negb fst snd].
    destruct (loadStateFromFile_quiet w1) as (_ & _ & _ & Hp2 & _ & _ & Ht2).
    destruct (updateState_quiet env (channelId sub) (platform sub)
                (projectId sub) (or_empty (version latest))
                (loadStateFromFile w1)) as (_ & _ & _ & _ & _ & N & _).
    rewrite N, Ht2, Hn, updateState_persisted, or_empty_id.
    destruct Hc as (_ & _ & _ & _ & _ & _ & Nc & _).
    repeat split; [exact Nc | apply lookup_insert_eq].
Qed.

(** What [checkOne] does after the fetch, whatever it decides: the
    timestamps stay, nothing more is fetched, and a notification is
    announced exactly when the answer says [sent]. *)
Local Ltac close_case :=
  repeat split;
  first [ assumption
        | reflexivity
        | discriminate
        | (intros [? | ?]; discriminate)
        | (intros ? [= <-]; cbn [sent]; lia)
        | (intros; discriminate)
        | (exfalso;
           match goal with
           | H : _ \/ _ |- _ => destruct H; discriminate
           end)
        | (intros; congruence) ].

Lemma checkOne_effect (env : Env) (sub : Sub) (forceSendAll : bool)
    (w : World) :
  let r := checkOne env sub forceSendAll w in
  lastCheckMap r.2 = lastCheckMap w
  /\ fetches (trace r.2)
     = fetches (trace w) ++ [EvFetchLatest (platform sub) (projectId sub)]
  /\ (r.1 = None <-> latest_of env sub = FetchThrows)
  /\ (forall res, r.1 = Some res ->
      notifications (trace r.2)
      = (notifications (trace w) + if sent res then 1 else 0)%nat)
  /\ (latest_of env sub = FetchThrows \/ latest_of env sub = FetchNull ->
      persisted r.2 = persisted w /\ stateFile r.2 = stateFile w
      /\ notifications (trace r.2) = notifications (trace w))
  /\ (latest_of env sub = FetchNull ->
      r.1 = Some {| sent := false; updated_flag := false |}).
Proof.
  intros r. subst r. unfold checkOne.
  pose proof (loadConfigFromFile_step env w) as Hc.
  pose proof (config_step_persisted _ _ Hc) as Hpc.
  destruct Hc as (_ & _ & Fc & _ & Lc & _ & Nc & Fec).
  set (w0 := loadConfigFromFile env w) in *. clearbody w0.
  destruct (fetched_effect env sub w0) as (Ha & Ht & Hp & Hn).
  assert (Hl1 : lastCheckMap (getLatest env (platform sub) (projectId sub)
                                w0).2 = lastCheckMap w0) by reflexivity.
  assert (Hf1 : stateFile (getLatest env (platform sub) (projectId sub)
                             w0).2 = stateFile w0) by reflexivity.
  destruct (getLatest env (platform sub) (projectId sub) w0) as [a w1].
  cbn [fst snd] in Ha, Ht, Hp, Hn, Hl1, Hf1. subst a.
  assert (Hfe : fetches (trace w1)
                = fetches (trace w)
                  ++ [EvFetchLatest (platform sub) (projectId sub)]).
  { rewrite Ht, fetches_snoc_fetch, Fec. reflexivity. }
  destruct (latest_of env sub) as [| |latest] eqn:El; cbn [fst snd].
  - rewrite Hl1, Lc, Hn, Nc, Hp, Hpc, Hf1, Fc.
    repeat split; first [ reflexivity | assumption | (intros; discriminate) ].
  - rewrite Hl1, Lc, Hn, Nc, Hp, Hpc, Hf1, Fc.
    repeat split;
      first [ reflexivity | assumption | (intros ? [= <-]; cbn [sent]; lia)
            | (intros; discriminate) ].
  - unfold getState.
    destruct (loadStateFromFile_quiet w1) as (Q2 & _).
    set (w2 := loadStateFromFile w1) in *. clearbody w2.
    assert (Hq : forall w3 w4, quiet_step w2 w3 -> quiet_step w3 w4 ->
              lastCheckMap w4 = lastCheckMap w
              /\ fetches (trace w4)
                 = fetches (trace w)
                   ++ [EvFetchLatest (platform sub) (projectId sub)]
              /\ notifications (trace w4) = notifications (trace w)).
    { intros w3 w4 Q3 Q4.
      destruct (quiet_step_trans _ _ _ Q2 (quiet_step_trans _ _ _ Q3 Q4))
        as (_ & _ & L & _ & _ & N & F & _).
      rewrite L, F, N, Hl1, Lc, Hfe, Hn, Nc. auto. }
    assert (Hnotify : forall w3, quiet_step w2 w3 ->
              let w4 := updateState env (channelId sub) (platform sub)
                          (projectId sub) (or_empty (version latest))
                          (sendUpdate env (channelId sub) (platform sub)
                             (projectId sub) latest w3) in
              lastCheckMap w4 = lastCheckMap w
              /\ fetches (trace w4)
                 = fetches (trace w)
                   ++ [EvFetchLatest (platform sub) (projectId sub)]
              /\ notifications (trace w4) = S (notifications (trace w))).
    { intros w3 Q3 w4. subst w4.
      destruct (Hq w3 w3 Q3 (quiet_step_refl _)) as (L3 & F3 & N3).
      destruct (sendUpdate_effect env (channelId sub) (platform sub)
                  (projectId sub) latest w3)
        as ((_ & _ & L & _ & _ & _ & _ & _) & _).
      destruct (sendUpdate_notifications env (channelId sub) (platform sub)
                  (projectId sub) latest w3) as (N & F & _).
      destruct (updateState_quiet env (channelId sub) (platform sub)
                  (projectId sub) (or_empty (version latest))
                  (sendUpdate env (channelId sub) (platform sub)
                     (projectId sub) latest w3))
        as (_ & _ & L5 & _ & _ & N5 & F5 & _).
      cbn in L. rewrite L5, L, N5, N, F5, F, L3, F3, N3. auto. }
    assert (Hup : forall v, quiet_step w2
              (updateState env (channelId sub) (platform sub) (projectId sub)
                 v w2)) by (intros v; apply updateState_quiet).
    destruct (stateCache w2 !! _) as [lastVersion|]; cbn [fst snd].
    + destruct forceSendAll.
      * destruct (Hnotify w2 (quiet_step_refl _)) as (L & F & N).
        cbn [fst snd].
        close_case.
      * destruct (truthy lastVersion); cbn [negb fst snd].
        -- destruct (strict_eq (Str (version latest)) lastVersion);
             cbn [fst snd].
           ++ destruct (Hq w2 w2 (quiet_step_refl _) (quiet_step_refl _))
                as (L & F & N).
              close_case.
           ++ destruct (Hnotify w2 (quiet_step_refl _)) as (L & F & N).
              close_case.
        -- destruct (Hq w2 _ (quiet_step_refl _)
                       (Hup (or_empty (version latest)))) as (L & F & N).
           close_case.
    + change (createState env (channelId sub) (platform sub) (projectId sub)
                (or_empty (version latest)) w2)
        with (updateState env (channelId sub) (platform sub) (projectId sub)
                (or_empty (version latest)) w2).
      destruct forceSendAll.
      * destruct (Hnotify _ (Hup (or_empty (version latest)))) as (L & F & N).
        cbn [fst snd].
        close_case.
      * destruct (Hq w2 _ (quiet_step_refl _)
                    (Hup (or_empty (version latest)))) as (L & F & N).
        cbn [fst snd].
        close_case.
Qed.

(** X6. A manual check makes exactly one platform fetch and never touches
    the scheduler's timestamps, so it does not delay the next automatic
    check; it announces a notification exactly when it answers [sent]; and
    when the fetch throws or returns nothing, it sends nothing and leaves
    the version state as it was. *)
Theorem manual_check_is_outside_the_schedule (env : Env) (sub : Sub)
    (forceSendAll : bool) (w : World) :
  let r := checkOne env sub forceSendAll w in
  lastCheckMap r.2 = lastCheckMap w
  /\ fetches (trace r.2)
     = fetches (trace w) ++ [EvFetchLatest (platform sub) (projectId sub)]
  /\ (forall res, r.1 = Some res ->
      notifications (trace r.2)
      = (notifications (trace w) + if sent res then 1 else 0)%nat)
  /\ (latest_of env sub = FetchThrows \/ latest_of env sub = FetchNull ->
      persisted r.2 = persisted w /\ stateFile r.2 = stateFile w
      /\ notifications (trace r.2) = notifications (trace w)).
Proof.
  intros r. subst r.
  destruct (checkOne_effect env sub forceSendAll w)
    as (A & B & _ & C & D & _).
  repeat split; try assumption; apply D; assumption.
Qed.

End Edge.

(** ** The version-state store *)

Section StateStore.

Context `{!EcmaConv}.

Lemma bar_split (a b x y : string) :
  no_bar a = true -> no_bar b = true ->
  a +:+ "|" +:+ x = b +:+ "|" +:+ y -> a = b /\ x = y.
Proof.
  revert b. induction a as [|c a IH]; intros [|d b] Ha Hb E;
    change (String ?c ?r +:+ ?t) with (String c (r +:+ t)) in E;
    change ("" +:+ ?t) with t in E; cbn in Ha, Hb.
  - injection E as E. auto.
  - injection E as <- _. cbn in Hb. discriminate.
  - injection E as -> _. cbn in Ha. discriminate.
  - injection E as -> E.
    apply andb_true_iff in Ha as (_ & Ha).
    apply andb_true_iff in Hb as (_ & Hb).
    destruct (IH b Ha Hb E) as (-> & ->). auto.
Qed.

Lemma state_key_parts (c1 c2 : string) (p1 p2 : Platform) (i1 i2 : string) :
  no_bar c1 = true -> no_bar c2 = true ->
  getStateKey c1 p1 i1 = getStateKey c2 p2 i2 ->
  c1 = c2 /\ p1 = p2 /\ i1 = i2.
Proof.
  intros H1 H2 E. unfold getStateKey in E.
  apply (bar_split c1 c2) in E as (-> & E); try assumption.
  split; [reflexivity|].
  destruct p1, p2; cbn in E; try discriminate;
    injection E as E; change (i1 = i2) in E; subst; auto.
Qed.

(** X7. For channel ids without a vertical bar the state key is
    injective: two subscriptions share a state entry (and a timestamp) only
    if they have the same channel, platform and project id. *)
Theorem getStateKey_injective (c1 c2 : string) (p1 p2 : Platform)
    (i1 i2 : string) :
  no_bar c1 = true -> no_bar c2 = true ->
  getStateKey c1 p1 i1 = getStateKey c2 p2 i2 ->
  c1 = c2 /\ p1 = p2 /\ i1 = i2.
Proof.
  intros H1 H2 E.
  destruct (state_key_parts c1 c2 p1 p2 i1 i2 H1 H2 E) as (Ec & Ep & Ei).
  split; [exact Ec|]. split; [exact Ep | exact Ei].
Qed.

(** X8. Writing the state of one subscription is read back by [getState]
    and changes the state of no other subscription (channel ids without a
    vertical bar). *)
Theorem state_entries_are_independent (env : Env) (ch ch' : string)
    (p p' : Platform) (pid pid' v : string) (w : World) :
  no_bar ch = true -> no_bar ch' = true ->
  (ch, p, pid) <> (ch', p', pid') ->
  (getState ch p pid (updateState env ch p pid v w)).1 = Some (Str v)
  /\ (getState ch' p' pid' (updateState env ch p pid v w)).1
     = (getState ch' p' pid' w).1.
Proof.
  intros H1 H2 Hne. unfold getState. cbn [fst].
  fold (persisted (updateState env ch p pid v w)). fold (persisted w).
  rewrite updateState_persisted. split.
  - apply lookup_insert_eq.
  - apply lookup_insert_ne. intros E.
    apply state_key_parts in E as (-> & -> & ->); try assumption.
    apply Hne. reflexivity.
Qed.

(** A state key holds a bar, so it is never [__proto__]. *)
Lemma bar_found (a b : string) : no_bar (a +:+ "|" +:+ b) = false.
Proof.
  induction a as [|c a IH].
  - reflexivity.
  - change (no_bar (String c (a +:+ "|" +:+ b)) = false). cbn [no_bar].
    rewrite IH. apply andb_false_r.
Qed.

Lemma state_key_not_proto (ch : string) (p : Platform) (pid : string) :
  getStateKey ch p pid <> "__proto__".
Proof.
  intros E. pose proof (bar_found ch (platform_code p +:+ "|" +:+ pid)) as B.
  unfold getStateKey in E. rewrite E in B. discriminate B.
Qed.

(** X9. When the state file cannot be read or parsed, or does not hold an
    object, a fresh process starts from an empty state without writing
    anything; the first check of a subscription then seeds its state
    silently (no notification) and writes the state file anew. *)
Theorem lost_state_file_reseeds_silently (env : Env) (force : bool)
    (sub : Sub) (w : World) (stats : Stats) (latest : Latest) :
  let key := getStateKey (channelId sub) (platform sub) (projectId sub) in
  stateLoaded w = false -> stateCache w = ∅ -> saving w = false ->
  stateFile w = Unreadable \/ stateFile w = NotAnObject ->
  negb force
  && num_lt (Fin (clock w - lastCheckOf (lastCheckMap w) key)) (interval sub)
  = false ->
  latest_of env sub = FetchLatest latest ->
  let r := checkOnce_step env force sub (w, stats) in
  loadStateFromFile w = set_stateLoaded true w
  /\ notifications (trace r.1) = notifications (trace w)
  /\ noChange r.2 = S (noChange stats)
  /\ persisted r.1 = {[ key := Str (version latest) ]}
  /\ (diskWritable env = true ->
      stateFile r.1
      = Document [ (key, Some (Str (version latest))) ]).
Proof.
  intros key Hl Hc Hs Hf Hgate Hfetch r. subst r key.
  assert (Hpw : persisted w = ∅).
  { rewrite persisted_eq. unfold cache_after_load. rewrite Hl.
    destruct Hf as [-> | ->]; exact Hc. }
  split.
  { rewrite loadStateFromFile_eq. apply world_eq; try reflexivity.
    cbn. fold (cache_after_load w). rewrite <- persisted_eq, Hpw, Hc.
    reflexivity. }
  rewrite checkOnce_step_checked by exact Hgate. rewrite Hfetch.
  destruct (probed_effect env sub w) as (Ht & _ & _ & _ & Hp & _ & Hsv).
  set (w1 := probed env sub w) in *. clearbody w1.
  rewrite decide_update_seed by (rewrite Hp, Hpw; apply lookup_empty).
  cbn [fst snd]. rewrite createState_updateState.
  destruct (loadStateFromFile_quiet w1)
    as (_ & _ & _ & Hp2 & _ & Hs2 & Ht2).
  destruct (updateState_quiet env (channelId sub) (platform sub)
              (projectId sub) (or_empty (version latest))
              (loadStateFromFile w1)) as (_ & _ & _ & _ & _ & N & _).
  rewrite N, Ht2, Ht, notifications_snoc_fetch, updateState_persisted.
  rewrite Hp2, Hp, Hpw, ?or_empty_id, insert_empty.
  repeat split.
  intros Hd. rewrite updateState_file; [|rewrite Hs2, Hsv; exact Hs|exact Hd].
  rewrite Hp2, Hp, Hpw, ?or_empty_id, insert_empty.
  unfold state_document.
  rewrite delete_singleton_ne
    by (intros E; exact (state_key_not_proto _ _ _ (eq_sym E))).
  rewrite map_to_list_singleton. reflexivity.
Qed.

(** X10. The cache is authoritative: when the state file cannot be
    written (the disk refuses, or a save is already in flight), [updateState]
    still updates the state that later reads see, and leaves the file as it
    was. *)
Theorem unwritable_state_stays_in_memory (env : Env) (ch : string)
    (p : Platform) (pid v : string) (w : World) :
  diskWritable env = false \/ saving w = true ->
  let w' := updateState env ch p pid v w in
  (getState ch p pid w').1 = Some (Str v)
  /\ stateFile w' = stateFile w
  /\ (saving w = false -> EvWarn StateWriteFailed ∈ trace w')
  /\ (saving w = true -> trace w' = trace w).
Proof.
  intros Hcant w'. subst w'. unfold getState. cbn [fst].
  fold (persisted (updateState env ch p pid v w)).
  rewrite updateState_persisted. split; [apply lookup_insert_eq|].
  unfold updateState. rewrite loadStateFromFile_eq.
  unfold saveStateToFile. cbn [saving set_stateCache set_stateLoaded].
  destruct (saving w) eqn:Es.
  - cbn. split; [reflexivity|]. split; [discriminate | reflexivity].
  - destruct Hcant as [Hd | ?]; [|discriminate]. rewrite Hd. cbn.
    split; [reflexivity|]. split; [|discriminate].
    intros _. apply elem_of_app. right. apply list_elem_of_singleton.
    reflexivity.
Qed.

End StateStore.

(** ** The configuration store *)

Section ConfigFile.

Context `{!EcmaConv}.

Lemma groups_made_array_frame (c : Config) :
  cfg_enabled (groups_made_array c) = cfg_enabled c
  /\ cfg_interval (groups_made_array c) = cfg_interval c
  /\ cfg_adminAuthority (groups_made_array c) = cfg_adminAuthority c
  /\ cfg_groups (groups_made_array c) = Some (default [] (cfg_groups c)).
Proof.
  unfold groups_made_array. destruct (cfg_groups c) eqn:E; cbn; rewrite ?E; auto.
Qed.

Lemma groups_made_array_id (c : Config) (gs : list Group) :
  cfg_groups c = Some gs -> groups_made_array c = c.
Proof. intros E. unfold groups_made_array. rewrite E. reflexivity. Qed.

(** X11. The configuration file is read at most once per process: once
    loaded, whatever the file holds later is never looked at.  The first
    load takes [enabled] (when a boolean) and [groups] (when an array) from
    the file and never [interval] or [adminAuthority]; it leaves
    [config.groups] an array; and when the file cannot be read while the
    plugin settings hold groups, it writes those settings to the file. *)
Theorem loadConfigFromFile_once (env : Env) (w : World) :
  let w0 := loadConfigFromFile env w in
  (forall env' f,
     loadConfigFromFile env' (set_configFile f w0) = set_configFile f w0)
  /\ cfg_interval (config w0) = cfg_interval (config w)
  /\ cfg_adminAuthority (config w0) = cfg_adminAuthority (config w)
  /\ (configLoaded w = false ->
      (exists gs, cfg_groups (config w0) = Some gs)
      /\ (forall b gs,
            configFile w = Document {| doc_enabled := Bool b;
                                       doc_groups := Some gs |} ->
            cfg_enabled (config w0) = Bool b
            /\ cfg_groups (config w0) = Some gs
            /\ configFile w0 = configFile w)
      /\ (forall g gs,
            configFile w = Unreadable ->
            cfg_groups (config w) = Some (g :: gs) ->
            config w0 = config w
            /\ (diskWritable env = true ->
                configFile w0 = Document (config_document (config w))))
      /\ (configFile w = NotAnObject
          \/ configFile w = Unreadable
             /\ default [] (cfg_groups (config w)) = [] ->
          configFile w0 = configFile w /\ trace w0 = trace w
          /\ cfg_enabled (config w0) = cfg_enabled (config w)
          /\ cfg_groups (config w0)
             = Some (default [] (cfg_groups (config w))))).
Proof.
  intros w0. split; [|split; [|split]].
  - intros env' f. apply loadConfigFromFile_loaded. cbn.
    apply loadConfigFromFile_sets_loaded.
  - subst w0. unfold loadConfigFromFile.
    destruct (configLoaded w); [reflexivity|]. cbn.
    destruct (configFile w) as [| |json]; cbn.
    + destruct (groups_made_array_frame (config w)) as (_ & E & _ & ->).
      destruct (default [] (cfg_groups (config w))); cbn; [exact E|].
      rewrite (proj2 (saveConfigToFile_step env _)). exact E.
    + apply groups_made_array_frame.
    + rewrite (proj1 (proj2 (groups_made_array_frame _))).
      destruct (doc_groups json), (is_boolean (doc_enabled json)); reflexivity.
  - subst w0. unfold loadConfigFromFile.
    destruct (configLoaded w); [reflexivity|]. cbn.
    destruct (configFile w) as [| |json]; cbn.
    + destruct (groups_made_array_frame (config w)) as (_ & _ & E & ->).
      destruct (default [] (cfg_groups (config w))); cbn; [exact E|].
      rewrite (proj2 (saveConfigToFile_step env _)). exact E.
    + apply groups_made_array_frame.
    + rewrite (proj1 (proj2 (proj2 (groups_made_array_frame _)))).
      destruct (doc_groups json), (is_boolean (doc_enabled json)); reflexivity.
  - intros Hl. subst w0. unfold loadConfigFromFile. rewrite Hl. cbn.
    split; [|split; [|split]].
    + destruct (configFile w) as [| |json]; cbn.
      * destruct (groups_made_array_frame (config w)) as (_ & _ & _ & E).
        rewrite E.
        destruct (default [] (cfg_groups (config w))); cbn; [eauto|].
        rewrite (proj2 (saveConfigToFile_step env _)). cbn. eauto.
      * rewrite (proj2 (proj2 (proj2 (groups_made_array_frame _)))). eauto.
      * rewrite (proj2 (proj2 (proj2 (groups_made_array_frame _)))). eauto.
    + intros b gs E. rewrite E. cbn. rewrite ?E. auto.
    + intros g gs E Hg. rewrite E. cbn.
      rewrite (groups_made_array_id _ _ Hg), Hg.
      rewrite (proj2 (saveConfigToFile_step env _)). cbn.
      split; [destruct (config w); reflexivity|].
      intros Hd. unfold saveConfigToFile. rewrite Hd. cbn.
      unfold config_document. reflexivity.
    + intros [E | (E & Hg)]; rewrite E; cbn.
      * rewrite ?E. repeat split; apply groups_made_array_frame.
      * destruct (groups_made_array_frame (config w)) as (E1 & _ & _ & E2).
        rewrite E2, Hg. cbn. rewrite E2, Hg. auto.
Qed.

End ConfigFile.

(** ** Groups *)

Section Groups.

Context `{!EcmaConv}.

Lemma settled_idem (g : Group) : settled (settled g) = settled g.
Proof.
  unfold settled; cbn. destruct (is_boolean (grp_enabled g)) eqn:E; cbn;
    rewrite ?E; reflexivity.
Qed.

Lemma alter_idem {A : Type} (f : A -> A) (i : nat) (l : list A) :
  (forall x, f (f x) = f x) -> alter f i (alter f i l) = alter f i l.
Proof.
  intros Hf. revert i. induction l as [|a r IH]; intros [|i]; cbn;
    rewrite ?Hf, ?IH; reflexivity.
Qed.

Lemma alter_snoc {A : Type} (f : A -> A) (l : list A) (x : A) :
  alter f (length l) (l ++ [x]) = l ++ [f x].
Proof. induction l as [|a r IH]; cbn; rewrite ?IH; reflexivity. Qed.

Lemma flat_map_alter {A B : Type} (h : A -> list B) (f : A -> A) (i : nat)
    (l : list A) :
  (forall x, h (f x) = h x) -> flat_map h (alter f i l) = flat_map h l.
Proof.
  intros Hf. revert i. induction l as [|a r IH]; intros [|i]; cbn;
    rewrite ?Hf, ?IH; reflexivity.
Qed.

(** The two ways [ensureGroup] goes: the channel has a group, which gets
    its defaults, or a new group is pushed. *)
Lemma ensureGroup_cases (ch : jsval) (c : Config) :
  let gs0 := default [] (cfg_groups c) in
  (exists i,
     find_index (same_channel ch) gs0 = Some i
     /\ ensureGroup ch c
        = (i, with_groups (alter settled i gs0) (groups_made_array c)))
  \/ (find_index (same_channel ch) gs0 = None
      /\ ensureGroup ch c
         = (length gs0,
            with_groups (gs0 ++ [fresh_group ch]) (groups_made_array c))).
Proof.
  intros gs0. unfold ensureGroup, getConfigGroups.
  assert (E : default [] (cfg_groups (groups_made_array c)) = gs0)
    by (rewrite (proj2 (proj2 (proj2 (groups_made_array_frame c))));
        reflexivity).
  rewrite E. clear E.
  destruct (find_index (same_channel ch) gs0) as [i|] eqn:Ei.
  - left. exists i. split; reflexivity.
  - right. split; [reflexivity|].
    change (fun group : Group => _) with settled.
    fold (fresh_group ch). rewrite alter_snoc. reflexivity.
Qed.

Lemma same_channel_fresh (ch : jsval) : same_channel ch (fresh_group ch) = true.
Proof. unfold same_channel, fresh_group; cbn. apply String.eqb_refl. Qed.

Lemma group_entries_settled (ch : jsval) (c : Config) (g : Group) :
  group_entries ch c (settled g) = group_entries ch c g.
Proof.
  unfold group_entries, visited, settled; cbn.
  assert (E : strict_eq (if is_boolean (grp_enabled g)
                         then grp_enabled g else Bool true) (Bool false)
              = strict_eq (grp_enabled g) (Bool false)).
  { destruct (grp_enabled g) as [| |[]|[]|]; reflexivity. }
  rewrite E. reflexivity.
Qed.

Lemma group_entries_fresh (ch ch' : jsval) (c : Config) :
  group_entries ch' c (fresh_group ch) = [].
Proof. unfold group_entries. destruct (visited _ _); reflexivity. Qed.

(** What [ensureGroup] establishes, for the commands that go through
    it. *)
Lemma ensureGroup_found (ch : jsval) (c : Config) :
  exists gs g,
    (ensureGroup ch c).2 = with_groups gs (groups_made_array c)
    /\ find_index (same_channel ch) gs = Some (ensureGroup ch c).1
    /\ gs !! (ensureGroup ch c).1 = Some g
    /\ grp_subs g = Some (channel_subs ch c)
    /\ is_boolean (grp_enabled g) = true
    /\ settled g = g
    /\ (forall ch' c', flat_map (group_entries ch' c') gs
                       = flat_map (group_entries ch' c')
                           (default [] (cfg_groups c))).
Proof.
  assert (Hsame : forall x, same_channel ch (settled x) = same_channel ch x)
    by reflexivity.
  unfold channel_subs, getGroup, getConfigGroups.
  assert (E : default [] (cfg_groups (groups_made_array c))
              = default [] (cfg_groups c))
    by (rewrite (proj2 (proj2 (proj2 (groups_made_array_frame c))));
        reflexivity).
  rewrite E. clear E. cbn [fst].
  destruct (ensureGroup_cases ch c) as [(i & Ei & ->) | (En & ->)];
    cbn [fst snd].
  - destruct (find_index_Some _ _ _ Ei) as (g & Hl & Hf & _).
    destruct (find_alter _ settled _ _ Ei Hsame) as (_ & Hi).
    exists (alter settled i (default [] (cfg_groups c))), (settled g).
    rewrite list_lookup_alter_eq, Hl, Hf. cbn.
    repeat split; try assumption.
    + destruct (grp_enabled g) as [| |[]|[]|]; reflexivity.
    + apply settled_idem.
    + intros ch' c'. apply flat_map_alter. intros x.
      apply group_entries_settled.
  - exists (default [] (cfg_groups c) ++ [fresh_group ch]), (fresh_group ch).
    rewrite (find_index_None _ _ En). cbn.
    repeat split.
    + apply find_index_app_new; [exact En | apply same_channel_fresh].
    + rewrite lookup_app_r by lia. rewrite Nat.sub_diag. reflexivity.
    + intros ch' c'. rewrite flat_map_app. cbn.
      rewrite group_entries_fresh, !app_nil_r. reflexivity.
Qed.

(** X12. [ensureGroup] is invisible to the checks and idempotent: it
    changes the list of subscriptions enumerated for no channel, keeps
    every group in its place (adding at most one, at the end, with no
    subscription), and a second call returns the same group and changes
    nothing. *)
Theorem ensureGroup_is_invisible (ch ch' : jsval) (c : Config) :
  let r := ensureGroup ch c in
  let gs0 := default [] (cfg_groups c) in
  ensureGroup ch r.2 = r
  /\ (getConfigSubs ch' r.2).1 = (getConfigSubs ch' c).1
  /\ cfg_enabled r.2 = cfg_enabled c
  /\ exists gs,
       cfg_groups r.2 = Some gs
       /\ (gs = alter settled r.1 gs0 \/ gs = gs0 ++ [fresh_group ch])
       /\ forall j g, gs0 !! j = Some g ->
            exists g', gs !! j = Some g'
                       /\ grp_channelId g' = grp_channelId g
                       /\ default [] (grp_subs g') = default [] (grp_subs g).
Proof.
  intros r gs0. subst r gs0.
  assert (Hsame : forall x, same_channel ch (settled x) = same_channel ch x)
    by reflexivity.
  destruct (groups_made_array_frame c) as (Fe & Fi & _ & Fg).
  pose proof (ensureGroup_found ch c) as HF.
  pose proof (ensureGroup_cases ch c) as HC. cbv zeta in HC.
  remember (default [] (cfg_groups c)) as gs0 eqn:Egs.
  split; [|split; [|split]].
  - destruct HC as [(i & Ei & E) | (En & E)]; rewrite E; cbn [snd].
    + pose proof (ensureGroup_cases ch
                    (with_groups (alter settled i gs0) (groups_made_array c)))
        as HC2. cbv zeta in HC2.
      change (default [] (cfg_groups (with_groups ?l ?d))) with l in HC2.
      destruct (find_alter _ settled _ _ Ei Hsame) as (_ & Hi).
      destruct HC2 as [(k & Ek & E2) | (En2 & _)]; [|congruence].
      rewrite Hi in Ek. injection Ek as <-. rewrite E2.
      rewrite alter_idem by apply settled_idem. reflexivity.
    + pose proof (find_index_app_new _ _ (fresh_group ch) En
                    (same_channel_fresh ch)) as Ei.
      pose proof (ensureGroup_cases ch
                    (with_groups (gs0 ++ [fresh_group ch])
                       (groups_made_array c))) as HC2. cbv zeta in HC2.
      change (default [] (cfg_groups (with_groups ?l ?d))) with l in HC2.
      destruct HC2 as [(k & Ek & E2) | (En2 & _)]; [|congruence].
      rewrite Ei in Ek. injection Ek as <-. rewrite E2.
      rewrite alter_snoc. reflexivity.
  - rewrite !getConfigSubs_entries.
    destruct HF as (gs & g & -> & _ & _ & _ & _ & _ & Hfl).
    change (default [] (cfg_groups (with_groups ?l ?d))) with l.
    rewrite Hfl, <- Egs. reflexivity.
  - destruct HF as (gs & g & -> & _). exact Fe.
  - destruct HC as [(i & Ei & E) | (En & E)];
      rewrite E; cbn [fst snd cfg_groups with_groups].
    + exists (alter settled i gs0). split; [reflexivity|]. split; [auto|].
      intros j g Hj. destruct (decide (i = j)) as [<-|Hne].
      * exists (settled g). rewrite list_lookup_alter_eq, Hj. auto.
      * exists g. rewrite list_lookup_alter_ne by exact Hne. auto.
    + exists (gs0 ++ [fresh_group ch]). split; [reflexivity|]. split; [auto|].
      intros j g Hj. exists g. rewrite lookup_app_l; [auto|].
      eapply lookup_lt_Some, Hj.
Qed.

End Groups.

(** ** The commands that edit the configuration *)

Section Editing.

Context `{!EcmaConv}.

Lemma normalizePlatform_truthy (p : jsval) (pk : Platform) :
  normalizePlatform p = Some pk -> truthy p = true.
Proof.
  unfold normalizePlatform. intros Hpk.
  destruct (strict_eq p (Str "mr")) eqn:E1.
  - apply strict_eq_Str_r in E1. subst. reflexivity.
  - destruct (strict_eq p (Str "cf")) eqn:E2; [|discriminate].
    apply strict_eq_Str_r in E2. subst. reflexivity.
Qed.

Lemma find_alter_cases {A : Type} (p : A -> bool) (f : A -> A)
    (l : list A) (i : nat) :
  (forall x, p (f x) = p x) ->
  match find p l with
  | None => find p (alter f i l) = None
  | Some x => find p (alter f i l) = Some x
              \/ l !! i = Some x /\ find p (alter f i l) = Some (f x)
  end.
Proof.
  intros Hp. revert i. induction l as [|a r IH]; intros i; cbn; [reflexivity|].
  destruct i as [|i]; cbn.
  - rewrite Hp. destruct (p a); [auto|].
    destruct (find p r); auto.
  - destruct (p a); [auto|]. apply IH.
Qed.

Lemma channel_subs_with_groups (ch : jsval) (gs : list Group) (c : Config) :
  channel_subs ch (with_groups gs c)
  = default [] (find (same_channel ch) gs ≫= grp_subs).
Proof. reflexivity. Qed.

Lemma channel_subs_unfold (ch : jsval) (c : Config) :
  channel_subs ch c
  = default [] (find (same_channel ch) (default [] (cfg_groups c))
                ≫= grp_subs).
Proof.
  unfold channel_subs, getGroup, getConfigGroups.
  rewrite (proj2 (proj2 (proj2 (groups_made_array_frame c)))). reflexivity.
Qed.

(** In the group of the channel, the list is replaced. *)
Lemma channel_subs_alter (ch : jsval) (c : Config) (gs : list Group)
    (i : nat) (f : Group -> Group) :
  find_index (same_channel ch) gs = Some i ->
  (forall x, grp_channelId (f x) = grp_channelId x) ->
  channel_subs ch (with_groups (alter f i gs) c)
  = default [] ((f <$> gs !! i) ≫= grp_subs).
Proof.
  intros Hi Hf. rewrite channel_subs_with_groups.
  assert (Hs : forall x, same_channel ch (f x) = same_channel ch x).
  { intros x. unfold same_channel. rewrite Hf. reflexivity. }
  destruct (find_alter _ f _ _ Hi Hs) as (-> & _).
  destruct (find_index_Some _ _ _ Hi) as (x & -> & -> & _). reflexivity.
Qed.

Lemma find_snoc {A : Type} (p : A -> bool) (l : list A) (x : A) :
  find p (l ++ [x])
  = match find p l with
    | Some y => Some y
    | None => if p x then Some x else None
    end.
Proof.
  induction l as [|a r IH]; cbn; [reflexivity|].
  destruct (p a); [reflexivity | exact IH].
Qed.

(** [ensureGroup] changes the list of no channel. *)
Lemma ensureGroup_channel_subs (ch ch' : jsval) (c : Config) :
  channel_subs ch' (ensureGroup ch c).2 = channel_subs ch' c.
Proof.
  rewrite (channel_subs_unfold ch' c).
  destruct (ensureGroup_cases ch c) as [(i & Ei & ->) | (En & ->)];
    cbn [snd]; rewrite channel_subs_with_groups.
  - pose proof (find_alter_cases (same_channel ch') settled
                  (default [] (cfg_groups c)) i (fun x => eq_refl)) as HC.
    destruct (find (same_channel ch') (default [] (cfg_groups c))) as [x|].
    + destruct HC as [-> | (_ & ->)]; [reflexivity|].
      cbn. destruct (grp_subs x); reflexivity.
    + rewrite HC. reflexivity.
  - rewrite find_snoc.
    destruct (find (same_channel ch') (default [] (cfg_groups c)));
      [reflexivity|].
    destruct (same_channel ch' (fresh_group ch)); reflexivity.
Qed.

Lemma accepted_prelude (c : Config) (session : Session)
    (platform projectId : jsval) (pk : Platform) :
  accepted c session platform projectId pk ->
  negb (truthy platform) || negb (truthy projectId) = false
  /\ negb (truthy (ses_channelId session)) = false
  /\ negb (requireManage c session) = false
  /\ String.eqb (trim (ToString projectId)) "" = false.
Proof.
  intros (Hpk & Hpj & Hch & Hman & Hpid).
  rewrite (normalizePlatform_truthy _ _ Hpk), Hpj, Hch, Hman.
  repeat split. apply String.eqb_neq, Hpid.
Qed.

Lemma requireManage_ext (c c' : Config) (session : Session) :
  cfg_adminAuthority c = cfg_adminAuthority c' ->
  requireManage c session = requireManage c' session.
Proof. intros E. unfold requireManage. rewrite E. reflexivity. Qed.

Lemma saveConfigToFile_loaded (env : Env) (w : World) :
  configLoaded (saveConfigToFile env w) = configLoaded w.
Proof. unfold saveConfigToFile. destruct (diskWritable env); reflexivity. Qed.

Lemma added_entry_ext (c c' : Config) (pk : Platform) (pid : string) :
  cfg_interval c = cfg_interval c' -> added_entry c pk pid = added_entry c' pk pid.
Proof. intros E. unfold added_entry. rewrite E. reflexivity. Qed.

(** [notify.add] once its arguments are accepted. *)
Lemma notify_add_accepted (env : Env) (session : Session)
    (platform projectId : jsval) (w : World) (pk : Platform) :
  let w0 := loadConfigFromFile env w in
  let ch := ses_channelId session in
  let pid := trim (ToString projectId) in
  accepted (config w0) session platform projectId pk ->
  exists gs g i,
    let c1 := with_groups gs (groups_made_array (config w0)) in
    ensureGroup ch (config w0) = (i, c1)
    /\ find_index (same_channel ch) gs = Some i
    /\ gs !! i = Some g
    /\ grp_subs g = Some (channel_subs ch (config w0))
    /\ (forall ch' c', flat_map (group_entries ch' c') gs
                       = flat_map (group_entries ch' c')
                           (default [] (cfg_groups (config w0))))
    /\ (forall ch', channel_subs ch' c1 = channel_subs ch' (config w0))
    /\ notify_add env session platform projectId w
       = if existsb (same_subscription pk pid) (channel_subs ch (config w0))
         then (AlreadyExists pk pid, set_config c1 w0)
         else (Added pk pid,
               saveConfigToFile env
                 (set_config
                    (with_groups
                       (alter (with_subs (channel_subs ch (config w0)
                                          ++ [added_entry (config w0) pk pid]))
                              i gs) c1) w0)).
Proof.
  intros w0 ch pid Hacc.
  destruct (accepted_prelude _ _ _ _ _ Hacc) as (E1 & E2 & E3 & E4).
  destruct Hacc as (Hpk & _).
  unfold notify_add. fold w0. rewrite E1, Hpk, E2, E3, E4.
  destruct (ensureGroup_found ch (config w0))
    as (gs & g & Ec & Hi & Hl & Hs & _ & _ & Hfl).
  pose proof (ensureGroup_channel_subs ch) as Hcs.
  specialize (fun ch' => Hcs ch' (config w0)).
  fold ch. destruct (ensureGroup ch (config w0)) as [i c1] eqn:Ee.
  cbn [fst snd] in *. subst c1.
  exists gs, g, i. cbv zeta.
  split; [reflexivity|]. split; [exact Hi|]. split; [exact Hl|]. split; [exact Hs|].
  split; [exact Hfl|]. split; [exact Hcs|].
  change (default [] (cfg_groups (with_groups gs ?d))) with gs.
  rewrite Hl. cbn [mbind option_bind]. rewrite Hs. cbn [default].
  fold pid. destruct (existsb _ _); [reflexivity|].
  rewrite (added_entry_ext (config w0)
             (with_groups gs (groups_made_array (config w0))) pk pid)
    by (symmetry; apply cfg_interval_made_array).
  reflexivity.
Qed.

Lemma same_subscription_added (c : Config) (pk : Platform) (s : string) :
  trim s <> "" ->
  same_subscription pk (trim s) (added_entry c pk (trim s)) = true.
Proof.
  intros Hne. unfold same_subscription, added_entry.
  cbn [sub_platform sub_projectId].
  rewrite normalizePlatform_code, bool_decide_eq_true_2 by reflexivity.
  unfold js_or. rewrite (proj2 (truthy_Str _) Hne). cbn [ToString andb].
  rewrite trim_idem. apply String.eqb_refl.
Qed.

Lemma channel_subs_ToString (ch ch' : jsval) (c : Config) :
  ToString ch' = ToString ch -> channel_subs ch' c = channel_subs ch c.
Proof.
  intros E. rewrite !channel_subs_unfold.
  assert (Hf : forall l, find (same_channel ch') l = find (same_channel ch) l).
  { intros l. induction l as [|a r IH]; cbn; [reflexivity|].
    unfold same_channel at 1 3. rewrite E, IH. reflexivity. }
  rewrite Hf. reflexivity.
Qed.

(** The configuration after an accepted [notify.add] of a new pair. *)
Lemma notify_add_fresh (env : Env) (session : Session)
    (platform projectId : jsval) (w : World) (pk : Platform) :
  let w0 := loadConfigFromFile env w in
  let ch := ses_channelId session in
  let pid := trim (ToString projectId) in
  accepted (config w0) session platform projectId pk ->
  existsb (same_subscription pk pid) (channel_subs ch (config w0)) = false ->
  let r := notify_add env session platform projectId w in
  (exists c2, r = (Added pk pid, saveConfigToFile env (set_config c2 w0)))
  /\ channel_subs ch (config r.2)
     = channel_subs ch (config w0) ++ [added_entry (config w0) pk pid]
  /\ (forall ch', ToString ch' <> ToString ch ->
        channel_subs ch' (config r.2) = channel_subs ch' (config w0))
  /\ cfg_adminAuthority (config r.2) = cfg_adminAuthority (config w0)
  /\ loadConfigFromFile env r.2 = r.2.
Proof.
  intros w0 ch pid Hacc Hex r.
  destruct (notify_add_accepted env session platform projectId w pk Hacc)
    as (gs & g & i & _ & Hi & Hl & Hs & _ & Hcs & E).
  fold w0 ch pid in Hi, Hl, Hs, Hcs, E. rewrite Hex in E.
  set (l' := channel_subs ch (config w0) ++ [added_entry (config w0) pk pid])
    in *.
  assert (Hc2 : config r.2
                = with_groups (alter (with_subs l') i gs)
                    (with_groups gs (groups_made_array (config w0)))).
  { subst r. rewrite E. cbn [snd].
    rewrite (proj2 (saveConfigToFile_step env _)). reflexivity. }
  split; [subst r; rewrite E; eauto|].
  split; [|split; [|split]].
  - rewrite Hc2, channel_subs_alter, Hl by auto. reflexivity.
  - intros ch' Hne. rewrite <- (Hcs ch'), Hc2, !channel_subs_with_groups.
    pose proof (find_alter_cases (same_channel ch') (with_subs l') gs i
                  (fun x => eq_refl)) as HC.
    destruct (find (same_channel ch') gs) as [x|] eqn:Ex;
      [|rewrite HC; reflexivity].
    destruct HC as [-> | (Hx & _)]; [reflexivity|].
    exfalso. apply Hne.
    destruct (find_index_Some _ _ _ Hi) as (y & Hy & _ & Hp).
    assert (y = x) by congruence. subst y.
    apply find_some in Ex as (_ & Ex).
    unfold same_channel in Hp, Ex.
    apply String.eqb_eq in Hp, Ex. congruence.
  - rewrite Hc2. cbn. apply groups_made_array_frame.
  - apply loadConfigFromFile_loaded. subst r. rewrite E. cbn [snd].
    rewrite saveConfigToFile_loaded. cbn.
    apply loadConfigFromFile_sets_loaded.
Qed.

(** X13. An accepted [notify.add] of a pair that the channel does not have
    answers "added" and appends one entry to the channel's list, with the
    platform normalized, the project id trimmed and an interval of
    [max(60000, config.interval || 1800000)]; the lists of the other
    channels stay as they are.  The configuration file then holds the new
    configuration, or, when it cannot be written, stays as it was while the
    configuration in memory is changed all the same and a warning is
    logged.  Repeating the command answers "already exists". *)
Theorem add_appends_one_entry (env : Env) (session : Session)
    (platform projectId : jsval) (w : World) (pk : Platform) :
  let w0 := loadConfigFromFile env w in
  let ch := ses_channelId session in
  let pid := trim (ToString projectId) in
  accepted (config w0) session platform projectId pk ->
  existsb (same_subscription pk pid) (channel_subs ch (config w0)) = false ->
  let r := notify_add env session platform projectId w in
  r.1 = Added pk pid
  /\ channel_subs ch (config r.2)
     = channel_subs ch (config w0) ++ [added_entry (config w0) pk pid]
  /\ (forall ch', ToString ch' <> ToString ch ->
        channel_subs ch' (config r.2) = channel_subs ch' (config w0))
  /\ (diskWritable env = true ->
      configFile r.2 = Document (config_document (config r.2)))
  /\ (diskWritable env = false ->
      configFile r.2 = configFile w0
      /\ EvWarn ConfigWriteFailed ∈ trace r.2)
  /\ (notify_add env session platform projectId r.2).1 = AlreadyExists pk pid.
Proof.
  intros w0 ch pid Hacc Hex r.
  destruct (notify_add_fresh env session platform projectId w pk Hacc Hex)
    as ((c2 & E) & Hsub & Hother & Hadm & Hload).
  fold w0 ch pid r in E, Hsub, Hother, Hadm, Hload.
  split; [rewrite E; reflexivity|].
  split; [exact Hsub|]. split; [exact Hother|]. split; [|split].
  - intros Hd. rewrite E. cbn [snd].
    unfold saveConfigToFile. rewrite Hd. reflexivity.
  - intros Hd. rewrite E. cbn [snd].
    unfold saveConfigToFile. rewrite Hd. cbn. split; [reflexivity|].
    apply elem_of_app. right. apply list_elem_of_singleton. reflexivity.
  - assert (Hacc2 : accepted (config (loadConfigFromFile env r.2)) session
                      platform projectId pk).
    { rewrite Hload. destruct Hacc as (A1 & A2 & A3 & A4 & A5).
      repeat split; try assumption.
      rewrite <- A4. apply requireManage_ext. exact Hadm. }
    destruct (notify_add_accepted env session platform projectId r.2 pk Hacc2)
      as (gs2 & g2 & i2 & _ & _ & _ & _ & _ & _ & ->).
    rewrite Hload. fold ch pid. rewrite Hsub.
    rewrite existsb_app. cbn [existsb].
    subst pid. rewrite same_subscription_added by apply Hacc.
    rewrite orb_true_r. reflexivity.
Qed.

Lemma alter_middle {A : Type} (f : A -> A) (l : list A) (i : nat) (x : A) :
  l !! i = Some x ->
  l = take i l ++ x :: drop (S i) l
  /\ alter f i l = take i l ++ f x :: drop (S i) l.
Proof.
  revert i. induction l as [|a r IH]; intros [|i] Hl; try discriminate.
  - injection Hl as ->. cbn. rewrite drop_0. auto.
  - destruct (IH i Hl) as (E1 & E2). cbn. rewrite E2.
    split; [f_equal; exact E1 | reflexivity].
Qed.

(** The interval [notify.add] stores is what normalization makes of it. *)
Lemma added_interval (x d : jsnum) :
  let I := num_max (Fin (60 * 1000)) (num_or x (Fin (30 * 60 * 1000))) in
  isFinite I && num_le I (Fin 0) = false
  /\ num_max (Fin (60 * 1000))
       (num_or (num_or I d) (Fin (30 * 60 * 1000))) = I.
Proof.
  destruct x as [| | |z]; try (split; reflexivity).
  destruct (Z.eqb_spec z 0) as [->|Hz]; [split; reflexivity|].
  assert (E : num_or (Fin z) (Fin (30 * 60 * 1000)) = Fin z).
  { unfold num_or, num_truthy. apply Z.eqb_neq in Hz. rewrite Hz.
    reflexivity. }
  cbv zeta. rewrite E. cbn [num_max isFinite num_le andb].
  assert (Hm : (Z.max (60 * 1000) z =? 0) = false)
    by (apply Z.eqb_neq; lia).
  unfold num_or, num_truthy. rewrite Hm. cbn [negb]. rewrite Hm.
  cbn [negb num_max].
  split; [apply Z.leb_gt; lia | f_equal; lia].
Qed.

Lemma entry_of_added (c c0 : Config) (g : Group) (pk : Platform)
    (s : string) :
  trim s <> "" -> cfg_interval c = cfg_interval c0 ->
  entry_of c g (added_entry c0 pk (trim s))
  = Some {| channelId := ToString (grp_channelId g);
            platform := pk;
            projectId := trim s;
            interval :=
              num_max (Fin (60 * 1000))
                (num_or (ToNumber (cfg_interval c0))
                        (Fin (30 * 60 * 1000))) |}.
Proof.
  intros Hne Hc. unfold entry_of, added_entry.
  cbn [sub_platform sub_projectId sub_interval].
  rewrite normalizePlatform_code. cbv zeta.
  unfold js_or. rewrite (proj2 (truthy_Str _) Hne). cbn [ToString ToNumber].
  rewrite trim_idem. apply String.eqb_neq in Hne. rewrite Hne.
  destruct (added_interval (ToNumber (cfg_interval c0))
              (ToNumber (cfg_interval c))) as (E1 & E2).
  cbv zeta in E1, E2. rewrite E1, E2. reflexivity.
Qed.

(** X14. What an accepted [notify.add] of a new pair does to the
    subscriptions that the checks enumerate, whatever the channel filter:
    every subscription enumerated before is still enumerated, in the same
    order, and at most one is new, the one added.  It is there, for the
    channel of the command and for the scheduler, when the channel id is a
    string and the group the command finds for the channel (if it finds
    one) holds that id and is not switched off. *)
Theorem added_subscription_is_enumerated (env : Env) (session : Session)
    (platform projectId : jsval) (w : World) (pk : Platform) (ch' : jsval) :
  let w0 := loadConfigFromFile env w in
  let ch := ses_channelId session in
  let pid := trim (ToString projectId) in
  accepted (config w0) session platform projectId pk ->
  existsb (same_subscription pk pid) (channel_subs ch (config w0)) = false ->
  let r := notify_add env session platform projectId w in
  exists before after extra,
    (getConfigSubs ch' (config w0)).1 = before ++ after
    /\ (getConfigSubs ch' (config r.2)).1 = before ++ extra ++ after
    /\ (extra = [] \/ extra = [added_sub (config w0) ch pk pid])
    /\ ((exists s, ch = Str s) ->
        ch' = ch \/ ch' = Undefined ->
        (forall g, (getGroup ch (config w0)).1 = Some g ->
           grp_channelId g = ch
           /\ strict_eq (grp_enabled g) (Bool false) = false) ->
        extra = [added_sub (config w0) ch pk pid]).
Proof.
  intros w0 ch pid Hacc Hex r.
  destruct (notify_add_accepted env session platform projectId w pk Hacc)
    as (gs & g & i & Ee & Hi & Hl & Hs & Hfl & _ & E).
  fold w0 ch pid in Ee, Hi, Hl, Hs, Hfl, E. rewrite Hex in E.
  set (l' := channel_subs ch (config w0) ++ [added_entry (config w0) pk pid])
    in *.
  set (c1 := with_groups gs (groups_made_array (config w0))) in *.
  assert (Hc2 : config r.2 = with_groups (alter (with_subs l') i gs) c1).
  { subst r. rewrite E. cbn [snd].
    rewrite (proj2 (saveConfigToFile_step env _)). reflexivity. }
  destruct Hacc as (_ & _ & Hch & _ & Hpid).
  destruct (find_index_Some _ _ _ Hi) as (g' & Hg' & _ & Hsame).
  assert (g' = g) by congruence. subst g'. clear Hg'.
  apply String.eqb_eq in Hsame.
  destruct (alter_middle (with_subs l') gs i g Hl) as (Egs & Ealt).
  set (h := group_entries ch' (groups_made_array (config w0))).
  assert (Hh : h (with_subs l' g)
               = h g ++ (if visited ch' g
                         then [added_sub (config w0) ch pk pid] else [])).
  { subst h. unfold group_entries.
    change (visited ch' (with_subs l' g)) with (visited ch' g).
    destruct (visited ch' g); [|reflexivity].
    change (entry_of ?c (with_subs l' g)) with (entry_of c g).
    cbn [with_subs grp_subs default]. rewrite Hs. cbn [default].
    unfold id. subst l'. rewrite omap_app. f_equal. cbn [omap list_omap].
    subst pid. rewrite entry_of_added;
      [|exact Hpid|apply cfg_interval_made_array].
    unfold added_sub. rewrite Hsame. reflexivity. }
  exists (flat_map h (take i gs) ++ h g), (flat_map h (drop (S i) gs)),
         (if visited ch' g then [added_sub (config w0) ch pk pid] else []).
  split; [|split; [|split]].
  - rewrite getConfigSubs_entries, <- Hfl. fold h.
    rewrite Egs at 1. rewrite flat_map_app. cbn [flat_map].
    rewrite app_assoc. reflexivity.
  - rewrite getConfigSubs_entries, Hc2.
    change (default [] (cfg_groups (with_groups ?l ?d))) with l.
    change (group_entries ch' (groups_made_array (with_groups ?l c1)))
      with h.
    rewrite Ealt, flat_map_app. cbn [flat_map]. rewrite Hh.
    rewrite <- !app_assoc. reflexivity.
  - destruct (visited ch' g); auto.
  - intros (s & Hstr) Hch' Hgrp.
    assert (Hv : grp_channelId g = ch
                 /\ strict_eq (grp_enabled g) (Bool false) = false).
    { pose proof (ensureGroup_cases ch (config w0)) as HC. cbv zeta in HC.
      destruct HC as [(k & Ek & E') | (En & E')];
        rewrite E' in Ee; injection Ee as Ek' Eg; subst i;
        rewrite <- Eg in Hl.
      - destruct (find_index_Some _ _ _ Ek) as (g0 & Hl0 & Hf0 & _).
        rewrite list_lookup_alter_eq, Hl0 in Hl. injection Hl as <-.
        destruct (Hgrp g0) as (G1 & G2).
        { unfold getGroup, getConfigGroups.
          rewrite (proj2 (proj2 (proj2 (groups_made_array_frame _)))).
          exact Hf0. }
        split; [exact G1|]. cbn.
        destruct (grp_enabled g0) as [| |[]|[]|]; try reflexivity;
          discriminate.
      - rewrite lookup_app_r in Hl by lia.
        rewrite Nat.sub_diag in Hl. injection Hl as <-. cbn.
        rewrite Hstr. auto. }
    destruct Hv as (V1 & V2).
    assert (Hvis : visited ch' g = true).
    { unfold visited. rewrite V1, V2. fold ch in Hch. rewrite Hch.
      cbn [andb negb].
      destruct Hch' as [-> | ->]; [|reflexivity].
      rewrite Hstr. cbn. rewrite String.eqb_refl, orb_true_r.
      reflexivity. }
    rewrite Hvis. reflexivity.
Qed.

(** *** [notify.remove] *)

Lemma filter_none {A : Type} (p : A -> bool) (l : list A) :
  existsb p l = false -> List.filter (fun x => negb (p x)) l = l.
Proof.
  induction l as [|a r IH]; cbn; [reflexivity|].
  destruct (p a); cbn; [discriminate|]. intros E. rewrite IH by exact E.
  reflexivity.
Qed.

Lemma filter_some {A : Type} (p : A -> bool) (l : list A) :
  existsb p l = true ->
  (length (List.filter (fun x => negb (p x)) l) < length l)%nat.
Proof.
  induction l as [|a r IH]; cbn; [discriminate|].
  destruct (p a); cbn.
  - intros _. pose proof (List.filter_length_le (fun x => negb (p x)) r). lia.
  - intros E. specialize (IH E). lia.
Qed.

Lemma filter_length_cases {A : Type} (p : A -> bool) (l : list A) :
  (length (List.filter (fun x => negb (p x)) l) =? length l)%nat
  = negb (existsb p l).
Proof.
  destruct (existsb p l) eqn:E; cbn.
  - apply Nat.eqb_neq. pose proof (filter_some p l E). lia.
  - rewrite filter_none by exact E. apply Nat.eqb_refl.
Qed.

Lemma with_subs_same (g : Group) (l : list StoredSub) :
  grp_subs g = Some l -> with_subs l g = g.
Proof. destruct g; cbn. intros ->. reflexivity. Qed.

(** [notify.remove] once its arguments are accepted: the channel's list is
    filtered, in the configuration [c2]. *)
Lemma notify_remove_accepted (env : Env) (session : Session)
    (platform projectId : jsval) (w : World) (pk : Platform) :
  let w0 := loadConfigFromFile env w in
  let ch := ses_channelId session in
  let pid := trim (ToString projectId) in
  accepted (config w0) session platform projectId pk ->
  let l := channel_subs ch (config w0) in
  let kept := List.filter (fun s => negb (same_subscription pk pid s)) l in
  exists c2,
    channel_subs ch c2 = kept
    /\ (forall ch', ToString ch' <> ToString ch ->
          channel_subs ch' c2 = channel_subs ch' (config w0))
    /\ cfg_adminAuthority c2 = cfg_adminAuthority (config w0)
    /\ (existsb (same_subscription pk pid) l = false ->
        c2 = groups_made_array (config w0))
    /\ notify_remove env session platform projectId w
       = if existsb (same_subscription pk pid) l
         then (Removed pk pid, saveConfigToFile env (set_config c2 w0))
         else (NotFound, set_config c2 w0).
Proof.
  intros w0 ch pid Hacc l kept.
  destruct (accepted_prelude _ _ _ _ _ Hacc) as (E1 & E2 & E3 & E4).
  destruct Hacc as (Hpk & _).
  unfold notify_remove. fold w0. rewrite E1, Hpk, E2, E3, E4.
  fold ch pid. unfold getConfigGroups.
  destruct (groups_made_array_frame (config w0)) as (_ & _ & Fa & Fg).
  assert (Eg : default [] (cfg_groups (groups_made_array (config w0)))
               = default [] (cfg_groups (config w0)))
    by (rewrite Fg; reflexivity).
  rewrite Eg. clear Eg.
  assert (Hl : l = default [] (find (same_channel ch)
                                 (default [] (cfg_groups (config w0)))
                               ≫= grp_subs))
    by apply channel_subs_unfold.
  assert (Hsame : forall c', channel_subs c' (groups_made_array (config w0))
                             = channel_subs c' (config w0)).
  { intros c'. rewrite !channel_subs_unfold, Fg. reflexivity. }
  set (gs := default [] (cfg_groups (config w0))) in *.
  destruct (find_index (same_channel ch) gs) as [i|] eqn:Ei.
  - destruct (find_index_Some _ _ _ Ei) as (g & Hg & Hf & Hp).
    rewrite Hf in Hl. cbn [mbind option_bind] in Hl.
    rewrite Hg. cbn [mbind option_bind].
    destruct (grp_subs g) as [[|s subs]|] eqn:Es; cbn [default from_option id] in Hl.
    + exists (groups_made_array (config w0)). subst kept. rewrite Hl.
      split; [rewrite Hsame; exact Hl|]. split; [intros; apply Hsame|].
      split; [exact Fa|]. split; reflexivity.
    + change (fun s0 : StoredSub => negb (same_subscription pk pid s0))
        with (fun s0 : StoredSub => negb (same_subscription pk pid s0)).
      rewrite <- Hl. fold kept.
      change (fun group : Group => _) with (with_subs kept).
      exists (with_groups (alter (with_subs kept) i gs)
                (groups_made_array (config w0))).
      split; [|split; [|split; [|split]]].
      * rewrite channel_subs_alter, Hg by auto. reflexivity.
      * intros ch' Hne. rewrite <- (Hsame ch'), channel_subs_with_groups.
        rewrite (channel_subs_unfold ch' (groups_made_array (config w0))), Fg.
        cbn [default from_option id]. fold gs.
        pose proof (find_alter_cases (same_channel ch') (with_subs kept) gs i
                      (fun x => eq_refl)) as HC.
        destruct (find (same_channel ch') gs) as [x|] eqn:Ex;
          [|rewrite HC; reflexivity].
        destruct HC as [-> | (Hx & _)]; [reflexivity|].
        exfalso. apply Hne. assert (g = x) by congruence. subst x.
        apply find_some in Ex as (_ & Ex). unfold same_channel in Hp, Ex.
        apply String.eqb_eq in Hp, Ex. congruence.
      * exact Fa.
      * intros Hex. subst kept. rewrite filter_none by exact Hex.
        rewrite Hl.
        assert (Ea : alter (with_subs (s :: subs)) i gs = gs).
        { destruct (alter_middle (with_subs (s :: subs)) gs i g Hg)
            as (E5 & E6).
          rewrite E6, with_subs_same by exact Es. symmetry. exact E5. }
        rewrite Ea. unfold with_groups. rewrite <- Fg.
        destruct (groups_made_array (config w0)); reflexivity.
      * subst kept. rewrite filter_length_cases.
        destruct (existsb (same_subscription pk pid) l); reflexivity.
    + exists (groups_made_array (config w0)). subst kept. rewrite Hl.
      split; [rewrite Hsame; exact Hl|]. split; [intros; apply Hsame|].
      split; [exact Fa|]. split; reflexivity.
  - rewrite (find_index_None _ _ Ei) in Hl.
    cbn [mbind option_bind default from_option id] in Hl.
    exists (groups_made_array (config w0)). subst kept. rewrite Hl.
    split; [rewrite Hsame; exact Hl|]. split; [intros; apply Hsame|].
    split; [exact Fa|]. split; reflexivity.
Qed.

Lemma existsb_filter_out {A : Type} (p : A -> bool) (l : list A) :
  existsb p (List.filter (fun x => negb (p x)) l) = false.
Proof.
  induction l as [|a r IH]; cbn; [reflexivity|].
  destruct (p a) eqn:E; cbn; rewrite ?E, ?IH; reflexivity.
Qed.

Lemma accepted_ext (c c' : Config) (session : Session)
    (platform projectId : jsval) (pk : Platform) :
  cfg_adminAuthority c' = cfg_adminAuthority c ->
  accepted c session platform projectId pk ->
  accepted c' session platform projectId pk.
Proof.
  intros E (A1 & A2 & A3 & A4 & A5). repeat split; try assumption.
  rewrite <- A4. apply requireManage_ext. exact E.
Qed.

(** X15. An accepted [notify.remove] drops from the channel's list every
    entry of the pair (platform normalized, project id trimmed) and keeps
    the others in their order; the lists of the other channels stay as they
    are.  When an entry was dropped it answers "removed" and saves, and a
    second call answers "not found"; when there was none it answers "not
    found", writes nothing and logs nothing. *)
Theorem remove_drops_every_match (env : Env) (session : Session)
    (platform projectId : jsval) (w : World) (pk : Platform) :
  let w0 := loadConfigFromFile env w in
  let ch := ses_channelId session in
  let pid := trim (ToString projectId) in
  accepted (config w0) session platform projectId pk ->
  let l := channel_subs ch (config w0) in
  let r := notify_remove env session platform projectId w in
  channel_subs ch (config r.2)
  = List.filter (fun s => negb (same_subscription pk pid s)) l
  /\ (forall ch', ToString ch' <> ToString ch ->
        channel_subs ch' (config r.2) = channel_subs ch' (config w0))
  /\ (existsb (same_subscription pk pid) l = true ->
      r.1 = Removed pk pid
      /\ (diskWritable env = true ->
          configFile r.2 = Document (config_document (config r.2)))
      /\ (notify_remove env session platform projectId r.2).1 = NotFound)
  /\ (existsb (same_subscription pk pid) l = false ->
      r.1 = NotFound
      /\ channel_subs ch (config r.2) = l
      /\ configFile r.2 = configFile w0
      /\ trace r.2 = trace w0).
Proof.
  intros w0 ch pid Hacc l r.
  destruct (notify_remove_accepted env session platform projectId w pk Hacc)
    as (c2 & Hk & Hother & Hadm & _ & E).
  fold w0 ch pid l r in Hk, Hother, Hadm, E.
  assert (Hc : config r.2 = c2).
  { rewrite E. destruct (existsb _ l); cbn [snd];
      rewrite ?(proj2 (saveConfigToFile_step env _)); reflexivity. }
  rewrite Hc. split; [exact Hk|]. split; [exact Hother|]. split.
  - intros Hex. rewrite Hex in E. split; [rewrite E; reflexivity|]. split.
    + intros Hd. rewrite E. cbn [snd]. unfold saveConfigToFile. rewrite Hd.
      reflexivity.
    + assert (Hload : loadConfigFromFile env r.2 = r.2).
      { apply loadConfigFromFile_loaded. rewrite E. cbn [snd].
        rewrite saveConfigToFile_loaded. cbn.
        apply loadConfigFromFile_sets_loaded. }
      assert (Hacc2 : accepted (config (loadConfigFromFile env r.2)) session
                        platform projectId pk).
      { rewrite Hload, Hc. apply (accepted_ext (config w0)); assumption. }
      destruct (notify_remove_accepted env session platform projectId r.2 pk
                  Hacc2) as (c3 & _ & _ & _ & _ & ->).
      rewrite Hload, Hc. fold ch pid. rewrite Hk, existsb_filter_out.
      reflexivity.
  - intros Hex. rewrite Hex in E. split; [rewrite E; reflexivity|].
    split; [rewrite Hk; apply filter_none, Hex|].
    rewrite E. split; reflexivity.
Qed.

(** X16. Adding a new pair and then removing it leaves every channel with
    the list it had. *)
Theorem add_then_remove_restores_lists (env : Env) (session : Session)
    (platform projectId : jsval) (w : World) (pk : Platform) :
  let w0 := loadConfigFromFile env w in
  let ch := ses_channelId session in
  let pid := trim (ToString projectId) in
  accepted (config w0) session platform projectId pk ->
  existsb (same_subscription pk pid) (channel_subs ch (config w0)) = false ->
  let r1 := notify_add env session platform projectId w in
  let r2 := notify_remove env session platform projectId r1.2 in
  r1.1 = Added pk pid
  /\ r2.1 = Removed pk pid
  /\ forall ch', channel_subs ch' (config r2.2) = channel_subs ch' (config w0).
Proof.
  intros w0 ch pid Hacc Hex r1 r2.
  destruct (notify_add_fresh env session platform projectId w pk Hacc Hex)
    as ((c1 & E1) & Hsub & Hother & Hadm & Hload).
  fold w0 ch pid r1 in E1, Hsub, Hother, Hadm, Hload.
  assert (Hacc2 : accepted (config (loadConfigFromFile env r1.2)) session
                    platform projectId pk).
  { rewrite Hload. apply (accepted_ext (config w0)); assumption. }
  destruct (notify_remove_accepted env session platform projectId r1.2 pk
              Hacc2) as (c2 & Hk & Hother2 & _ & _ & E2).
  rewrite Hload in Hk, Hother2, E2. fold ch pid r2 in Hk, Hother2, E2.
  rewrite Hsub in Hk, E2.
  rewrite existsb_app in E2. cbn [existsb] in E2.
  assert (Hsame : same_subscription pk pid (added_entry (config w0) pk pid)
                  = true)
    by (subst pid; apply same_subscription_added, Hacc).
  rewrite Hsame, orb_true_r in E2.
  rewrite List.filter_app in Hk. cbn [List.filter] in Hk.
  rewrite Hsame in Hk. cbn [negb] in Hk.
  rewrite filter_none, app_nil_r in Hk by exact Hex.
  assert (Hc : config r2.2 = c2).
  { rewrite E2. cbn [snd]. apply saveConfigToFile_step. }
  split; [rewrite E1; reflexivity|]. split; [rewrite E2; reflexivity|].
  intros ch'. rewrite Hc.
  destruct (decide (ToString ch' = ToString ch)) as [Heq|Hne].
  - rewrite !(channel_subs_ToString ch ch') by exact Heq. exact Hk.
  - rewrite Hother2, Hother by exact Hne. reflexivity.
Qed.

End Editing.

(** ** What the editing commands leave alone *)

Section Untouched.

Context `{!EcmaConv}.

Lemma config_step_trans (a b c : World) :
  config_step a b -> config_step b c -> config_step a c.
Proof.
  unfold config_step.
  intros (A1 & A2 & A3 & A4 & A5 & A6 & A7 & A8)
         (B1 & B2 & B3 & B4 & B5 & B6 & B7 & B8).
  repeat split; congruence.
Qed.

Lemma config_step_saved (env : Env) (c : Config) (w0 w : World) :
  config_step w w0 ->
  config_step w (saveConfigToFile env (set_config c w0)).
Proof.
  intros Hs. eapply config_step_trans; [exact Hs|].
  eapply config_step_trans; [apply (set_config_step c)|].
  apply saveConfigToFile_step.
Qed.

Lemma config_step_set (c : Config) (w0 w : World) :
  config_step w w0 -> config_step w (set_config c w0).
Proof.
  intros Hs. eapply config_step_trans; [exact Hs | apply set_config_step].
Qed.

(** X17. [notify.add], [notify.remove], [notify.enable] and [notify.list]
    only touch the configuration: whatever their arguments and outcome,
    they leave the recorded versions (cache and state file), the check
    timestamps and the clock as they are, and they neither fetch nor
    notify.  In particular removing a subscription does not forget the
    version recorded for it. *)
Theorem editing_leaves_version_state (env : Env) (session : Session)
    (platform projectId onoff : jsval) (w : World) :
  let after_add := (notify_add env session platform projectId w).2 in
  let after_remove := (notify_remove env session platform projectId w).2 in
  let after_enable := (notify_enable env session onoff w).2 in
  let after_list := (notify_list env session w).2 in
  Forall (fun w' => config_step w w' /\ persisted w' = persisted w)
         [after_add; after_remove; after_enable; after_list].
Proof.
  cbv zeta.
  pose proof (loadConfigFromFile_step env w) as Hs.
  assert (Hall : forall w', config_step w w' ->
                   config_step w w' /\ persisted w' = persisted w).
  { intros w' Hw. split; [exact Hw | apply config_step_persisted, Hw]. }
  repeat apply Forall_cons_2; [| | | |apply Forall_nil_2]; apply Hall.
  - unfold notify_add.
    destruct (negb (truthy platform) || negb (truthy projectId)); [exact Hs|].
    destruct (normalizePlatform platform); [|exact Hs].
    destruct (negb (truthy (ses_channelId session))); [exact Hs|].
    destruct (negb (requireManage _ session)); [exact Hs|].
    destruct (String.eqb _ ""); [exact Hs|].
    destruct (ensureGroup _ _) as [i c].
    destruct (existsb _ _); cbn [snd];
      [apply config_step_set | apply config_step_saved]; exact Hs.
  - unfold notify_remove.
    destruct (negb (truthy platform) || negb (truthy projectId)); [exact Hs|].
    destruct (normalizePlatform platform); [|exact Hs].
    destruct (negb (truthy (ses_channelId session))); [exact Hs|].
    destruct (negb (requireManage _ session)); [exact Hs|].
    destruct (String.eqb _ ""); [exact Hs|].
    destruct (getConfigGroups _) as [groups c].
    destruct (find_index _ groups) as [i|];
      [|apply config_step_set; exact Hs].
    destruct (groups !! i ≫= grp_subs) as [[|s subs]|];
      try (apply config_step_set; exact Hs).
    destruct (_ =? _)%nat; cbn [snd];
      [apply config_step_set | apply config_step_saved]; exact Hs.
  - unfold notify_enable.
    destruct (negb (truthy (ses_channelId session))); [exact Hs|].
    destruct (negb (requireManage _ session)); [exact Hs|].
    destruct (parseOnOff onoff); [|exact Hs].
    destruct (ensureGroup _ _) as [i c]. cbn [snd].
    apply config_step_saved, Hs.
  - unfold notify_list.
    destruct (negb (truthy (ses_channelId session))); [exact Hs|].
    destruct (negb (requireManage _ session)); [exact Hs|].
    destruct (getGroup _ _) as [[g|] c]; [|apply config_step_set, Hs].
    destruct (default [] (grp_subs g)); apply config_step_set, Hs.
Qed.

Local Ltac in_list :=
  repeat first [apply list_elem_of_here | apply list_elem_of_further].

(** X18. A command from a sender who may not manage, or from outside a
    channel, does nothing beyond the initial load of the configuration:
    it is rejected, and the configuration, the files, the recorded
    versions and the log are those of the load. *)
Theorem rejected_commands_change_nothing (env : Env) (session : Session)
    (platform projectId onoff arg : jsval) (broadcast : bool) (w : World) :
  let w0 := loadConfigFromFile env w in
  truthy (ses_channelId session) = false
  \/ requireManage (config w0) session = false ->
  (exists r, notify_add env session platform projectId w = (r, w0)
             /\ r ∈ [MissingArguments; BadPlatform; ChannelRequired;
                     PermissionDenied])
  /\ (exists r, notify_remove env session platform projectId w
                = (Rejected r, w0)
                /\ r ∈ [MissingArguments; BadPlatform; ChannelRequired;
                        PermissionDenied])
  /\ (exists r, notify_enable env session onoff w = (Rejected r, w0)
                /\ r ∈ [ChannelRequired; PermissionDenied])
  /\ (exists r, notify_list env session w = (Rejected r, w0)
                /\ r ∈ [ChannelRequired; PermissionDenied])
  /\ (exists r, notify_check env session arg broadcast w = (r, w0)
                /\ r ∈ [ChannelRequired; PermissionDenied]).
Proof.
  intros w0 Hrej.
  assert (Hgate : negb (truthy (ses_channelId session)) = true
                  \/ negb (truthy (ses_channelId session)) = false
                     /\ negb (requireManage (config w0) session) = true).
  { destruct (truthy (ses_channelId session)); [|auto].
    destruct Hrej as [?| ->]; [discriminate | auto]. }
  clear Hrej.
  unfold notify_add, notify_remove, notify_enable, notify_list, notify_check.
  fold w0.
  split; [|split; [|split; [|split]]].
  - destruct (negb (truthy platform) || negb (truthy projectId));
      [eexists; split; [reflexivity | in_list]|].
    destruct (normalizePlatform platform);
      [|eexists; split; [reflexivity | in_list]].
    destruct Hgate as [-> | (-> & ->)];
      eexists; (split; [reflexivity | in_list]).
  - destruct (negb (truthy platform) || negb (truthy projectId));
      [eexists; split; [reflexivity | in_list]|].
    destruct (normalizePlatform platform);
      [|eexists; split; [reflexivity | in_list]].
    destruct Hgate as [-> | (-> & ->)];
      eexists; (split; [reflexivity | in_list]).
  - destruct Hgate as [-> | (-> & ->)];
      eexists; (split; [reflexivity | in_list]).
  - destruct Hgate as [-> | (-> & ->)];
      eexists; (split; [reflexivity | in_list]).
  - destruct Hgate as [-> | (-> & ->)];
      eexists; (split; [reflexivity | in_list]).
Qed.

End Untouched.

(** ** One group per channel *)

Section OneGroup.

Context `{!EcmaConv}.

Lemma same_channel_Str (s : string) (g : Group) (t : string) :
  grp_channelId g = Str t ->
  same_channel (Str s) g = strict_eq (grp_channelId g) (Str s)
  /\ (same_channel (Str s) g = true <-> t = s).
Proof.
  intros E. unfold same_channel. rewrite E. cbn. split; [reflexivity|].
  apply String.eqb_eq.
Qed.

Lemma not_visited (ch : jsval) (c : Config) (g : Group) :
  strict_eq (grp_channelId g) ch = false -> truthy ch = true ->
  group_entries ch c g = [].
Proof.
  intros E T. unfold group_entries, visited. rewrite E, T.
  rewrite andb_false_r. reflexivity.
Qed.

(** With one group per channel, the subscriptions enumerated for a channel
    are those of the group [getGroup] finds. *)
Lemma enumerated_single (s : string) (c : Config) (gs : list Group) :
  distinct_channels gs -> s <> "" ->
  flat_map (group_entries (Str s) c) gs
  = match find (same_channel (Str s)) gs with
    | Some g => group_entries (Str s) c g
    | None => []
    end.
Proof.
  intros (Hstr & Hnd) Hs.
  assert (T : truthy (Str s) = true) by (apply truthy_Str, Hs).
  induction gs as [|g r IH]; [reflexivity|].
  apply Forall_cons in Hstr as ((t & Ht) & Hstr).
  cbn [map] in Hnd. apply NoDup_cons in Hnd as (Hnin & Hnd).
  cbn [flat_map find].
  destruct (same_channel_Str s g t Ht) as (E1 & E2).
  destruct (same_channel (Str s) g) eqn:Eg.
  - assert (Hrest : flat_map (group_entries (Str s) c) r = []).
    { clear IH. assert (t = s) by (apply E2; reflexivity). subst t.
      induction r as [|g' r' IH']; [reflexivity|].
      apply Forall_cons in Hstr as ((t' & Ht') & Hstr).
      cbn [map] in Hnd, Hnin. apply NoDup_cons in Hnd as (_ & Hnd).
      apply not_elem_of_cons in Hnin as (Hne & Hnin).
      cbn [flat_map]. rewrite (IH' Hstr Hnin Hnd), app_nil_r.
      apply not_visited; [|exact T].
      rewrite Ht'. cbn. apply String.eqb_neq. intros ->. apply Hne.
      rewrite Ht, Ht'. reflexivity. }
    rewrite Hrest, app_nil_r. reflexivity.
  - rewrite not_visited by (symmetry in E1; assumption).
    apply IH; assumption.
Qed.

Lemma find_same_channel_Str (s : string) (gs : list Group) (g : Group) :
  Forall (fun g => exists t, grp_channelId g = Str t) gs ->
  find (same_channel (Str s)) gs = Some g -> grp_channelId g = Str s.
Proof.
  intros Hstr Hf. apply find_some in Hf as (Hin & Hp).
  rewrite Forall_forall in Hstr.
  destruct (Hstr g) as (t & Ht); [apply list_elem_of_In, Hin|].
  apply (same_channel_Str s g t Ht) in Hp. congruence.
Qed.

Lemma distinct_channels_alter (f : Group -> Group) (i : nat)
    (gs : list Group) :
  (forall x, grp_channelId (f x) = grp_channelId x) ->
  distinct_channels gs -> distinct_channels (alter f i gs).
Proof.
  intros Hf (H1 & H2). split.
  - apply Forall_alter; [exact H1|]. intros x _ Hx. rewrite Hf. exact Hx.
  - assert (E : map grp_channelId (alter f i gs) = map grp_channelId gs).
    { clear H1 H2. revert i. induction gs as [|a r IH]; intros [|i]; cbn;
        rewrite ?Hf, ?IH; reflexivity. }
    rewrite E. exact H2.
Qed.

(** [ensureGroup] keeps one group per channel. *)
Lemma ensureGroup_distinct (s : string) (c : Config) :
  distinct_channels (default [] (cfg_groups c)) ->
  distinct_channels (default [] (cfg_groups (ensureGroup (Str s) c).2)).
Proof.
  intros Hd.
  destruct (ensureGroup_cases (Str s) c) as [(i & Ei & ->) | (En & ->)];
    cbn [snd]; change (default [] (cfg_groups (with_groups ?l ?d))) with l.
  - apply distinct_channels_alter; [reflexivity | exact Hd].
  - destruct Hd as (H1 & H2). split.
    + apply Forall_app. split; [exact H1|].
      apply Forall_singleton. eexists. reflexivity.
    + rewrite map_app. apply NoDup_app. split; [exact H2|]. split.
      * intros x Hx Hx'. cbn in Hx'. apply list_elem_of_singleton in Hx'.
        subst x. apply list_elem_of_fmap in Hx as (g & Hg & Hin).
        apply find_index_None in En.
        apply list_elem_of_In in Hin.
        apply (find_none _ _ En) in Hin.
        unfold same_channel in Hin. rewrite <- Hg in Hin. cbn in Hin.
        rewrite String.eqb_refl in Hin. discriminate.
      * cbn. apply NoDup_singleton.
Qed.

End OneGroup.

(** ** Switching a channel on and off *)

Section Enable.

Context `{!EcmaConv}.

Lemma entry_of_group (c c' : Config) (g g' : Group) (e : StoredSub) :
  cfg_interval c = cfg_interval c' ->
  grp_channelId g = grp_channelId g' ->
  entry_of c g e = entry_of c' g' e.
Proof. intros E1 E2. unfold entry_of. rewrite E1, E2. reflexivity. Qed.

Lemma notify_enable_switch (env : Env) (session : Session) (onoff : jsval)
    (w : World) (flag : bool) :
  let w0 := loadConfigFromFile env w in
  let ch := ses_channelId session in
  truthy ch = true -> requireManage (config w0) session = true ->
  parseOnOff onoff = Some flag ->
  exists gs g i,
    let c1 := with_groups gs (groups_made_array (config w0)) in
    ensureGroup ch (config w0) = (i, c1)
    /\ find_index (same_channel ch) gs = Some i
    /\ gs !! i = Some g
    /\ grp_subs g = Some (channel_subs ch (config w0))
    /\ notify_enable env session onoff w
       = ((if flag then SwitchedOn else SwitchedOff),
          saveConfigToFile env
            (set_config (with_groups (alter (with_flag flag) i gs) c1) w0)).
Proof.
  intros w0 ch Hch Hman Hflag. unfold notify_enable. fold w0 ch.
  rewrite Hch, Hman, Hflag. cbn [negb].
  destruct (ensureGroup_found ch (config w0))
    as (gs & g & Ec & Hi & Hl & Hs & _).
  destruct (ensureGroup ch (config w0)) as [i c1] eqn:Ee.
  cbn [fst snd] in *. subst c1. exists gs, g, i. cbv zeta.
  repeat split; assumption || reflexivity.
Qed.

(** X19. [notify.enable] in a configuration with one group per channel.
    A word that is neither on nor off changes nothing.  Otherwise the
    command keeps every channel's list; after "off" no subscription is
    enumerated for the channel and a manual check answers "no
    subscriptions"; after "on" every valid entry of the channel's list is
    enumerated. *)
Theorem enable_switches_the_channel (env : Env) (session : Session)
    (onoff : jsval) (w : World) (s : string) :
  let w0 := loadConfigFromFile env w in
  ses_channelId session = Str s -> s <> "" ->
  requireManage (config w0) session = true ->
  distinct_channels (default [] (cfg_groups (config w0))) ->
  let r := notify_enable env session onoff w in
  (parseOnOff onoff = None -> r = (BadOnOff, w0))
  /\ forall flag, parseOnOff onoff = Some flag ->
       r.1 = (if flag then SwitchedOn else SwitchedOff)
       /\ (forall ch',
             channel_subs ch' (config r.2) = channel_subs ch' (config w0))
       /\ (getConfigSubs (Str s) (config r.2)).1
          = (if flag
             then omap (entry_of (config w0) (fresh_group (Str s)))
                       (channel_subs (Str s) (config w0))
             else [])
       /\ (flag = false -> forall arg broadcast,
             (notify_check env session arg broadcast r.2).1
             = NoSubscriptions).
Proof.
  intros w0 Hstr Hs Hman Hd r.
  assert (Hch : truthy (ses_channelId session) = true)
    by (rewrite Hstr; apply truthy_Str, Hs).
  split.
  { intros Hnone. subst r. unfold notify_enable. fold w0.
    rewrite Hch, Hman, Hnone. reflexivity. }
  intros flag Hflag.
  destruct (notify_enable_switch env session onoff w flag Hch Hman Hflag)
    as (gs & g & i & Ee & Hi & Hl & Hsubs & E).
  fold w0 r in Ee, Hi, Hl, Hsubs, E. rewrite Hstr in Ee, Hi, Hsubs.
  set (c1 := with_groups gs (groups_made_array (config w0))) in *.
  set (gs' := alter (with_flag flag) i gs) in *.
  assert (Hc : config r.2 = with_groups gs' c1).
  { rewrite E. cbn [snd]. apply saveConfigToFile_step. }
  assert (Hdist : distinct_channels gs').
  { apply distinct_channels_alter; [reflexivity|].
    pose proof (ensureGroup_distinct s (config w0) Hd) as Hd1.
    rewrite Ee in Hd1. exact Hd1. }
  destruct (find_alter _ (with_flag flag) _ _ Hi (fun x => eq_refl))
    as (Hf' & _).
  destruct (find_index_Some _ _ _ Hi) as (g' & Hg' & Hfind & _).
  assert (g' = g) by congruence. subst g'. clear Hg'.
  rewrite Hfind in Hf'. cbn [fmap option_fmap option_map] in Hf'.
  fold gs' in Hf'.
  assert (Hid : grp_channelId g = Str s).
  { pose proof (ensureGroup_distinct s (config w0) Hd) as (Hd1 & _).
    rewrite Ee in Hd1. apply (find_same_channel_Str s gs g Hd1 Hfind). }
  assert (Henum : (getConfigSubs (Str s) (config r.2)).1
                  = if flag
                    then omap (entry_of (config w0) (fresh_group (Str s)))
                              (channel_subs (Str s) (config w0))
                    else []).
  { rewrite getConfigSubs_entries, Hc.
    change (default [] (cfg_groups (with_groups gs' c1))) with gs'.
    rewrite enumerated_single, Hf' by assumption.
    unfold group_entries, visited. cbn [with_flag grp_channelId grp_enabled].
    rewrite Hid. cbn [truthy strict_eq]. rewrite String.eqb_refl.
    apply String.eqb_neq in Hs. rewrite Hs.
    destruct flag; cbn; [|reflexivity].
    rewrite Hsubs. cbn.
    apply list_omap_ext, Forall2_same_length_lookup_2; [reflexivity|].
    intros k x y Hx Hy. rewrite Hx in Hy. injection Hy as <-.
    apply entry_of_group; [|exact Hid].
    cbn. apply cfg_interval_made_array. }
  split; [rewrite E; reflexivity|]. split; [|split; [exact Henum|]].
  - intros ch'. rewrite Hc, channel_subs_with_groups.
    rewrite <- (ensureGroup_channel_subs (Str s) ch' (config w0)), Ee.
    cbn [snd]. subst c1. rewrite channel_subs_with_groups.
    pose proof (find_alter_cases (same_channel ch') (with_flag flag) gs i
                  (fun x => eq_refl)) as HC. fold gs' in HC.
    destruct (find (same_channel ch') gs) as [x|];
      [|rewrite HC; reflexivity].
    destruct HC as [-> | (_ & ->)]; reflexivity.
  - intros -> arg broadcast. unfold notify_check.
    assert (Hload : loadConfigFromFile env r.2 = r.2).
    { apply loadConfigFromFile_loaded. rewrite E. cbn [snd].
      rewrite saveConfigToFile_loaded. cbn.
      apply loadConfigFromFile_sets_loaded. }
    rewrite Hload, Hch.
    assert (Hman2 : requireManage (config r.2) session = true).
    { rewrite <- Hman. apply requireManage_ext. rewrite Hc. cbn.
      apply groups_made_array_frame. }
    rewrite Hman2. cbn [negb]. rewrite Hstr.
    destruct (getConfigSubsOrdered_unfold (Str s) (config r.2)) as (El & _).
    rewrite <- getConfigSubs_entries, Henum in El.
    destruct (getConfigSubsOrdered (Str s) (config r.2)) as [list c'].
    cbn [fst] in El. subst list. reflexivity.
Qed.

End Enable.

(** ** The manual check command *)

Section ManualCheck.

Context `{!EcmaConv}.

Lemma check_targets_effect (env : Env) (broadcast : bool)
    (targets : list Sub) (w : World) :
  let r := check_targets env broadcast targets w in
  lastCheckMap r.2 = lastCheckMap w
  /\ fetches (trace r.2) = fetches (trace w) ++ map fetch_of targets
  /\ notifications (trace r.2) = (notifications (trace w) + r.1)%nat.
Proof.
  revert w. induction targets as [|sub rest IH]; intros w; cbn zeta.
  - cbn. rewrite app_nil_r. auto.
  - cbn [check_targets map].
    destruct (checkOne_effect env sub broadcast w)
      as (L & F & Hnone & N & Hth & _).
    destruct (checkOne env sub broadcast w) as [[res|] w1]; cbn [fst snd] in *.
    + destruct (IH w1) as (L2 & F2 & N2).
      destruct (check_targets env broadcast rest w1) as [n w2].
      cbn [fst snd] in *. rewrite L2, F2, N2, L, F, (N res eq_refl).
      rewrite <- app_assoc. repeat split.
      destruct (sent res); lia.
    + destruct (IH (emit (EvWarn (CheckFailed (platform sub) (projectId sub)))
                      w1)) as (L2 & F2 & N2).
      rewrite L2, F2, N2. cbn [emit lastCheckMap trace].
      rewrite fetches_app, notifications_app, L, F.
      unfold fetches at 2, notifications at 2. cbn.
      rewrite app_nil_r, <- app_assoc.
      destruct (Hth (or_introl (proj1 Hnone eq_refl))) as (_ & _ & ->).
      repeat split. lia.
Qed.

(** [notify.check] for a sender who may manage, in a channel. *)
Lemma notify_check_permitted (env : Env) (session : Session) (arg : jsval)
    (broadcast : bool) (w : World) :
  let w0 := loadConfigFromFile env w in
  let ch := ses_channelId session in
  truthy ch = true -> requireManage (config w0) session = true ->
  let list := (getConfigSubs ch (config w0)).1 in
  let w1 := set_config (groups_made_array (config w0)) w0 in
  notify_check env session arg broadcast w
  = match list with
    | [] => (NoSubscriptions, w1)
    | _ =>
        match (if truthy arg then
                 let idx := ToNumber arg in
                 if isFinite idx && num_lt (Fin 0) idx then
                   match js_index list (num_sub idx (Fin 1)) with
                   | Some sub => inr [sub]
                   | None => inl NoSuchIndex
                   end
                 else
                   match find (fun s => String.eqb (projectId s)
                                          (ToString arg)) list with
                   | Some sub => inr [sub]
                   | None => inl NoSuchProject
                   end
               else inr list) with
        | inl reply => (reply, w1)
        | inr targets =>
            ((if ((check_targets env broadcast targets w1).1 =? 0)%nat
              then NoUpdate else Silent),
             (check_targets env broadcast targets w1).2)
        end
    end.
Proof.
  intros w0 ch Hch Hman list w1. unfold notify_check. fold w0 ch.
  rewrite Hch, Hman. cbn [negb].
  destruct (getConfigSubsOrdered_unfold ch (config w0)) as (El & Ec).
  rewrite <- getConfigSubs_entries in El. fold list in El.
  destruct (getConfigSubsOrdered ch (config w0)) as [l c].
  cbn [fst snd] in El, Ec. subst l c. fold w1.
  destruct list as [|s0 rest]; [reflexivity|].
  destruct (if truthy arg then _ else _) as [reply|targets]; [reflexivity|].
  destruct (check_targets env broadcast targets w1); reflexivity.
Qed.

Lemma fetches_set_config (c : Config) (w : World) :
  fetches (trace (set_config c w)) = fetches (trace w)
  /\ notifications (trace (set_config c w)) = notifications (trace w)
  /\ lastCheckMap (set_config c w) = lastCheckMap w.
Proof. auto. Qed.

(** What [notify.check] does with a numeric argument. *)
Lemma notify_check_index (env : Env) (session : Session) (arg : jsval)
    (broadcast : bool) (w : World) (n : Z) :
  let w0 := loadConfigFromFile env w in
  let ch := ses_channelId session in
  truthy ch = true -> requireManage (config w0) session = true ->
  truthy arg = true -> ToNumber arg = Fin n -> 0 < n ->
  let list := (getConfigSubs ch (config w0)).1 in
  let r := notify_check env session arg broadcast w in
  match list !! Z.to_nat (n - 1) with
  | Some sub =>
      (r.1 = NoUpdate \/ r.1 = Silent)
      /\ fetches (trace r.2) = fetches (trace w) ++ [fetch_of sub]
  | None =>
      (r.1 = NoSuchIndex \/ r.1 = NoSubscriptions)
      /\ fetches (trace r.2) = fetches (trace w)
      /\ notifications (trace r.2) = notifications (trace w)
  end.
Proof.
  intros w0 ch Hch Hman Harg Hnum Hpos list r. subst r.
  rewrite notify_check_permitted by assumption. fold w0 ch list.
  destruct (loadConfigFromFile_step env w)
    as (_ & _ & _ & _ & _ & _ & N0 & F0).
  fold w0 in N0, F0.
  rewrite Harg, Hnum. cbn [isFinite num_lt andb num_sub js_index].
  assert (Hp : (0 <? n) = true) by (apply Z.ltb_lt; lia).
  assert (Hq : (0 <=? n - 1) = true) by (apply Z.leb_le; lia).
  rewrite Hp, Hq.
  destruct list as [|s0 rest] eqn:El.
  - rewrite lookup_nil. cbn [fst snd]. auto.
  - rewrite <- El. clear El.
    destruct (list !! Z.to_nat (n - 1)) as [sub|]; cbn [fst snd].
    + destruct (check_targets_effect env broadcast [sub]
                  (set_config (groups_made_array (config w0)) w0))
        as (_ & F & _).
      rewrite F. cbn [map]. split; [|rewrite <- F0; reflexivity].
      destruct (_ =? _)%nat; auto.
    + auto.
Qed.

(** X20. A numeric argument of [notify.check] is always a position in the
    channel's list, never a project id: when [Number(arg)] is a positive
    integer [n], the subscription at position [n] is the one checked, and
    when the list is shorter the command answers "no such index" without
    any request, even if a subscription of the channel has that number as
    its project id. *)
Theorem numeric_argument_is_a_position (env : Env) (session : Session)
    (arg : jsval) (broadcast : bool) (w : World) (n : Z) :
  let w0 := loadConfigFromFile env w in
  let ch := ses_channelId session in
  truthy ch = true -> requireManage (config w0) session = true ->
  truthy arg = true -> ToNumber arg = Fin n -> 0 < n ->
  let list := (getConfigSubs ch (config w0)).1 in
  let r := notify_check env session arg broadcast w in
  (forall sub, list !! Z.to_nat (n - 1) = Some sub ->
     (r.1 = NoUpdate \/ r.1 = Silent)
     /\ fetches (trace r.2) = fetches (trace w) ++ [fetch_of sub])
  /\ (Z.of_nat (length list) < n ->
      (r.1 = NoSuchIndex \/ r.1 = NoSubscriptions)
      /\ (list <> [] -> r.1 = NoSuchIndex)
      /\ fetches (trace r.2) = fetches (trace w)
      /\ notifications (trace r.2) = notifications (trace w)).
Proof.
  intros w0 ch Hch Hman Harg Hnum Hpos list r.
  pose proof (notify_check_index env session arg broadcast w n Hch Hman Harg
                Hnum Hpos) as HI.
  cbv zeta in HI. fold w0 ch list r in HI. split.
  - intros sub Hsub. rewrite Hsub in HI. exact HI.
  - intros Hlen.
    assert (Hnone : list !! Z.to_nat (n - 1) = None).
    { apply lookup_ge_None. lia. }
    rewrite Hnone in HI. destruct HI as (H1 & H2 & H3).
    repeat split; try assumption.
    intros Hne. destruct H1 as [H1|H1]; [exact H1|]. exfalso.
    subst r. rewrite notify_check_permitted in H1 by assumption.
    fold w0 ch list in H1. destruct list as [|s0 rest]; [congruence|].
    destruct (if truthy arg then _ else _) as [reply|targets] eqn:Et.
    + rewrite Harg, Hnum in Et.
      cbn [isFinite num_lt andb num_sub js_index] in Et.
      assert (Hp : (0 <? n) = true) by (apply Z.ltb_lt; lia).
      assert (Hq : (0 <=? n - 1) = true) by (apply Z.leb_le; lia).
      rewrite Hp, Hq, Hnone in Et. injection Et as <-. discriminate.
    + cbn [fst] in H1. destruct (_ =? _)%nat; discriminate.
Qed.

(** X21. [notify.check] stays outside the schedule and reports what it
    did: it never touches the check timestamps; it answers "no update"
    exactly when it sent no notification; without an argument it requests
    every subscription enumerated for the channel once, in order; and
    whenever it answers anything but "no update" or nothing, it made no
    request at all. *)
Theorem manual_check_command (env : Env) (session : Session) (arg : jsval)
    (broadcast : bool) (w : World) :
  let w0 := loadConfigFromFile env w in
  let ch := ses_channelId session in
  truthy ch = true -> requireManage (config w0) session = true ->
  let list := (getConfigSubs ch (config w0)).1 in
  let r := notify_check env session arg broadcast w in
  lastCheckMap r.2 = lastCheckMap w
  /\ (r.1 = NoUpdate ->
      notifications (trace r.2) = notifications (trace w))
  /\ (r.1 = Silent ->
      (notifications (trace w) < notifications (trace r.2))%nat)
  /\ (r.1 <> NoUpdate -> r.1 <> Silent ->
      fetches (trace r.2) = fetches (trace w)
      /\ notifications (trace r.2) = notifications (trace w))
  /\ (truthy arg = false -> list <> [] ->
      fetches (trace r.2) = fetches (trace w) ++ map fetch_of list).
Proof.
  intros w0 ch Hch Hman list r. subst r.
  rewrite notify_check_permitted by assumption. fold w0 ch list.
  destruct (loadConfigFromFile_step env w)
    as (_ & _ & _ & _ & L0 & _ & N0 & F0).
  fold w0 in L0, N0, F0.
  set (w1 := set_config (groups_made_array (config w0)) w0).
  set (P := fun r : Reply * World =>
    lastCheckMap r.2 = lastCheckMap w
    /\ (r.1 = NoUpdate ->
        notifications (trace r.2) = notifications (trace w))
    /\ (r.1 = Silent ->
        (notifications (trace w) < notifications (trace r.2))%nat)
    /\ (r.1 <> NoUpdate -> r.1 <> Silent ->
        fetches (trace r.2) = fetches (trace w)
        /\ notifications (trace r.2) = notifications (trace w))).
  assert (Hquiet : forall reply,
            reply <> NoUpdate -> reply <> Silent -> P (reply, w1)).
  { intros reply H1 H2. unfold P. cbn [fst snd]. subst w1.
    cbn [set_config lastCheckMap trace].
    split; [exact L0|]. split; [intros; contradiction|].
    split; [intros; contradiction|]. intros _ _. auto. }
  assert (Hrun : forall targets,
            P ((if ((check_targets env broadcast targets w1).1 =? 0)%nat
                then NoUpdate else Silent),
               (check_targets env broadcast targets w1).2)
            /\ fetches (trace (check_targets env broadcast targets w1).2)
               = fetches (trace w) ++ map fetch_of targets).
  { intros targets. unfold P. cbn [fst snd].
    destruct (check_targets_effect env broadcast targets w1) as (L & F & N).
    rewrite L, F, N. subst w1. cbn [set_config lastCheckMap trace].
    rewrite L0, N0, F0.
    destruct (Nat.eqb_spec (check_targets env broadcast targets
                              (set_config (groups_made_array (config w0)) w0)).1
                0) as [-> | Hn].
    - split; [|reflexivity]. split; [reflexivity|].
      split; [intros _; lia|]. split; [intros; discriminate|].
      intros Hc. contradiction.
    - split; [|reflexivity]. split; [reflexivity|].
      split; [intros; discriminate|]. split; [intros _; lia|].
      intros _ Hc. contradiction. }
  match goal with
  | |- lastCheckMap (?X).2 = _ /\ _ =>
      cut (P X /\ (truthy arg = false -> list <> [] ->
                   fetches (trace X.2)
                   = fetches (trace w) ++ map fetch_of list));
        [intros ((A & B & C & D) & E);
         exact (conj A (conj B (conj C (conj D E))))|]
  end.
  destruct list as [|s0 rest] eqn:El.
  { split; [apply Hquiet; discriminate|]. intros _ Hne. congruence. }
  rewrite <- El. clear El.
  destruct (truthy arg) eqn:Harg.
  - split; [|intros; discriminate]. cbv zeta.
    destruct (isFinite (ToNumber arg) && num_lt (Fin 0) (ToNumber arg)).
    + destruct (js_index _ _); [apply Hrun | apply Hquiet; discriminate].
    + destruct (find _ _); [apply Hrun | apply Hquiet; discriminate].
  - destruct (Hrun list) as (HP & F). split; [exact HP|].
    intros _ _. exact F.
Qed.

End ManualCheck.

(** ** The listing and the positions *)

Section Listing.

Context `{!EcmaConv}.

Lemma omap_all_Some {A B : Type} (f : A -> option B) (l : list A) :
  Forall (fun x => is_Some (f x)) l ->
  length (omap f l) = length l
  /\ forall k x, l !! k = Some x ->
       exists y, f x = Some y /\ omap f l !! k = Some y.
Proof.
  induction l as [|a r IH]; intros HF.
  - split; [reflexivity|]. intros k x Hk. discriminate.
  - apply Forall_cons in HF as ((y & Hy) & HF).
    destruct (IH HF) as (IH1 & IH2). cbn. rewrite Hy. cbn.
    split; [f_equal; exact IH1|].
    intros [|k] x Hk; cbn in Hk.
    + injection Hk as <-. exists y. auto.
    + apply IH2, Hk.
Qed.

(** X22. The numbers of [notify.list] are the positions of
    [notify.check]: in a configuration with one group per channel, when the
    channel's group is not switched off and every stored entry is valid,
    the listing has one line per enumerated subscription, line [k] shows
    the platform, the project id and the interval (in minutes) of the
    subscription at position [k], and [notify.check k] requests exactly
    that subscription. *)
Theorem list_numbers_are_check_positions (env : Env) (session : Session)
    (w : World) (s : string) (g : Group) :
  let w0 := loadConfigFromFile env w in
  let enumerated := (getConfigSubs (Str s) (config w0)).1 in
  ses_channelId session = Str s -> s <> "" ->
  requireManage (config w0) session = true ->
  distinct_channels (default [] (cfg_groups (config w0))) ->
  (getGroup (Str s) (config w0)).1 = Some g ->
  strict_eq (grp_enabled g) (Bool false) = false ->
  Forall (fun e => is_Some (entry_of (config w0) g e))
         (default [] (grp_subs g)) ->
  default [] (grp_subs g) <> [] ->
  exists lines,
    (notify_list env session w).1 = Listing true lines
    /\ length lines = length enumerated
    /\ forall k line, lines !! k = Some line ->
         line_number line = S k
         /\ exists sub,
              enumerated !! k = Some sub
              /\ line_platform line = platform_code (platform sub)
              /\ line_projectId line = projectId sub
              /\ line_minutes line = minutes_of (interval sub)
              /\ forall arg broadcast,
                   truthy arg = true ->
                   ToNumber arg = Fin (Z.of_nat (line_number line)) ->
                   fetches (trace (notify_check env session arg broadcast w).2)
                   = fetches (trace w) ++ [fetch_of sub].
Proof.
  intros w0 enumerated Hstr Hs Hman Hd Hg Hen Hvalid Hne.
  assert (Hch : truthy (ses_channelId session) = true)
    by (rewrite Hstr; apply truthy_Str, Hs).
  assert (Hfind : find (same_channel (Str s))
                    (default [] (cfg_groups (config w0))) = Some g).
  { unfold getGroup, getConfigGroups in Hg.
    rewrite (proj2 (proj2 (proj2 (groups_made_array_frame _)))) in Hg.
    exact Hg. }
  assert (Hid : grp_channelId g = Str s)
    by (apply (find_same_channel_Str s _ g (proj1 Hd) Hfind)).
  set (l := default [] (grp_subs g)) in *.
  assert (Henum : enumerated = omap (entry_of (config w0) g) l).
  { subst enumerated. rewrite getConfigSubs_entries.
    rewrite enumerated_single, Hfind by assumption.
    unfold group_entries, visited. rewrite Hid, Hen. cbn [truthy strict_eq].
    rewrite String.eqb_refl. apply String.eqb_neq in Hs. rewrite Hs.
    cbn [negb andb orb]. fold l.
    apply list_omap_ext, Forall2_same_length_lookup_2; [reflexivity|].
    intros k x y Hx Hy. rewrite Hx in Hy. injection Hy as <-.
    apply entry_of_group; [apply cfg_interval_made_array | reflexivity]. }
  destruct (omap_all_Some _ l Hvalid) as (Hlen & Hlook).
  rewrite <- Henum in Hlen, Hlook.
  exists (imap (list_line (groups_made_array (config w0))) l).
  split; [|split].
  - unfold notify_list. fold w0. rewrite Hch, Hman. cbn [negb].
    rewrite Hstr. unfold getGroup in *. 
    destruct (getConfigGroups (config w0)) as [groups c] eqn:Eg.
    cbn [fst] in Hg. rewrite Hg.
    unfold getConfigGroups in Eg. injection Eg as _ <-.
    fold l. destruct l as [|e l'] eqn:El; [congruence|].
    rewrite Hen. reflexivity.
  - rewrite length_imap. symmetry. exact Hlen.
  - intros k line Hline. rewrite list_lookup_imap in Hline.
    destruct (l !! k) as [e|] eqn:He; [|discriminate].
    cbn in Hline. injection Hline as <-.
    destruct (Hlook k e He) as (sub & Hsub & Hk).
    split; [reflexivity|]. exists sub. split; [exact Hk|].
    unfold entry_of in Hsub. unfold list_line.
    destruct (normalizePlatform (sub_platform e)) as [pk|]; [|discriminate].
    cbv zeta in Hsub.
    destruct (String.eqb _ ""); [discriminate|].
    destruct (_ && _); [discriminate|].
    injection Hsub as <-. cbn [platform projectId interval line_platform
                                line_projectId line_minutes line_number].
    rewrite cfg_interval_made_array.
    split; [reflexivity|]. split; [reflexivity|]. split; [reflexivity|].
    intros arg broadcast Harg Hnum.
    pose proof (notify_check_index env session arg broadcast w
                  (Z.of_nat (S k)) Hch Hman Harg Hnum ltac:(lia)) as HI.
    cbv zeta in HI. fold w0 in HI. rewrite Hstr in HI.
    fold enumerated in HI.
    replace (Z.to_nat (Z.of_nat (S k) - 1)) with k in HI by lia.
    rewrite Hk in HI. apply HI.
Qed.

End Listing.

(** ** Roles and permission *)

Section Permission.

Context `{!EcmaConv}.

Lemma level_of_range (roles : list string) : 0 <= level_of roles <= 3.
Proof.
  unfold level_of.
  destruct (has_role "owner" roles), (has_role "admin" roles),
    (has_role "member" roles); lia.
Qed.

Lemma getRoleLevelAsync_range (s : RoleSources) (lookup : GuildLookup) :
  getRoleLevel s <= (getRoleLevelAsync s lookup).1 <= 3.
Proof.
  unfold getRoleLevelAsync.
  pose proof (level_of_range (session_roles s)) as Hr.
  fold (getRoleLevel s) in Hr.
  destruct (Z.ltb_spec 0 (getRoleLevel s)) as [Hpos | Hz]; cbn [fst]; [lia|].
  destruct lookup as [| |m]; cbn [fst]; try lia.
  destruct (has_role "owner" _); [lia|].
  destruct (has_role "admin" _); [lia|].
  destruct (has_role "member" _); lia.
Qed.

(** X23. The permission ladder.  The level the commands use lies between
    0 and 3 and is never below what the session itself shows; a session
    that shows a role is not looked up, and a lookup that is unavailable or
    fails leaves the level as it is.  An owner may always manage; with
    [adminAuthority] absent only an owner may; permission is monotone in
    the level; and below admin level a sender may manage only if
    [adminAuthority] is at most 1. *)
Theorem permission_ladder (c : Config) (ch : jsval) (s : RoleSources)
    (lookup : GuildLookup) :
  let session := session_of ch s lookup in
  0 <= ses_roleLevel session <= 3
  /\ getRoleLevel s <= ses_roleLevel session
  /\ (0 < getRoleLevel s ->
      getRoleLevelAsync s lookup = (getRoleLevel s, false))
  /\ (lookup = LookupUnavailable \/ lookup = LookupThrows ->
      ses_roleLevel session = getRoleLevel s)
  /\ (has_role "owner" (session_roles s) = true ->
      requireManage c session = true)
  /\ (cfg_adminAuthority c = Undefined \/ cfg_adminAuthority c = Null ->
      requireManage c session = bool_decide (ses_roleLevel session = 3))
  /\ (forall s' lookup',
        ses_roleLevel session <= ses_roleLevel (session_of ch s' lookup') ->
        requireManage c session = true ->
        requireManage c (session_of ch s' lookup') = true)
  /\ (requireManage c session = true -> ses_roleLevel session < 2 ->
      num_le (ToNumber (nullish (cfg_adminAuthority c) (Num (Fin 3))))
             (Fin 1) = true).
Proof.
  intros session. subst session. cbn [session_of ses_roleLevel].
  pose proof (getRoleLevelAsync_range s lookup) as Hr.
  pose proof (level_of_range (session_roles s)) as Hl.
  fold (getRoleLevel s) in Hl.
  split; [lia|]. split; [lia|]. split; [|split; [|split; [|split; [|split]]]].
  - intros Hpos. unfold getRoleLevelAsync.
    apply Z.ltb_lt in Hpos. rewrite Hpos. reflexivity.
  - intros Hlook. unfold getRoleLevelAsync.
    destruct (0 <? getRoleLevel s); [reflexivity|].
    destruct Hlook as [-> | ->]; reflexivity.
  - intros Ho.
    assert (E : getRoleLevel s = 3).
    { unfold getRoleLevel, level_of. rewrite Ho. reflexivity. }
    unfold requireManage, session_of. cbn [ses_roleLevel].
    destruct (num_le _ (Fin 1)); [reflexivity|].
    destruct (num_le _ (Fin 2)); apply Z.leb_le; lia.
  - intros Ha. unfold requireManage, session_of. cbn [ses_roleLevel].
    destruct Ha as [-> | ->]; cbn;
      destruct (decide ((getRoleLevelAsync s lookup).1 = 3)) as [E|E].
    + rewrite bool_decide_eq_true_2 by exact E. apply Z.leb_le. lia.
    + rewrite bool_decide_eq_false_2 by exact E. apply Z.leb_gt. lia.
    + rewrite bool_decide_eq_true_2 by exact E. apply Z.leb_le. lia.
    + rewrite bool_decide_eq_false_2 by exact E. apply Z.leb_gt. lia.
  - intros s' lookup'. cbn [session_of ses_roleLevel]. intros Hle.
    unfold requireManage, session_of. cbn [ses_roleLevel].
    destruct (num_le _ (Fin 1)); [reflexivity|].
    destruct (num_le _ (Fin 2)); rewrite !Z.leb_le; lia.
  - unfold requireManage, session_of. cbn [ses_roleLevel].
    destruct (num_le _ (Fin 1)); [reflexivity|].
    destruct (num_le _ (Fin 2)); rewrite !Z.leb_le; lia.
Qed.

End Permission.

(** ** Delivery *)

Section Delivery.

Lemma indexOf_colon_range (s : string) : -1 <= indexOf_colon s.
Proof.
  induction s as [|c r IH]; cbn; [lia|].
  destruct (_ =? _)%N; [lia|].
  destruct (Z.ltb_spec (indexOf_colon r) 0); lia.
Qed.

Lemma indexOf_colon_none (s : string) :
  indexOf_colon s = -1 <-> no_colon s = true.
Proof.
  induction s as [|c r IH]; cbn; [tauto|].
  pose proof (indexOf_colon_range r) as Hr.
  destruct (_ =? _)%N; cbn; [split; [lia | discriminate]|].
  destruct (Z.ltb_spec (indexOf_colon r) 0).
  - split; [intros _; apply IH; lia | reflexivity].
  - rewrite <- IH. lia.
Qed.

Lemma substring_prefix (q t : string) :
  String.substring 0 (String.length q) (q +:+ t) = q.
Proof.
  induction q as [|a q IH].
  - destruct t; reflexivity.
  - change (String a q +:+ t) with (String a (q +:+ t)).
    cbn [String.length String.substring]. rewrite IH. reflexivity.
Qed.

Lemma slice_from_skip (q t : string) :
  slice_from (S (String.length q)) (q +:+ ":" +:+ t) = t.
Proof.
  induction q as [|a q IH]; [reflexivity|].
  change (String a q +:+ ":" +:+ t) with (String a (q +:+ ":" +:+ t)).
  cbn [String.length slice_from]. exact IH.
Qed.

Lemma parseChannelId_app (p id : string) :
  p <> "" -> no_colon p = true ->
  parseChannelId (p +:+ ":" +:+ id) = Some (p, id).
Proof.
  intros Hne Hnc.
  assert (Hidx : forall q, no_colon q = true ->
            indexOf_colon (q +:+ ":" +:+ id) = Z.of_nat (String.length q)).
  { induction q as [|c r IH]; intros Hq.
    - reflexivity.
    - cbn in Hq. apply andb_true_iff in Hq as (Hc & Hq).
      change (String c r +:+ ":" +:+ id) with (String c (r +:+ ":" +:+ id)).
      cbn [indexOf_colon String.length].
      apply negb_true_iff in Hc. rewrite Hc, (IH Hq).
      destruct (Z.ltb_spec (Z.of_nat (String.length r)) 0); lia. }
  unfold parseChannelId. rewrite (Hidx p Hnc).
  assert (Hlen : (0 < String.length p)%nat)
    by (destruct p; [congruence | cbn; lia]).
  destruct (Z.leb_spec (Z.of_nat (String.length p)) 0) as [|_]; [lia|].
  rewrite Nat2Z.id.
  replace (Z.to_nat (Z.of_nat (String.length p) + 1))
    with (S (String.length p)) by lia.
  rewrite substring_prefix, slice_from_skip. reflexivity.
Qed.

(** X24. [parseChannelId] splits at the first colon: a non-empty platform
    without colon, a colon and any id are parsed back into the platform and
    the id; and whatever is parsed is such a string.  It gives [null] for a
    string without colon and for one that starts with a colon. *)
Theorem parseChannelId_splits_at_first_colon (channelId : string) :
  (forall p id, p <> "" -> no_colon p = true ->
     parseChannelId (p +:+ ":" +:+ id) = Some (p, id))
  /\ (forall p id, parseChannelId channelId = Some (p, id) ->
        channelId = p +:+ ":" +:+ id /\ p <> "" /\ no_colon p = true)
  /\ (parseChannelId channelId = None <->
      no_colon channelId = true \/ exists r, channelId = ":" +:+ r).
Proof.
  split; [intros p id; apply parseChannelId_app|].
  assert (Hsplit : forall s, 0 <= indexOf_colon s ->
            s = String.substring 0 (Z.to_nat (indexOf_colon s)) s
                +:+ ":" +:+ slice_from (Z.to_nat (indexOf_colon s + 1)) s
            /\ no_colon (String.substring 0 (Z.to_nat (indexOf_colon s)) s)
               = true
            /\ String.length
                 (String.substring 0 (Z.to_nat (indexOf_colon s)) s)
               = Z.to_nat (indexOf_colon s)).
  { induction s as [|c r IH]; cbn [indexOf_colon]; [lia|].
    pose proof (indexOf_colon_range r) as Hr.
    destruct (Ascii.N_of_ascii c =? 58)%N eqn:Ec.
    - intros _. cbn. apply N.eqb_eq in Ec.
      assert (c = Ascii.ascii_of_N 58).
      { rewrite <- (Ascii.ascii_N_embedding c), Ec. reflexivity. }
      subst c. destruct r; auto.
    - destruct (Z.ltb_spec (indexOf_colon r) 0) as [|Hge]; [lia|].
      intros _. destruct (IH Hge) as (E1 & E2 & E3).
      replace (Z.to_nat (indexOf_colon r + 1))
        with (S (Z.to_nat (indexOf_colon r))) by lia.
      replace (Z.to_nat (indexOf_colon r + 1 + 1))
        with (S (Z.to_nat (indexOf_colon r + 1))) by lia.
      cbn [String.substring slice_from no_colon String.length].
      rewrite Ec, E2, E3. cbn [negb andb].
      split; [|auto].
      change (String c ?x +:+ ?y) with (String c (x +:+ y)).
      f_equal. exact E1. }
  split.
  - intros p id. unfold parseChannelId.
    pose proof (indexOf_colon_range channelId) as Hr.
    destruct (Z.leb_spec (indexOf_colon channelId) 0) as [|Hpos];
      [discriminate|].
    intros [= <- <-].
    destruct (Hsplit channelId ltac:(lia)) as (E1 & E2 & E3).
    split; [exact E1|]. split; [|exact E2].
    intros E. rewrite E in E3. cbn in E3. lia.
  - unfold parseChannelId.
    pose proof (indexOf_colon_range channelId) as Hr.
    destruct (Z.leb_spec (indexOf_colon channelId) 0) as [Hle|Hpos].
    + split; [intros _|reflexivity].
      destruct (Z.eq_dec (indexOf_colon channelId) (-1)) as [E|E].
      * left. apply indexOf_colon_none, E.
      * right. assert (E0 : indexOf_colon channelId = 0) by lia.
        destruct channelId as [|c r]; [discriminate|].
        cbn [indexOf_colon] in E0.
        destruct (Ascii.N_of_ascii c =? 58)%N eqn:Ec.
        -- apply N.eqb_eq in Ec. exists r.
           rewrite <- (Ascii.ascii_N_embedding c), Ec. reflexivity.
        -- pose proof (indexOf_colon_range r).
           destruct (Z.ltb_spec (indexOf_colon r) 0); lia.
    + split; [discriminate|]. intros [Hn | (r & ->)].
      * apply indexOf_colon_none in Hn. lia.
      * assert (E : indexOf_colon (":" +:+ r) = 0) by reflexivity. lia.
Qed.

(** *** [sendToChannel] *)

Lemma try_each_spec (k : nat) (bots : list Bot) (ch : string) :
  let r := try_each k bots ch in
  Forall (fun c => call_target c = ch) r.2
  /\ (r.1 = false ->
      r.2 = imap (fun i _ => {| call_bot := k + i; call_target := ch |}) bots
      /\ Forall (fun b => bot_sends b ch = false) bots)
  /\ (r.1 = true ->
      exists calls j b,
        r.2 = calls ++ [ {| call_bot := k + j; call_target := ch |} ]
        /\ bots !! j = Some b /\ bot_sends b ch = true
        /\ Forall (fun c => exists j' b', call_bot c = (k + j')%nat
                             /\ call_target c = ch
                             /\ bots !! j' = Some b'
                             /\ bot_sends b' ch = false) calls).
Proof.
  revert k. induction bots as [|bot rest IH]; intros k; cbn zeta.
  - cbn. split; [constructor|]. split; [auto|discriminate].
  - cbn [try_each]. destruct (bot_sends bot ch) eqn:Eb.
    + cbn [fst snd]. split; [repeat constructor|].
      split; [discriminate|]. intros _.
      exists [], 0%nat, bot. rewrite Nat.add_0_r. repeat split; auto.
    + destruct (IH (S k)) as (T & F & S').
      destruct (try_each (S k) rest ch) as [ok calls]. cbn [fst snd] in *.
      split; [constructor; [reflexivity | exact T]|]. split.
      * intros Hok. destruct (F Hok) as (-> & Hall). split.
        -- cbn [imap]. rewrite Nat.add_0_r. f_equal.
           apply imap_ext. intros i x _. cbn. f_equal. lia.
        -- constructor; assumption.
      * intros Hok. destruct (S' Hok) as (cs & j & b & -> & Hj & Hb & Hcs).
        exists ({| call_bot := k; call_target := ch |} :: cs), (S j), b.
        replace (k + S j)%nat with (S k + j)%nat by lia.
        repeat split; try assumption.
        constructor.
        -- exists 0%nat, bot. rewrite Nat.add_0_r. auto.
        -- eapply Forall_impl; [exact Hcs|].
           intros c (j' & b' & E1 & E2 & E3 & E4).
           exists (S j'), b'. repeat split; try assumption. cbn. lia.
Qed.

(** The two ways [sendToChannel] goes: one call on the bot of the parsed
    platform or on the only bot, or the bots tried in turn. *)
Lemma sendToChannel_cases (bots : list Bot) (ch : string) :
  let r := sendToChannel bots ch in
  (exists i bot target,
     bots !! i = Some bot
     /\ (target = ch /\ bots = [bot]
         /\ (forall p id, parseChannelId ch = Some (p, id) ->
               find_index (fun b => String.eqb (bot_platform b) p) bots
               = None)
         \/ exists p,
              parseChannelId ch = Some (p, target)
              /\ find_index (fun b => String.eqb (bot_platform b) p) bots
                 = Some i)
     /\ r = ((if bot_sends bot target then Sent else SendThrows),
             [ {| call_bot := i; call_target := target |} ]))
  \/ (length bots <> 1%nat
      /\ (forall p id, parseChannelId ch = Some (p, id) ->
            find_index (fun b => String.eqb (bot_platform b) p) bots = None)
      /\ r = ((if (try_each 0 bots ch).1 then Sent else NotSent),
              (try_each 0 bots ch).2)).
Proof.
  cbn zeta. unfold sendToChannel.
  assert (Hfall :
    (forall p id, parseChannelId ch = Some (p, id) ->
       find_index (fun b => String.eqb (bot_platform b) p) bots = None) ->
    (exists i bot target,
       bots !! i = Some bot
       /\ (target = ch /\ bots = [bot]
           /\ (forall p id, parseChannelId ch = Some (p, id) ->
                 find_index (fun b => String.eqb (bot_platform b) p) bots
                 = None)
           \/ exists p,
                parseChannelId ch = Some (p, target)
                /\ find_index (fun b => String.eqb (bot_platform b) p) bots
                   = Some i)
       /\ match bots with
          | [bot] => ((if bot_sends bot ch then Sent else SendThrows),
                      [ {| call_bot := 0; call_target := ch |} ])
          | _ => let '(ok, calls) := try_each 0 bots ch in
                 ((if ok then Sent else NotSent), calls)
          end
          = ((if bot_sends bot target then Sent else SendThrows),
             [ {| call_bot := i; call_target := target |} ]))
    \/ (length bots <> 1%nat
        /\ (forall p id, parseChannelId ch = Some (p, id) ->
              find_index (fun b => String.eqb (bot_platform b) p) bots = None)
        /\ match bots with
           | [bot] => ((if bot_sends bot ch then Sent else SendThrows),
                       [ {| call_bot := 0; call_target := ch |} ])
           | _ => let '(ok, calls) := try_each 0 bots ch in
                  ((if ok then Sent else NotSent), calls)
           end
           = ((if (try_each 0 bots ch).1 then Sent else NotSent),
              (try_each 0 bots ch).2))).
  { intros Hnone. destruct bots as [|b [|b' rest]].
    - right. split; [cbn; lia|]. split; [exact Hnone | reflexivity].
    - left. exists 0%nat, b, ch. split; [reflexivity|].
      split; [left; auto | reflexivity].
    - right. split; [cbn; lia|]. split; [exact Hnone|].
      destruct (try_each 0 (b :: b' :: rest) ch). reflexivity. }
  destruct (parseChannelId ch) as [[p id]|] eqn:Ep;
    [|apply Hfall; intros; discriminate].
  destruct (find_index _ bots) as [i|] eqn:Ei;
    [|apply Hfall; intros p' id' [= <- <-]; exact Ei].
  destruct (find_index_Some _ _ _ Ei) as (bot & Hb & _).
  rewrite Hb. left. exists i, bot, id. split; [exact Hb|].
  split; [right; exists p; auto | reflexivity].
Qed.

(** X25. How [sendToChannel] routes a message.  Without bots nothing is
    sent.  A channel id with a platform prefix that a bot has goes, without
    the prefix, to the first such bot and to no other.  An exception
    escapes only from such a single call (or the call on the only bot).
    Otherwise the bots are tried in order with the whole id until one
    accepts: the answer is "sent" with the last call the one that resolved,
    or "not sent" after every bot has refused. *)
Theorem sendToChannel_routes (bots : list Bot) (channelId : string) :
  let r := sendToChannel bots channelId in
  (bots = [] -> r = (NotSent, []))
  /\ (forall p id i,
        parseChannelId channelId = Some (p, id) ->
        find_index (fun b => String.eqb (bot_platform b) p) bots = Some i ->
        r.2 = [ {| call_bot := i; call_target := id |} ]
        /\ r.1 = (if call_resolves bots {| call_bot := i; call_target := id |}
                  then Sent else SendThrows))
  /\ (r.1 = SendThrows ->
      exists call, r.2 = [call] /\ call_resolves bots call = false)
  /\ (r.1 = NotSent ->
      r.2 = imap (fun i _ => {| call_bot := i; call_target := channelId |})
                 bots
      /\ Forall (fun b => bot_sends b channelId = false) bots)
  /\ (r.1 = Sent ->
      exists calls call,
        r.2 = calls ++ [call]
        /\ call_resolves bots call = true
        /\ Forall (fun c => call_resolves bots c = false
                            /\ call_target c = channelId) calls).
Proof.
  intros r. pose proof (sendToChannel_cases bots channelId) as HC.
  cbv zeta in HC. fold r in HC.
  destruct (try_each_spec 0 bots channelId) as (_ & Hfalse & Htrue).
  split; [|split; [|split; [|split]]].
  - intros ->.
    destruct HC as [(i' & bot & target & Hb & _) | (_ & _ & E)];
      [discriminate | exact E].
  - intros p id i Hp Hi.
    destruct HC as [(i' & bot & target & Hb & Hway & ->) | (_ & Hnone & _)].
    + destruct Hway as [(_ & _ & Hnone) | (p' & Hp' & Hi')].
      * rewrite (Hnone p id Hp) in Hi. discriminate.
      * rewrite Hp in Hp'. injection Hp' as <- <-.
        rewrite Hi in Hi'. injection Hi' as <-.
        unfold call_resolves. cbn. rewrite Hb. auto.
    + rewrite (Hnone p id Hp) in Hi. discriminate.
  - intros Hthrow.
    destruct HC as [(i' & bot & target & Hb & _ & E) | (_ & _ & E)];
      rewrite E in *; cbn [fst snd] in *.
    + eexists. split; [reflexivity|]. unfold call_resolves. cbn. rewrite Hb.
      destruct (bot_sends bot target); [discriminate | reflexivity].
    + destruct (try_each 0 bots channelId).1; discriminate.
  - intros Hnot.
    destruct HC as [(i' & bot & target & Hb & _ & E) | (_ & _ & E)];
      rewrite E in *; cbn [fst snd] in *.
    + destruct (bot_sends bot target); discriminate.
    + destruct (try_each 0 bots channelId).1 eqn:Eok; [discriminate|].
      apply Hfalse. reflexivity.
  - intros Hsent.
    destruct HC as [(i' & bot & target & Hb & _ & E) | (_ & _ & E)];
      rewrite E in *; cbn [fst snd] in *.
    + exists [], {| call_bot := i'; call_target := target |}.
      split; [reflexivity|]. split; [|constructor].
      unfold call_resolves. cbn. rewrite Hb.
      destruct (bot_sends bot target); [reflexivity | discriminate].
    + destruct (try_each 0 bots channelId).1 eqn:Eok; [|discriminate].
      destruct (Htrue eq_refl) as (calls & j & b & -> & Hj & Hb & Hcs).
      exists calls, {| call_bot := j; call_target := channelId |}.
      split; [reflexivity|]. split.
      * unfold call_resolves. cbn. rewrite Hj. exact Hb.
      * eapply Forall_impl; [exact Hcs|].
        intros c (j' & b' & E1 & E2 & E3 & E4). split; [|exact E2].
        unfold call_resolves. rewrite E1, E2. cbn. rewrite E3. exact E4.
Qed.

End Delivery.

(** ** The images of a notification *)

Section Images.

Context `{!EcmaConv}.

Lemma sendImages_throw (env : Env) (ch : string)
    (done rest : list Image) (img : Image) (w : World) :
  Forall (fun img => deliver env ch img <> SendThrows) done ->
  deliver env ch img = SendThrows ->
  (sendImages env ch (done ++ img :: rest) w).1 = false
  /\ trace (sendImages env ch (done ++ img :: rest) w).2
     = trace w ++ map (outcome env ch) done.
Proof.
  revert w. induction done as [|d ds IH]; intros w HF Hth; cbn.
  - rewrite Hth, app_nil_r. auto.
  - apply Forall_cons in HF as (Hok & HF). unfold outcome at 1.
    destruct (deliver env ch d); [| |congruence];
      match goal with
      | |- context [sendImages env ch _ ?w1] =>
          destruct (IH w1 HF Hth) as (-> & ->)
      end; cbn; rewrite <- app_assoc; auto.
Qed.

(** X26. What [sendUpdate] sends once the card is rendered: the images
    go out one by one in the order rendered; an image that [sendToChannel]
    cannot deliver is logged and the next one is tried; the first image on
    which it throws ends the notification, the images after it are never
    sent, and the failure is logged once. *)
Theorem images_go_out_in_order (env : Env) (ch : string) (p : Platform)
    (pid : string) (latest : Latest) (w : World) (d : Detail)
    (imgs : list Image) :
  match p with
  | mr => fetchModrinthDetail env pid
  | cf => fetchCurseForgeDetail env pid
  end = Some d ->
  (if String.eqb (source d) "CurseForge"
   then drawProjectCardCFNotify env d latest
   else drawProjectCardMRNotify env d latest) = Some imgs ->
  let w' := sendUpdate env ch p pid latest w in
  (Forall (fun img => deliver env ch img <> SendThrows) imgs ->
   trace w'
   = trace w ++ EvSendUpdate ch p pid latest :: map (outcome env ch) imgs)
  /\ (forall done img rest,
        imgs = done ++ img :: rest ->
        Forall (fun img => deliver env ch img <> SendThrows) done ->
        deliver env ch img = SendThrows ->
        trace w'
        = trace w ++ EvSendUpdate ch p pid latest
                  :: map (outcome env ch) done
                  ++ [EvWarn (SendFailed p pid)]).
Proof.
  intros Hd Hr w'. subst w'. unfold sendUpdate. rewrite Hd, Hr. split.
  - intros HF.
    destruct (sendImages_all env ch imgs
                (emit (EvSendUpdate ch p pid latest) w) HF) as (E1 & E2).
    destruct (sendImages env ch imgs _) as [ok w2]. cbn [fst snd] in *.
    subst ok. rewrite E2. cbn. rewrite <- app_assoc. reflexivity.
  - intros done img rest -> HF Hth.
    destruct (sendImages_throw env ch done rest img
                (emit (EvSendUpdate ch p pid latest) w) HF Hth) as (E1 & E2).
    destruct (sendImages env ch (done ++ img :: rest) _) as [ok w2].
    cbn [fst snd] in *. subst ok. cbn. rewrite E2. cbn.
    rewrite <- !app_assoc. reflexivity.
Qed.

End Images.

(** ** The result list of the mcmod search *)

Section McmodList.

Import Mcmod.

Context {Item Ids : Type}.

Lemma ceil_pages_bounds (n : nat) :
  10 * (ceil_pages n - 1) < Z.of_nat n <= 10 * ceil_pages n.
Proof.
  unfold ceil_pages, PAGE_SIZE.
  pose proof (Z.div_mod (Z.of_nat n + (10 - 1)) 10 ltac:(lia)) as E.
  pose proof (Z.mod_pos_bound (Z.of_nat n + (10 - 1)) 10 ltac:(lia)) as B.
  lia.
Qed.

Lemma slice_page {A : Type} (l : list A) (k : Z) :
  0 <= k ->
  slice (k * PAGE_SIZE) ((k + 1) * PAGE_SIZE) l
  = take 10 (drop (Z.to_nat (k * 10)) l).
Proof.
  intros Hk. unfold slice, PAGE_SIZE.
  destruct (Z.ltb_spec (k * 10) 0) as [|_]; [lia|].
  destruct (Z.ltb_spec ((k + 1) * 10) 0) as [|_]; [lia|].
  destruct (Z_le_gt_dec (k * 10) (Z.of_nat (length l))) as [Ha|Ha].
  - rewrite (Z.min_l (k * 10)) by lia.
    destruct (Z_le_gt_dec ((k + 1) * 10) (Z.of_nat (length l))) as [Hb|Hb].
    + rewrite Z.min_l by lia. f_equal. lia.
    + rewrite Z.min_r by lia.
      rewrite !take_ge; [reflexivity | |]; rewrite length_drop; lia.
  - rewrite !Z.min_r by lia. rewrite Z.sub_diag. cbn [Z.to_nat take].
    rewrite (drop_ge l (Z.to_nat (k * 10))) by lia. reflexivity.
Qed.

(** The lines of a page, by position. *)
Lemma page_line (items : list Item) (type : string) (k : Z) (j : nat)
    (n : Z) (it : Item) :
  0 <= k ->
  page_lines (formatListPage items k type) !! j = Some (n, it)
  <-> (j < 10)%nat /\ n = k * 10 + Z.of_nat j + 1
      /\ items !! Z.to_nat (n - 1) = Some it.
Proof.
  intros Hk. unfold formatListPage. cbn [page_lines].
  rewrite slice_page by exact Hk. rewrite list_lookup_imap.
  unfold PAGE_SIZE. rewrite lookup_take, lookup_drop.
  destruct (decide (j < 10)%nat) as [Hj|Hj].
  - split.
    + destruct (items !! (Z.to_nat (k * 10) + j)%nat) as [x|] eqn:Ex;
        cbn; [|discriminate].
      intros [= <- <-]. split; [exact Hj|]. split; [reflexivity|].
      rewrite <- Ex. f_equal. lia.
    + intros (_ & -> & Hit).
      replace (Z.to_nat (k * 10 + Z.of_nat j + 1 - 1))
        with (Z.to_nat (k * 10) + j)%nat in Hit by lia.
      rewrite Hit. reflexivity.
  - cbn. split; [discriminate|]. intros (Hlt & _). lia.
Qed.

(** The lines of a page, by number. *)
Lemma page_shows (items : list Item) (type : string) (k n : Z) (it : Item) :
  0 <= k ->
  (n, it) ∈ page_lines (formatListPage items k type)
  <-> k * 10 + 1 <= n <= k * 10 + 10
      /\ items !! Z.to_nat (n - 1) = Some it.
Proof.
  intros Hk. rewrite list_elem_of_lookup. split.
  - intros (j & Hj). apply page_line in Hj as (Hlt & -> & Hit); [|exact Hk].
    split; [lia | exact Hit].
  - intros (Hn & Hit). exists (Z.to_nat (n - (k * 10 + 1))).
    apply page_line; [exact Hk|]. split; [lia|]. split; [lia | exact Hit].
Qed.

(** X27. The pages of [formatListPage] number the results: line [j] of
    page [k] carries the number [10 k + j + 1] and the result at that
    position of the whole list, a page has at most ten lines, and every
    result is on exactly the page [i / 10], which the heading counts among
    its pages, under the number [i + 1]. *)
Theorem pages_number_every_result (items : list Item) (type : string) :
  (forall k j n it, 0 <= k ->
     page_lines (formatListPage items k type) !! j = Some (n, it)
     <-> (j < 10)%nat /\ n = k * 10 + Z.of_nat j + 1
         /\ items !! Z.to_nat (n - 1) = Some it)
  /\ (forall i it, items !! i = Some it ->
        let k := Z.of_nat i / 10 in
        0 <= k < page_total (formatListPage items k type)
        /\ (Z.of_nat i + 1, it) ∈ page_lines (formatListPage items k type)
        /\ forall k', 0 <= k' ->
             (Z.of_nat i + 1, it)
               ∈ page_lines (formatListPage items k' type) -> k' = k)
  /\ (forall k, page_shown (formatListPage items k type) = k + 1
                /\ 1 <= page_total (formatListPage items k type)).
Proof.
  split; [|split].
  - intros k j n it Hk. apply page_line, Hk.
  - intros i it Hi k.
    pose proof (Z.div_mod (Z.of_nat i) 10 ltac:(lia)) as E.
    pose proof (Z.mod_pos_bound (Z.of_nat i) 10 ltac:(lia)) as B.
    fold k in E.
    assert (Hk : 0 <= k) by (apply Z.div_pos; lia).
    split; [|split].
    + split; [exact Hk|]. cbn [formatListPage page_total].
      pose proof (ceil_pages_bounds (length items)) as C.
      apply lookup_lt_Some in Hi. lia.
    + apply page_shows; [exact Hk|]. split; [lia|].
      rewrite <- Hi. f_equal. lia.
    + intros k' Hk' Hin. apply page_shows in Hin as (Hn & _); [|exact Hk'].
      lia.
  - intros k. cbn. split; [reflexivity | lia].
Qed.

(** X28. Turning pages of a list that shows an existing page: [n] on the
    last page and [p] on the first answer "no more pages" and change
    nothing; otherwise the old list is withdrawn, the neighbouring page is
    sent and becomes the page shown, which exists again.  The results and
    their type never change. *)
Theorem page_turn_stays_on_a_page (send : @ListPage Item -> Ids)
    (next : bool) (s : @SearchState Item Ids) (k : Z) :
  on_page s k ->
  let r := page_turn send next s in
  let last := Z.max 1 (ceil_pages (length (st_results s))) - 1 in
  let k' := if next then k + 1 else k - 1 in
  st_results r.2 = st_results s
  /\ st_type r.2 = st_type s
  /\ ((if next then k = last else k = 0) -> r = (NoMorePages, s))
  /\ (~ (if next then k = last else k = 0) ->
      on_page r.2 k'
      /\ r.1 = NewPage (st_messageIds s)
                 (formatListPage (st_results s) k' (st_type s))
      /\ st_messageIds r.2
         = send (formatListPage (st_results s) k' (st_type s))).
Proof.
  intros (Hp & Hk) r last k'. subst r last k'. unfold page_turn.
  rewrite Hp. pose proof (ceil_pages_bounds (length (st_results s))) as C.
  destruct next; cbn [andb negb].
  - destruct (Z.ltb_spec k (ceil_pages (length (st_results s)) - 1))
      as [Hlt|Hge]; cbn [fst snd st_results st_type st_messageIds].
    + split; [reflexivity|]. split; [reflexivity|]. split; [lia|].
      intros _. split; [|auto]. split; [reflexivity|].
      cbn [st_results]. lia.
    + split; [reflexivity|]. split; [reflexivity|].
      split; [reflexivity|]. intros Hne. lia.
  - destruct (Z.ltb_spec 0 k) as [Hlt|Hge];
      cbn [fst snd st_results st_type st_messageIds].
    + split; [reflexivity|]. split; [reflexivity|]. split; [lia|].
      intros _. split; [|auto]. split; [reflexivity|].
      cbn [st_results]. lia.
    + split; [reflexivity|]. split; [reflexivity|].
      split; [reflexivity|]. intros Hne. lia.
Qed.

(** X29. A number selects what the page shows: on a list that shows an
    existing page, the task of a number goes on to the card of a result
    exactly when the page shown lists that result under that number, and
    then the list is withdrawn and its entry cleared; any other number is
    ignored and leaves the entry as it is. *)
Theorem selection_is_what_the_page_shows (s : @SearchState Item Ids)
    (k choice : Z) :
  on_page s k ->
  let r := select_item choice s in
  (forall item,
     r.1 = Chosen (st_messageIds s) item
     <-> (choice, item)
           ∈ page_lines (formatListPage (st_results s) k (st_type s)))
  /\ (r = (Ignored, Some s)
      \/ exists item, r = (Chosen (st_messageIds s) item, None)).
Proof.
  intros (Hp & Hk) r. subst r. unfold select_item. rewrite Hp.
  unfold PAGE_SIZE.
  set (len := Z.of_nat (length (st_results s))).
  assert (Hiff : forall item,
            (choice, item)
              ∈ page_lines (formatListPage (st_results s) k (st_type s))
            <-> k * 10 + 1 <= choice <= k * 10 + 10
                /\ st_results s !! Z.to_nat (choice - 1) = Some item).
  { intros item. apply page_shows. lia. }
  destruct (Z.ltb_spec choice (k * 10 + 1)) as [Hlow|Hlow]; cbn [orb].
  { split; [|auto]. intros item. rewrite Hiff. cbn [fst].
    split; [discriminate | lia]. }
  destruct (Z.ltb_spec (Z.min (k * 10 + 10) len) choice) as [Hhigh|Hhigh].
  { split; [|auto]. intros item. rewrite Hiff. cbn [fst].
    split; [discriminate|]. intros (Hn & Hit).
    apply lookup_lt_Some in Hit. lia. }
  destruct (Z.leb_spec 0 (choice - 1)) as [_|]; [|lia].
  destruct (Z.ltb_spec (choice - 1) len) as [_|]; [|lia]. cbn [andb].
  destruct (st_results s !! Z.to_nat (choice - 1)) as [it|] eqn:Eit.
  - split; [|right; eauto]. intros item. rewrite Hiff. cbn [fst]. split.
    + intros [= <-]. split; [lia | reflexivity].
    + intros (_ & [= <-]). reflexivity.
  - apply lookup_ge_None in Eit. lia.
Qed.

(** X30. The list of the plain search has no [pageIndex], and so it
    cannot be paged: [n] and [p] both answer "no more pages", however many
    results there are; and every number from 1 to the number of results
    selects that result, also one that the only page ever shown (the
    first, of at most ten lines) does not list. *)
Theorem plain_search_list_cannot_be_paged (send : @ListPage Item -> Ids)
    (results : list Item) (ids : Ids) (next : bool) (choice : Z) :
  let s := plain_state results ids in
  page_turn send next s = (NoMorePages, s)
  /\ (length (page_lines (formatListPage results 0 "mod")) <= 10)%nat
  /\ (1 <= choice ->
      forall item,
        number_input (Some choice) s = Some (Chosen ids item, None)
        <-> results !! Z.to_nat (choice - 1) = Some item).
Proof.
  intros s. subst s. split; [reflexivity|]. split.
  - unfold formatListPage. cbn [page_lines].
    rewrite slice_page by lia. rewrite length_imap, length_take. lia.
  - intros Hc item. unfold number_input, select_item, plain_state.
    cbn [st_pageIndex st_results st_messageIds].
    destruct (Z.leb_spec 1 choice) as [_|]; [|lia].
    destruct (Z.leb_spec 0 (choice - 1)) as [_|]; [|lia]. cbn [andb].
    destruct (Z.ltb_spec (choice - 1) (Z.of_nat (length results)))
      as [Hlt|Hge].
    + destruct (results !! Z.to_nat (choice - 1)) as [it|] eqn:Eit.
      * split; [intros [= <-]; reflexivity | intros [= <-]; reflexivity].
      * apply lookup_ge_None in Eit. lia.
    + split; [discriminate|]. intros Hit.
      apply lookup_lt_Some in Hit. lia.
Qed.

End McmodList.

(** ** Worked examples *)

Section Examples.

Import Sample.
Import Cases.

(** C2 as stated fails: the renderer throws, yet the state moves from 1.0.0
    to 1.1.0 and the next eligible check reports no change. *)
Lemma render_failure_state_advanced :
  drawProjectCardMRNotify (env_of "1.1.0" false) {| source := "Modrinth" |}
    (release "1.1.0") = None
  /\ trace (checkOnce_step (env_of "1.1.0" false) false abc123
              (w_seen, stats0)).1
     = [ EvFetchLatest mr "abc123";
         EvSendUpdate "C1" mr "abc123" (release "1.1.0");
         EvWarn (SendFailed mr "abc123");
         EvWriteFile StateFile ]
  /\ stateCache (checkOnce_step (env_of "1.1.0" false) false abc123
                   (w_seen, stats0)).1 !! "C1|mr|abc123"
     = Some (Str "1.1.0")
  /\ (checkOnce_step (env_of "1.1.0" true) false abc123
        (set_clock (noon + 1800000)
           (checkOnce_step (env_of "1.1.0" false) false abc123
              (w_seen, stats0)).1, stats0)).2
     = count_noChange (count_checked stats0).
Proof. vm_compute. repeat split; reflexivity. Qed.

(** C4 as stated fails: an entry stored with interval 0 is not enumerated,
    and an automatic pass checks nothing. *)
Lemma zero_interval_not_enumerated :
  (@getConfigSubs decimal Undefined following_zero).1 = []
  /\ (@checkOnce decimal (env_of "1.0.0" true) Undefined false w_zero).1
     = Some stats0
  /\ trace (@checkOnce decimal (env_of "1.0.0" true) Undefined false w_zero).2
     = [].
Proof. vm_compute. repeat split; reflexivity. Qed.

(** C5 as stated fails: a subscription never checked before, with an
    interval longer than the clock reading, is skipped. *)
Lemma unstamped_subscription_skipped :
  lastCheckMap w_new !! "C1|mr|abc123" = None
  /\ checkOnce_step (env_of "1.0.0" true) false abc123_slow (w_new, stats0)
     = (w_new, count_skipped stats0).
Proof. vm_compute. split; reflexivity. Qed.

Lemma version_change_detection_witness :
  persisted w_seen !! "C1|mr|abc123" = Some (Str "1.0.0")
  /\ (notifications
        (trace (checkOnce_step (env_of "1.1.0" true) false abc123
                  (w_seen, stats0)).1)
      = S (notifications (trace w_seen))
      <-> "1.1.0" <> "1.0.0")
  /\ delivered
       (trace (checkOnce_step (env_of "1.1.0" true) false abc123
                 (w_seen, stats0)).1)
     = [("C1", "card")]
  /\ stateFile (checkOnce_step (env_of "1.1.0" true) false abc123
                  (w_seen, stats0)).1
     = Document [("C1|mr|abc123", Some (Str "1.1.0"))].
Proof.
  assert (H3 : persisted w_seen
               !! getStateKey (channelId abc123) (platform abc123)
                    (projectId abc123) = Some (Str "1.0.0"))
    by (vm_compute; reflexivity).
  split; [exact H3|].
  assert (H1 : num_lt (Fin (clock w_seen
                            - lastCheckOf (lastCheckMap w_seen)
                                (getStateKey (channelId abc123)
                                   (platform abc123) (projectId abc123))))
                 (interval abc123) = false)
    by (vm_compute; reflexivity).
  assert (H4 : "1.0.0" <> "") by discriminate.
  assert (H5 : version (release "1.1.0") <> "1.0.0") by discriminate.
  destruct (version_change_detection (env_of "1.1.0" true) abc123 w_seen
              stats0 (release "1.1.0") "1.0.0" H1 eq_refl H3 H4)
    as (N & _ & _ & C).
  destruct (C H5) as (_ & _ & _ & F & D).
  split; [exact N|]. split.
  - refine (D ["card"] eq_refl _). repeat constructor; discriminate.
  - refine (eq_trans (F eq_refl eq_refl) _). vm_compute. reflexivity.
Defined.

Lemma failed_notification_advances_state_witness :
  notifier_throws (env_of "1.1.0" false) "C1" mr "abc123" (release "1.1.0")
  /\ persisted (checkOnce_step (env_of "1.1.0" false) false abc123
                  (w_seen, stats0)).1 !! "C1|mr|abc123"
     = Some (Str "1.1.0").
Proof.
  assert (H6 : notifier_throws (env_of "1.1.0" false) (channelId abc123)
                 (platform abc123) (projectId abc123) (release "1.1.0"))
    by exact I.
  split; [exact H6|].
  refine (proj1 (proj2 (failed_notification_advances_state
                          (env_of "1.1.0" false) abc123 w_seen stats0
                          (release "1.1.0") "1.0.0" _ _ _ _ _ H6))).
  - vm_compute; reflexivity.
  - reflexivity.
  - vm_compute; reflexivity.
  - discriminate.
  - discriminate.
Defined.

Lemma first_check_seeds_state_witness :
  persisted w_new !! "C1|mr|abc123" = None
  /\ persisted (checkOne (env_of "1.0.0" true) abc123 false w_new).2
       !! "C1|mr|abc123" = Some (Str "1.0.0")
  /\ notifications
       (trace (checkOne (env_of "1.0.0" true) abc123 false w_new).2) = 0%nat
  /\ delivered (trace (checkOne (env_of "1.0.0" true) abc123 false w_new).2)
     = []
  /\ stateFile (checkOne (env_of "1.0.0" true) abc123 false w_new).2
     = Document [("C1|mr|abc123", Some (Str "1.0.0"))].
Proof.
  assert (H2 : persisted w_new
               !! getStateKey (channelId abc123) (platform abc123)
                    (projectId abc123) = None)
    by (vm_compute; reflexivity).
  split; [exact H2|].
  destruct (first_check_seeds_state (env_of "1.0.0" true) abc123 w_new stats0
              (release "1.0.0") eq_refl H2) as (_ & _ & N & D & P & _ & F).
  split; [exact P|]. split; [exact N|]. split; [exact D|].
  refine (eq_trans (F eq_refl eq_refl) _). vm_compute. reflexivity.
Defined.

Lemma interval_normalization_witness :
  {| channelId := "C1"; platform := mr; projectId := "abc123";
     interval := Fin 1800000 |}
    ∈ (@getConfigSubs decimal Undefined following).1
  /\ (@getConfigSubs decimal Undefined
        (with_groups [group_of "C1" true []] following_zero)).1
     = (@getConfigSubs decimal Undefined following_zero).1.
Proof.
  split.
  - refine (proj1 (proj2 (@interval_normalization decimal Undefined following)
                     [group_of "C1" true [stored "mr" "abc123" Undefined]]
                     0%nat (group_of "C1" true [stored "mr" "abc123" Undefined])
                     [stored "mr" "abc123" Undefined] 0%nat
                     (stored "mr" "abc123" Undefined) mr "abc123"
                     eq_refl eq_refl eq_refl eq_refl) _ _ _ _).
    + reflexivity.
    + reflexivity.
    + discriminate.
    + reflexivity.
  - refine (proj2 (proj2 (@interval_normalization decimal Undefined
                            following_zero)
                     [group_of "C1" true [stored "mr" "abc123" (Num (Fin 0))]]
                     0%nat
                     (group_of "C1" true [stored "mr" "abc123" (Num (Fin 0))])
                     [stored "mr" "abc123" (Num (Fin 0))] 0%nat
                     (stored "mr" "abc123" (Num (Fin 0))) mr "abc123"
                     eq_refl eq_refl eq_refl eq_refl) _ _).
    + reflexivity.
    + reflexivity.
Defined.

Lemma eligibility_gating_witness :
  lastCheckMap w_checked !! "C1|mr|abc123" = Some (noon - 1000)
  /\ was_skipped w_checked stats0
       (checkOnce_step (env_of "1.1.0" true) false abc123
          (w_checked, stats0))
  /\ was_checked abc123 w_checked stats0
       (checkOnce_step (env_of "1.1.0" true) true abc123
          (w_checked, stats0)).
Proof.
  assert (H1 : lastCheckMap w_checked
               !! getStateKey (channelId abc123) (platform abc123)
                    (projectId abc123) = Some (noon - 1000))
    by (vm_compute; reflexivity).
  split; [exact H1|]. split.
  - refine (proj1 (proj1 (eligibility_gating (env_of "1.1.0" true) false
                            abc123 w_checked stats0)
                     (noon - 1000) H1 eq_refl) _).
    vm_compute; reflexivity.
  - exact (proj1 (proj2 (proj2 (eligibility_gating (env_of "1.1.0" true) true
                                  abc123 w_checked stats0))) eq_refl).
Defined.

Lemma add_keeps_pairs_unique_witness :
  unique_config (H := decimal) following
  /\ (@notify_add decimal (env_of "1.0.0" true) (member "C1") (Str "mr")
        (Str " abc123 ") w_new).1 = AlreadyExists mr "abc123"
  /\ unique_config (H := decimal)
       (config (@notify_add decimal (env_of "1.0.0" true) (member "C1")
                  (Str "mr") (Str "other") w_new).2).
Proof.
  assert (H1 : unique_config (H := decimal)
                 (config (@loadConfigFromFile (env_of "1.0.0" true) w_new))).
  { repeat constructor. inversion 1. }
  split; [exact H1|]. split.
  - refine (proj1 (proj2 (@add_keeps_pairs_unique decimal (env_of "1.0.0" true)
                            (member "C1") (Str "mr") (Str " abc123 ") w_new H1)
                     mr _ _ _ _ _ _)).
    + reflexivity.
    + reflexivity.
    + reflexivity.
    + reflexivity.
    + discriminate.
    + reflexivity.
  - exact (proj1 (@add_keeps_pairs_unique decimal (env_of "1.0.0" true)
                    (member "C1") (Str "mr") (Str "other") w_new H1)).
Defined.

Lemma forced_check_always_notifies_witness :
  persisted w_seen !! "C1|mr|abc123" = Some (Str "1.0.0")
  /\ (checkOne (env_of "1.0.0" true) abc123 true w_seen).1
     = Some {| sent := true; updated_flag := true |}
  /\ notifications
       (trace (checkOne (env_of "1.0.0" true) abc123 true w_seen).2) = 1%nat
  /\ delivered (trace (checkOne (env_of "1.0.0" true) abc123 true w_seen).2)
     = [("C1", "card")]
  /\ stateFile (checkOne (env_of "1.0.0" true) abc123 true w_seen).2
     = Document [("C1|mr|abc123", Some (Str "1.0.0"))].
Proof.
  split; [vm_compute; reflexivity|].
  destruct (forced_check_always_notifies (env_of "1.0.0" true) abc123 w_seen
              (release "1.0.0") eq_refl) as (R & N & _ & _ & D & F).
  split; [exact R|]. split; [exact N|]. split.
  - refine (D ["card"] eq_refl _). repeat constructor; discriminate.
  - refine (eq_trans (proj1 (F eq_refl eq_refl)) _). vm_compute. reflexivity.
Defined.

(** C8 as stated fails: the settings have no [enabled] flag and the
    interval [Infinity], and [notify.add] stores a subscription with that
    interval.  Saved and loaded by a fresh process, the flag is [false] and
    the interval [null]; the subscription, enumerated before, is not
    enumerated any more. *)
Lemma round_trip_changes_config :
  cfg_enabled (config w_subscribed) = Undefined
  /\ cfg_groups (config w_subscribed)
     = Some [group_of "C1" true [stored "mr" "abc123" (Num PInf)]]
  /\ (@getConfigSubs decimal Undefined (config w_subscribed)).1
     = [ {| channelId := "C1"; platform := mr; projectId := "abc123";
            interval := PInf |} ]
  /\ cfg_enabled
       (config (loadConfigFromFile (env_of "1.0.0" true)
                  (fresh_process unbounded noon
                     (saveConfigToFile (env_of "1.0.0" true) w_subscribed))))
     = Bool false
  /\ cfg_groups
       (config (loadConfigFromFile (env_of "1.0.0" true)
                  (fresh_process unbounded noon
                     (saveConfigToFile (env_of "1.0.0" true) w_subscribed))))
     = Some [group_of "C1" true [stored "mr" "abc123" Null]]
  /\ (@getConfigSubs decimal Undefined
        (config (loadConfigFromFile (env_of "1.0.0" true)
                   (fresh_process unbounded noon
                      (saveConfigToFile (env_of "1.0.0" true)
                         w_subscribed))))).1
     = [].
Proof. vm_compute. repeat split; reflexivity. Qed.

Lemma persistence_round_trip_witness :
  cfg_enabled
    (config (@loadConfigFromFile (env_of "1.0.0" false)
               (fresh_process (config_of []) 0
                  (@saveConfigToFile (env_of "1.0.0" true) w_seen))))
  = cfg_enabled (config w_seen)
  /\ cfg_groups
       (config (@loadConfigFromFile (env_of "1.0.0" false)
                  (fresh_process (config_of []) 0
                     (@saveConfigToFile (env_of "1.0.0" true) w_seen))))
     = cfg_groups (config w_seen)
  /\ stateCache (loadStateFromFile
                   (fresh_process (config_of []) 0
                      (saveStateToFile (env_of "1.0.0" true) w_seen)))
     = seen "1.0.0".
Proof.
  destruct (persistence_round_trip (env_of "1.0.0" true)
              (env_of "1.0.0" false) w_seen (config_of []) 0 eq_refl eq_refl)
    as ((_ & _ & E & _ & G) & (_ & S)).
  split; [exact (E eq_refl)|]. split.
  - apply G. repeat constructor.
  - apply S. intros k v Hkv. unfold w_seen, world_of, seen in Hkv.
    cbn in Hkv. apply lookup_singleton_Some in Hkv as [<- <-].
    split; [discriminate | exact I].
Defined.

Lemma disabled_channel_is_not_checked_witness :
  (@notify_check decimal (env_of "1.1.0" true) (member "C1") Undefined true
     w_off).1 = NoSubscriptions
  /\ fetches (trace (@notify_check decimal (env_of "1.1.0" true) (member "C1")
                       Undefined true w_off).2) = [].
Proof.
  destruct (@disabled_channel_is_not_checked decimal (env_of "1.1.0" true)
              (member "C1") Undefined true w_off) as (R & F & _).
  - reflexivity.
  - reflexivity.
  - intros g Hg _. apply list_elem_of_singleton in Hg. subst g. reflexivity.
  - split; [exact R | exact F].
Defined.

End Examples.

(** ** Further worked examples *)

Section MoreExamples.

Import Sample Cases.

Lemma checkOnce_accounting_witness :
  (@checkOnce decimal (env_of "1.1.0" true) Undefined false w_seen).1
  = Some (count_updated (count_checked stats0))
  /\ notifications
       (trace (@checkOnce decimal (env_of "1.1.0" true) Undefined false
                 w_seen).2) = 1%nat.
Proof.
  assert (H : @checkOnce decimal (env_of "1.1.0" true) Undefined false w_seen
              = (Some (count_updated (count_checked stats0)),
                 (@checkOnce decimal (env_of "1.1.0" true) Undefined false
                    w_seen).2))
    by (vm_compute; reflexivity).
  split; [rewrite H at 1; reflexivity|].
  exact (proj1 (proj2 (proj2 (@checkOnce_accounting decimal _ _ _ _ _ _ H)))).
Defined.

Lemma checkOnce_master_switch_witness :
  truthy (cfg_enabled (config w_disabled)) = false
  /\ (@checkOnce decimal (env_of "1.1.0" true) Undefined true w_disabled).1
     = None
  /\ fetches (trace (@checkOnce decimal (env_of "1.1.0" true) Undefined true
                       w_disabled).2) = [].
Proof.
  assert (H : truthy (cfg_enabled
                        (config (loadConfigFromFile (env_of "1.1.0" true)
                                   w_disabled))) = false)
    by reflexivity.
  split; [exact H|].
  destruct (@checkOnce_master_switch decimal (env_of "1.1.0" true) Undefined
              true w_disabled H) as (R & F & _).
  split; [exact R | exact F].
Defined.

Lemma failed_fetch_consumes_window_witness :
  latest_of env_down abc123 = FetchThrows
  /\ failed (checkOnce_step env_down false abc123 (w_seen, stats0)).2 = 1%nat
  /\ lastCheckMap (checkOnce_step env_down false abc123 (w_seen, stats0)).1
       !! "C1|mr|abc123" = Some noon.
Proof.
  assert (H : latest_of env_down abc123 = FetchThrows) by reflexivity.
  split; [exact H|].
  destruct (failed_fetch_consumes_window env_down false abc123 w_seen stats0)
    as (F & _ & _ & _ & _ & _ & L & _).
  - vm_compute; reflexivity.
  - left. exact H.
  - split; [exact F | exact L].
Defined.

Lemma empty_lastVersion_is_repaired_witness :
  persisted w_blank !! "C1|mr|abc123" = Some (Str "")
  /\ (checkOne (env_of "1.1.0" true) abc123 false w_blank).1
     = Some {| sent := false; updated_flag := false |}
  /\ persisted (checkOne (env_of "1.1.0" true) abc123 false w_blank).2
       !! "C1|mr|abc123" = Some (Str "1.1.0").
Proof.
  assert (H : persisted w_blank
              !! getStateKey (channelId abc123) (platform abc123)
                   (projectId abc123) = Some (Str ""))
    by (vm_compute; reflexivity).
  split; [exact H|].
  destruct (empty_lastVersion_is_repaired (env_of "1.1.0" true) abc123
              w_blank stats0 (release "1.1.0") (Str "") H eq_refl eq_refl)
    as (_ & R & _ & P).
  split; [exact R | exact P].
Defined.

Lemma manual_check_is_outside_the_schedule_witness :
  latest_of env_down abc123 = FetchThrows
  /\ persisted (checkOne env_down abc123 true w_seen).2 = persisted w_seen
  /\ lastCheckMap (checkOne env_down abc123 true w_seen).2 = ∅.
Proof.
  assert (H : latest_of env_down abc123 = FetchThrows) by reflexivity.
  split; [exact H|].
  destruct (manual_check_is_outside_the_schedule env_down abc123 true w_seen)
    as (L & _ & _ & Q).
  split; [exact (proj1 (Q (or_introl H))) | exact L].
Defined.

Lemma getStateKey_injective_witness :
  no_bar "C1" = true
  /\ getStateKey "C1" mr "abc123" = "C1|mr|abc123"
  /\ (forall p i, getStateKey "C1" p i = "C1|mr|abc123" ->
        p = mr /\ i = "abc123").
Proof.
  assert (H : no_bar "C1" = true) by reflexivity.
  split; [exact H|]. split; [reflexivity|].
  intros p i E.
  exact (proj2 (getStateKey_injective "C1" "C1" p mr i "abc123" H H E)).
Defined.

Lemma state_entries_are_independent_witness :
  ("C1", mr, "abc123") <> ("C2", mr, "abc123")
  /\ (getState "C1" mr "abc123"
        (updateState (env_of "1.1.0" true) "C1" mr "abc123" "2.0.0" w_seen)).1
     = Some (Str "2.0.0")
  /\ (getState "C2" mr "abc123"
        (updateState (env_of "1.1.0" true) "C1" mr "abc123" "2.0.0" w_seen)).1
     = None.
Proof.
  assert (H : ("C1", mr, "abc123") <> ("C2", mr, "abc123")) by discriminate.
  split; [exact H|].
  exact (state_entries_are_independent (env_of "1.1.0" true) "C1" "C2" mr mr
           "abc123" "abc123" "2.0.0" w_seen eq_refl eq_refl H).
Defined.

Lemma lost_state_file_reseeds_silently_witness :
  stateFile w_started = Unreadable
  /\ notifications
       (trace (checkOnce_step (env_of "1.1.0" true) false abc123
                 (w_started, stats0)).1) = 0%nat
  /\ persisted (checkOnce_step (env_of "1.1.0" true) false abc123
                  (w_started, stats0)).1
     = {[ "C1|mr|abc123" := Str "1.1.0" ]}.
Proof.
  assert (H : stateFile w_started = Unreadable) by reflexivity.
  split; [exact H|].
  destruct (lost_state_file_reseeds_silently (env_of "1.1.0" true) false
              abc123 w_started stats0 (release "1.1.0"))
    as (_ & N & _ & P & _).
  - reflexivity.
  - reflexivity.
  - reflexivity.
  - left. exact H.
  - vm_compute; reflexivity.
  - reflexivity.
  - split; [exact N | exact P].
Defined.

Lemma unwritable_state_stays_in_memory_witness :
  diskWritable env_readonly = false
  /\ (getState "C1" mr "abc123"
        (updateState env_readonly "C1" mr "abc123" "2.0.0" w_seen)).1
     = Some (Str "2.0.0")
  /\ stateFile (updateState env_readonly "C1" mr "abc123" "2.0.0" w_seen)
     = Unreadable.
Proof.
  assert (H : diskWritable env_readonly = false) by reflexivity.
  split; [exact H|].
  destruct (unwritable_state_stays_in_memory env_readonly "C1" mr "abc123"
              "2.0.0" w_seen (or_introl H)) as (G & F & _).
  split; [exact G | exact F].
Defined.

Lemma loadConfigFromFile_once_witness :
  configLoaded w_started = false
  /\ configFile (loadConfigFromFile (env_of "1.1.0" true) w_started)
     = Document (config_document following).
Proof.
  assert (H : configLoaded w_started = false) by reflexivity.
  split; [exact H|].
  destruct (loadConfigFromFile_once (env_of "1.1.0" true) w_started)
    as (_ & _ & _ & Q).
  destruct (Q H) as (_ & _ & Heal & _).
  exact (proj2 (Heal _ _ eq_refl eq_refl) eq_refl).
Defined.

Lemma ensureGroup_is_invisible_witness :
  (@ensureGroup decimal (Str "C2") following).1 = 1%nat
  /\ (@getConfigSubs decimal Undefined
        (@ensureGroup decimal (Str "C2") following).2).1
     = (@getConfigSubs decimal Undefined following).1.
Proof.
  split; [reflexivity|].
  exact (proj1 (proj2 (@ensureGroup_is_invisible decimal (Str "C2") Undefined
                         following))).
Defined.

Lemma add_appends_one_entry_witness :
  @accepted decimal (config w_new) (member "C1") (Str "cf") (Str " 238222 ")
    cf
  /\ (@notify_add decimal (env_of "1.1.0" true) (member "C1") (Str "cf")
        (Str " 238222 ") w_new).1 = Added cf "238222"
  /\ @channel_subs decimal (Str "C1")
       (config (@notify_add decimal (env_of "1.1.0" true) (member "C1")
                  (Str "cf") (Str " 238222 ") w_new).2)
     = [ stored "mr" "abc123" Undefined;
         stored "cf" "238222" (Num (Fin 1800000)) ].
Proof.
  assert (H : @accepted decimal
                (config (@loadConfigFromFile (env_of "1.1.0" true) w_new))
                (member "C1") (Str "cf") (Str " 238222 ") cf).
  { repeat split; try reflexivity. discriminate. }
  split; [exact H|].
  destruct (@add_appends_one_entry decimal (env_of "1.1.0" true) (member "C1")
              (Str "cf") (Str " 238222 ") w_new cf H eq_refl)
    as (R & L & _).
  split; [exact R | exact L].
Defined.

Lemma added_subscription_is_enumerated_witness :
  exists before after,
    (@getConfigSubs decimal Undefined (config w_new)).1 = before ++ after
    /\ (@getConfigSubs decimal Undefined
          (config (@notify_add decimal (env_of "1.1.0" true) (member "C1")
                     (Str "cf") (Str " 238222 ") w_new).2)).1
       = before ++ [ {| channelId := "C1"; platform := cf;
                        projectId := "238222"; interval := Fin 1800000 |} ]
                ++ after.
Proof.
  assert (H : @accepted decimal
                (config (@loadConfigFromFile (env_of "1.1.0" true) w_new))
                (member "C1") (Str "cf") (Str " 238222 ") cf).
  { repeat split; try reflexivity. discriminate. }
  destruct (@added_subscription_is_enumerated decimal (env_of "1.1.0" true)
              (member "C1") (Str "cf") (Str " 238222 ") w_new cf Undefined H
              eq_refl)
    as (before & after & extra & E1 & E2 & _ & E4).
  exists before, after. split; [exact E1|].
  rewrite E2. f_equal. f_equal. apply E4.
  - exists "C1". reflexivity.
  - right. reflexivity.
  - intros g Hg. injection Hg as <-. split; reflexivity.
Defined.

Lemma remove_drops_every_match_witness :
  @accepted decimal (config w_new) (member "C1") (Str "mr") (Str "abc123") mr
  /\ (@notify_remove decimal (env_of "1.1.0" true) (member "C1") (Str "mr")
        (Str "abc123") w_new).1 = Removed mr "abc123"
  /\ @channel_subs decimal (Str "C1")
       (config (@notify_remove decimal (env_of "1.1.0" true) (member "C1")
                  (Str "mr") (Str "abc123") w_new).2) = [].
Proof.
  assert (H : @accepted decimal
                (config (@loadConfigFromFile (env_of "1.1.0" true) w_new))
                (member "C1") (Str "mr") (Str "abc123") mr).
  { repeat split; try reflexivity. discriminate. }
  split; [exact H|].
  destruct (@remove_drops_every_match decimal (env_of "1.1.0" true)
              (member "C1") (Str "mr") (Str "abc123") w_new mr H)
    as (L & _ & R & _).
  split; [exact (proj1 (R eq_refl)) | exact L].
Defined.

Lemma add_then_remove_restores_lists_witness :
  @channel_subs decimal (Str "C1")
    (config (@notify_remove decimal (env_of "1.1.0" true) (member "C1")
               (Str "cf") (Str "238222")
               (@notify_add decimal (env_of "1.1.0" true) (member "C1")
                  (Str "cf") (Str "238222") w_new).2).2)
  = [ stored "mr" "abc123" Undefined ].
Proof.
  assert (H : @accepted decimal
                (config (@loadConfigFromFile (env_of "1.1.0" true) w_new))
                (member "C1") (Str "cf") (Str "238222") cf).
  { repeat split; try reflexivity. discriminate. }
  exact (proj2 (proj2 (@add_then_remove_restores_lists decimal
                         (env_of "1.1.0" true) (member "C1") (Str "cf")
                         (Str "238222") w_new cf H eq_refl)) (Str "C1")).
Defined.

Lemma rejected_commands_change_nothing_witness :
  @requireManage decimal (config w_guarded) (member "C1") = false
  /\ (exists r,
        @notify_remove decimal (env_of "1.1.0" true) (member "C1") (Str "mr")
          (Str "abc123") w_guarded = (Rejected r, w_guarded))
  /\ @notify_enable decimal (env_of "1.1.0" true) (member "C1") (Str "off")
       w_guarded = (Rejected PermissionDenied, w_guarded).
Proof.
  assert (H : @requireManage decimal
                (config (@loadConfigFromFile (env_of "1.1.0" true) w_guarded))
                (member "C1") = false) by reflexivity.
  split; [exact H|].
  destruct (@rejected_commands_change_nothing decimal (env_of "1.1.0" true)
              (member "C1") (Str "mr") (Str "abc123") (Str "off") Undefined
              false w_guarded (or_intror H))
    as (_ & (r & Hr & _) & _).
  split; [exists r; exact Hr | reflexivity].
Defined.

Lemma enable_switches_the_channel_witness :
  @parseOnOff (Str " OFF ") = Some false
  /\ (@notify_enable decimal (env_of "1.1.0" true) (member "C1")
        (Str " OFF ") w_new).1 = SwitchedOff
  /\ (@getConfigSubs decimal (Str "C1")
        (config (@notify_enable decimal (env_of "1.1.0" true) (member "C1")
                   (Str " OFF ") w_new).2)).1 = [].
Proof.
  assert (H : @parseOnOff (Str " OFF ") = Some false)
    by (vm_compute; reflexivity).
  split; [exact H|].
  destruct (@enable_switches_the_channel decimal (env_of "1.1.0" true)
              (member "C1") (Str " OFF ") w_new "C1") as (_ & Q).
  - reflexivity.
  - discriminate.
  - reflexivity.
  - split.
    + repeat constructor. exists "C1". reflexivity.
    + repeat constructor. inversion 1.
  - destruct (Q false H) as (R & _ & E & _).
    split; [exact R | exact E].
Defined.

Lemma numeric_argument_is_a_position_witness :
  @ToNumber decimal (Str "238222") = Fin 238222
  /\ (@getConfigSubs decimal (Str "C1") (config w_cf)).1
     = [ {| channelId := "C1"; platform := cf; projectId := "238222";
            interval := Fin 1800000 |} ]
  /\ (@notify_check decimal (env_of "1.1.0" true) (member "C1")
        (Str "238222") false w_cf).1 = NoSuchIndex.
Proof.
  assert (H : @ToNumber decimal (Str "238222") = Fin 238222)
    by (vm_compute; reflexivity).
  split; [exact H|]. split; [vm_compute; reflexivity|].
  destruct (@numeric_argument_is_a_position decimal (env_of "1.1.0" true)
              (member "C1") (Str "238222") false w_cf 238222) as (_ & Q).
  - reflexivity.
  - reflexivity.
  - reflexivity.
  - exact H.
  - lia.
  - destruct Q as (_ & R & _).
    + vm_compute; reflexivity.
    + apply R. discriminate.
Defined.

Lemma manual_check_command_witness :
  (@notify_check decimal (env_of "1.1.0" true) (member "C1") Undefined false
     w_seen).1 = Silent
  /\ lastCheckMap
       (@notify_check decimal (env_of "1.1.0" true) (member "C1") Undefined
          false w_seen).2 = ∅
  /\ fetches
       (trace (@notify_check decimal (env_of "1.1.0" true) (member "C1")
                 Undefined false w_seen).2)
     = [ EvFetchLatest mr "abc123" ].
Proof.
  split; [vm_compute; reflexivity|].
  destruct (@manual_check_command decimal (env_of "1.1.0" true) (member "C1")
              Undefined false w_seen eq_refl eq_refl)
    as (L & _ & _ & _ & F).
  split; [exact L|]. apply F; [reflexivity | discriminate].
Defined.

Lemma list_numbers_are_check_positions_witness :
  exists lines,
    (@notify_list decimal (env_of "1.1.0" true) (member "C1") w_new).1
    = Listing true lines
    /\ length lines = 1%nat.
Proof.
  destruct (@list_numbers_are_check_positions decimal (env_of "1.1.0" true)
              (member "C1") w_new "C1"
              (group_of "C1" true [stored "mr" "abc123" Undefined]))
    as (lines & E & Hlen & _).
  - reflexivity.
  - discriminate.
  - reflexivity.
  - split.
    + repeat constructor. exists "C1". reflexivity.
    + repeat constructor. inversion 1.
  - reflexivity.
  - reflexivity.
  - repeat constructor. eexists. vm_compute. reflexivity.
  - discriminate.
  - exists lines. split; [exact E | exact Hlen].
Defined.

Lemma permission_ladder_witness :
  has_role "owner" (session_roles owner_sources) = true
  /\ @requireManage decimal guarded
       (session_of (Str "C1") owner_sources LookupThrows) = true.
Proof.
  assert (H : has_role "owner" (session_roles owner_sources) = true)
    by reflexivity.
  split; [exact H|].
  destruct (@permission_ladder decimal guarded (Str "C1") owner_sources
              LookupThrows) as (_ & _ & _ & _ & O & _).
  exact (O H).
Defined.

Lemma parseChannelId_splits_at_first_colon_witness :
  no_colon "onebot" = true
  /\ parseChannelId "onebot:12345:6" = Some ("onebot", "12345:6").
Proof.
  assert (H : no_colon "onebot" = true) by reflexivity.
  split; [exact H|].
  refine (proj1 (parseChannelId_splits_at_first_colon "") "onebot" "12345:6"
            _ H).
  discriminate.
Defined.

Lemma sendToChannel_routes_witness :
  parseChannelId "discord:42" = Some ("discord", "42")
  /\ sendToChannel two_bots "discord:42"
     = (Sent, [ {| call_bot := 1; call_target := "42" |} ]).
Proof.
  assert (H : parseChannelId "discord:42" = Some ("discord", "42"))
    by reflexivity.
  split; [exact H|].
  destruct (sendToChannel_routes two_bots "discord:42") as (_ & Q & _).
  destruct (Q "discord" "42" 1%nat H eq_refl) as (C & R).
  destruct (sendToChannel two_bots "discord:42") as [res calls].
  cbn [fst snd] in C, R. rewrite C, R. reflexivity.
Defined.

Lemma images_go_out_in_order_witness :
  deliver env_three_images "C1" "b" = SendThrows
  /\ trace (sendUpdate env_three_images "C1" mr "abc123" (release "1.1.0")
              w_seen)
     = [ EvSendUpdate "C1" mr "abc123" (release "1.1.0");
         EvDelivered "C1" "a";
         EvWarn (SendFailed mr "abc123") ].
Proof.
  assert (H : deliver env_three_images "C1" "b" = SendThrows) by reflexivity.
  split; [exact H|].
  destruct (images_go_out_in_order env_three_images "C1" mr "abc123"
              (release "1.1.0") w_seen {| source := "Modrinth" |}
              ["a"; "b"; "c"] eq_refl eq_refl) as (_ & Q).
  refine (Q ["a"] "b" ["c"] eq_refl _ H).
  repeat constructor. discriminate.
Defined.

Lemma pages_number_every_result_witness :
  twelve !! 10%nat = Some "r11"
  /\ (11, "r11") ∈ Mcmod.page_lines (Mcmod.formatListPage twelve 1 "mod").
Proof.
  assert (H : twelve !! 10%nat = Some "r11") by reflexivity.
  split; [exact H|].
  exact (proj1 (proj2 (proj1 (proj2 (pages_number_every_result twelve "mod"))
                         10%nat "r11" H))).
Defined.

Lemma page_turn_stays_on_a_page_witness :
  Mcmod.on_page (Mcmod.typed_state "mod" twelve 7%nat) 0
  /\ Mcmod.st_pageIndex
       (Mcmod.page_turn (fun _ => 8%nat) true
          (Mcmod.typed_state "mod" twelve 7%nat)).2 = Some 1
  /\ Mcmod.page_turn (fun _ => 8%nat) false
       (Mcmod.typed_state "mod" twelve 7%nat)
     = (Mcmod.NoMorePages, Mcmod.typed_state "mod" twelve 7%nat).
Proof.
  assert (H : Mcmod.on_page (Mcmod.typed_state "mod" twelve 7%nat) 0).
  { split; [reflexivity|]. split; [lia | reflexivity]. }
  split; [exact H|]. split.
  - destruct (page_turn_stays_on_a_page (fun _ => 8%nat) true
                (Mcmod.typed_state "mod" twelve 7%nat) 0 H)
      as (_ & _ & _ & Q).
    destruct Q as ((P & _) & _); [discriminate | exact P].
  - destruct (page_turn_stays_on_a_page (fun _ => 8%nat) false
                (Mcmod.typed_state "mod" twelve 7%nat) 0 H)
      as (_ & _ & Q & _).
    exact (Q eq_refl).
Defined.

Lemma selection_is_what_the_page_shows_witness :
  Mcmod.on_page (Mcmod.typed_state "mod" twelve 7%nat) 0
  /\ (Mcmod.select_item 3 (Mcmod.typed_state "mod" twelve 7%nat)).1
     = Mcmod.Chosen 7%nat "r3"
  /\ (Mcmod.select_item 11 (Mcmod.typed_state "mod" twelve 7%nat)).1
     <> Mcmod.Chosen 7%nat "r11".
Proof.
  assert (H : Mcmod.on_page (Mcmod.typed_state "mod" twelve 7%nat) 0).
  { split; [reflexivity|]. split; [lia | reflexivity]. }
  split; [exact H|]. split.
  - apply (proj1 (selection_is_what_the_page_shows
                    (Mcmod.typed_state "mod" twelve 7%nat) 0 3 H) "r3").
    apply list_elem_of_lookup. exists 2%nat. reflexivity.
  - discriminate.
Defined.

Lemma plain_search_list_cannot_be_paged_witness :
  Mcmod.page_turn (fun _ => 8%nat) true (Mcmod.plain_state twelve 7%nat)
  = (Mcmod.NoMorePages, Mcmod.plain_state twelve 7%nat)
  /\ Mcmod.number_input (Some 11) (Mcmod.plain_state twelve 7%nat)
     = Some (Mcmod.Chosen 7%nat "r11", None).
Proof.
  destruct (plain_search_list_cannot_be_paged (fun _ => 8%nat) twelve 7%nat
              true 11) as (T & _ & Q).
  split; [exact T|]. apply Q; [lia | reflexivity].
Defined.

End MoreExamples.
